(** * Azure cost dashboard: normalizer, metric reduction, classifier,
      date windows and persistence inserts

    A shallow embedding of [TimerFunction/__init__.py] and
    [postgres_helper.py].

    Modelling conventions.
    - A Python [float] is an exact rational ([Finite q]) or one of the
      special values; binary64 rounding is not part of the model, the
      overflow threshold of binary64 is.
    - A Python [str] is a [string] of ASCII characters.
    - A raised exception is the [Raise] constructor of [result]; a
      [try]/[except] is a match on it.
    - The provider SDKs are read-only for the length of a run: a client is a
      function from the request to its answer. *)

From Stdlib Require Import List String Ascii Bool ZArith QArith Qabs Qround Lia.
From Stdlib Require Import Lqa.
From Stdlib Require Import DecimalString.
Import ListNotations.

Set Implicit Arguments.

(* ================================================================== *)
(** ** Exceptions *)

Inductive exn : Type :=
| ValueError
| TypeError
| OverflowError
| IndexError
| InvalidOperation
| AzureError
| PostgreSQLConnectionError
| PostgreSQLDataError.

Inductive result (A : Type) : Type :=
| Ok (a : A)
| Raise (e : exn).

Arguments Ok {A} a.
Arguments Raise {A} e.

Definition bind {A B : Type} (m : result A) (k : A -> result B) : result B :=
  match m with
  | Ok a => k a
  | Raise e => Raise e
  end.

Notation "x <- m ;; k" := (bind m (fun x => k))
  (at level 61, m at next level, right associativity).

Definition raises {A : Type} (m : result A) : bool :=
  match m with
  | Ok _ => false
  | Raise _ => true
  end.

(* ================================================================== *)
(** ** The Python values found in a provider row *)

Module Py.

Inductive pyfloat : Type :=
| Finite (q : Q)
| Inf (negative : bool)
| NaN.

(** JSON scalars, as the SDK hands them over. *)
Inductive value : Type :=
| VNone
| VBool (b : bool)
| VInt (n : Z)
| VFloat (x : Q)
| VStr (s : string).

Definition Qnonzero (q : Q) : bool := negb (Qeq_bool q 0).

(** [bool(v)], the test of [x if v else y]. *)
Definition truthy (v : value) : bool :=
  match v with
  | VNone => false
  | VBool b => b
  | VInt n => negb (n =? 0)%Z
  | VFloat x => Qnonzero x
  | VStr s => negb (String.eqb s EmptyString)
  end.

(** *** [float(...)] *)

(** Magnitudes from [2^1024 - 2^970] on do not round to a finite binary64. *)
Definition float_overflow : Z := (2 ^ 1024 - 2 ^ 970)%Z.

Definition too_large (q : Q) : bool :=
  Qle_bool (inject_Z float_overflow) (Qabs q).

Definition Qneg (q : Q) : bool := negb (Qle_bool 0 q).

Definition is_space (a : ascii) : bool :=
  let n := nat_of_ascii a in
  ((9 <=? n) && (n <=? 13) || (28 <=? n) && (n <=? 32))%nat.

Definition is_digit (a : ascii) : bool :=
  let n := nat_of_ascii a in ((48 <=? n) && (n <=? 57))%nat.

Definition digit_value (a : ascii) : Z := Z.of_nat (nat_of_ascii a - 48).

Definition lower (a : ascii) : ascii :=
  let n := nat_of_ascii a in
  if ((65 <=? n) && (n <=? 90))%nat then ascii_of_nat (n + 32) else a.

Fixpoint lstrip (l : list ascii) : list ascii :=
  match l with
  | a :: l' => if is_space a then lstrip l' else l
  | [] => []
  end.

Definition strip (l : list ascii) : list ascii :=
  rev (lstrip (rev (lstrip l))).

(** An underscore stands between two digits, and is then ignored. *)
Fixpoint drop_underscores (prev : option ascii) (l : list ascii)
  : option (list ascii) :=
  match l with
  | [] =>
      match prev with
      | Some "_"%char => None
      | _ => Some []
      end
  | a :: l' =>
      if Ascii.eqb a "_" then
        match prev with
        | Some p => if is_digit p then drop_underscores (Some a) l' else None
        | None => None
        end
      else
        match prev with
        | Some "_"%char =>
            if is_digit a
            then option_map (cons a) (drop_underscores (Some a) l')
            else None
        | _ => option_map (cons a) (drop_underscores (Some a) l')
        end
  end.

(** Leading digits of [l]: their value after [acc], how many, the rest. *)
Fixpoint digits (l : list ascii) (acc : Z) (count : nat)
  : Z * nat * list ascii :=
  match l with
  | a :: l' =>
      if is_digit a
      then digits l' (10 * acc + digit_value a)%Z (S count)
      else (acc, count, l)
  | [] => (acc, count, [])
  end.

Definition sign_of (l : list ascii) : bool * list ascii :=
  match l with
  | "-"%char :: l' => (true, l')
  | "+"%char :: l' => (false, l')
  | _ => (false, l)
  end.

Definition scale10 (m e : Z) : Q :=
  if (0 <=? e)%Z then inject_Z (m * 10 ^ e)
  else Qmake m (Z.to_pos (10 ^ (- e))).

Definition round_to_float (q : Q) : pyfloat :=
  if too_large q then Inf (Qneg q) else Finite q.

Definition exponent_of (l : list ascii) : option Z :=
  match l with
  | [] => Some 0%Z
  | c :: l' =>
      if Ascii.eqb (lower c) "e" then
        let (neg, l'') := sign_of l' in
        match digits l'' 0%Z 0%nat with
        | (_, O, _) => None
        | (e, S _, []) => Some (if neg then (- e)%Z else e)
        | (_, S _, _ :: _) => None
        end
      else None
  end.

Definition unsigned_number (l : list ascii) : option Q :=
  let '(int_part, ni, l1) := digits l 0%Z 0%nat in
  let '(mantissa, nf, l2) :=
    match l1 with
    | "."%char :: l1' => digits l1' int_part 0%nat
    | _ => (int_part, 0%nat, l1)
    end in
  match (ni + nf)%nat with
  | O => None
  | S _ =>
      match exponent_of l2 with
      | Some e => Some (scale10 mantissa (e - Z.of_nat nf))
      | None => None
      end
  end.

Definition float_of_chars (l : list ascii) : option pyfloat :=
  let (neg, body) := sign_of (strip l) in
  let word := string_of_list_ascii (map lower body) in
  if (String.eqb word "inf" || String.eqb word "infinity")%bool then
    Some (Inf neg)
  else if String.eqb word "nan" then Some NaN
  else
    match drop_underscores None body with
    | None => None
    | Some body' =>
        match unsigned_number body' with
        | Some q => Some (round_to_float (if neg then Qopp q else q))
        | None => None
        end
    end.

Definition float_of_string (s : string) : result pyfloat :=
  match float_of_chars (list_ascii_of_string s) with
  | Some f => Ok f
  | None => Raise ValueError
  end.

Definition float_of_int (n : Z) : result pyfloat :=
  if too_large (inject_Z n) then Raise OverflowError
  else Ok (Finite (inject_Z n)).

Definition float (v : value) : result pyfloat :=
  match v with
  | VNone => Raise TypeError
  | VBool b => Ok (Finite (if b then 1 else 0))
  | VInt n => float_of_int n
  | VFloat x => Ok (Finite x)
  | VStr s => float_of_string s
  end.

(** *** [str(...)] *)

Definition str_of_int (n : Z) : string :=
  NilZero.string_of_int (Z.to_int n).

(** Digits of the fraction [num / den], most significant first. *)
Fixpoint fraction_digits (fuel : nat) (num : Z) (den : Z) : string :=
  match fuel with
  | O => EmptyString
  | S fuel' =>
      let d := (10 * num / den)%Z in
      let r := (10 * num mod den)%Z in
      String (ascii_of_nat (48 + Z.to_nat d))
             (if (r =? 0)%Z then EmptyString
              else fraction_digits fuel' r den)
  end.

(** [repr] of a float in positional notation, as for [12.5] or [-3.0];
    the exponent form that [repr] takes for very large and very small
    magnitudes is not modelled. *)
Definition str_of_float (x : Q) : string :=
  let n := Z.abs (Qnum x) in
  let d := Zpos (Qden x) in
  ((if Qneg x then "-" else EmptyString) ++ str_of_int (n / d) ++ "."
     ++ fraction_digits 17 (n mod d) d)%string.

Definition str (v : value) : string :=
  match v with
  | VNone => "None"
  | VBool true => "True"
  | VBool false => "False"
  | VInt n => str_of_int n
  | VFloat x => str_of_float x
  | VStr s => s
  end.

End Py.
Import Py.

(* ================================================================== *)
(** ** Cost response normalizer ([process_cost_response]) *)

Definition row : Type := list value.

(** [row[i]], with Python's negative indices. *)
Definition getitem (r : row) (i : Z) : result value :=
  let n := Z.of_nat (List.length r) in
  let j := if (i <? 0)%Z then (n + i)%Z else i in
  if ((0 <=? j) && (j <? n))%Z then
    match nth_error r (Z.to_nat j) with
    | Some v => Ok v
    | None => Raise IndexError
    end
  else Raise IndexError.

(** The dict appended for a row: [dimension] alone, or [region_name] and
    [service_name]. *)
Inductive CostRow : Type :=
| SingleDim (date : option string) (dimension : string)
            (cost_amount : pyfloat)
| RegionService (date : option string) (region_name service_name : string)
                (cost_amount : pyfloat).

Definition row_date (c : CostRow) : option string :=
  match c with
  | SingleDim d _ _ => d
  | RegionService d _ _ _ => d
  end.

Definition row_cost_amount (c : CostRow) : pyfloat :=
  match c with
  | SingleDim _ _ a => a
  | RegionService _ _ _ a => a
  end.

(** [str(v) if v else None] *)
Definition date_of (v : value) : option string :=
  if truthy v then Some (str v) else None.

(** [str(v) if v else 'Unknown'] *)
Definition name_of (v : value) : string :=
  if truthy v then str v else "Unknown"%string.

(** [float(v) if v else 0.0] *)
Definition cost_of (v : value) : result pyfloat :=
  if truthy v then float v else Ok (Finite 0).

(** The body of the [for] loop: the record to append, if any. *)
Definition process_row (r : row) : result (option CostRow) :=
  if (3 <=? List.length r)%nat then
    r0 <- getitem r 0 ;;
    let date_str := date_of r0 in
    rl <- getitem r (-1) ;;
    cost_amount <- cost_of rl ;;
    if (List.length r =? 3)%nat then
      r1 <- getitem r 1 ;;
      let dimension := name_of r1 in
      Ok (Some (SingleDim date_str dimension cost_amount))
    else if (4 <=? List.length r)%nat then
      r1 <- getitem r 1 ;;
      let region := name_of r1 in
      r2 <- getitem r 2 ;;
      let service := name_of r2 in
      Ok (Some (RegionService date_str region service cost_amount))
    else Ok None
  else Ok None.

(** The loop, inside the [try]: [rows] is the list built so far; an
    exception leaves the loop with what [rows] holds at that point. *)
Fixpoint for_rows (pending : list row) (rows : list CostRow)
  : list CostRow * option exn :=
  match pending with
  | [] => (rows, None)
  | r :: pending' =>
      match process_row r with
      | Raise e => (rows, Some e)
      | Ok None => for_rows pending' rows
      | Ok (Some c) => for_rows pending' (rows ++ [c])
      end
  end.

(** What [get_cost_data] returns: the SDK's [QueryResult], whose [rows] may
    be [None], or the dict [{'rows': []}] of its handler, which has no
    [rows] attribute. *)
Inductive response : Type :=
| QueryResult (rows : option (list row))
| FallbackDict.

(** The rows returned and the exception logged by the handler, if any. *)
Definition run_process_cost_response (resp : response)
  : list CostRow * option exn :=
  match resp with
  | QueryResult (Some (r :: rs)) => for_rows (r :: rs) []
  | QueryResult (Some []) => ([], None)
  | QueryResult None => ([], None)
  | FallbackDict => ([], None)
  end.

Definition process_cost_response (resp : response) : list CostRow :=
  fst (run_process_cost_response resp).

Definition process_cost_response_logged (resp : response) : option exn :=
  snd (run_process_cost_response resp).

(* ================================================================== *)
(** ** Metric policy table ([get_primary_metrics_for_service]) *)

Record MetricSpec : Type := {
  metric : string;
  stat : string;
  threshold : Q;
  unit : string
}.

Definition service_metrics : list (string * list MetricSpec) :=
  [ ("Microsoft.Compute/virtualMachines",
     [ {| metric := "Percentage CPU"; stat := "Average";
          threshold := 10; unit := "Percent" |};
       {| metric := "Network In"; stat := "Average";
          threshold := 1000000; unit := "Bytes" |};
       {| metric := "Disk Read Bytes"; stat := "Average";
          threshold := 1000000; unit := "Bytes" |} ]);
    ("Microsoft.DBforPostgreSQL/servers",
     [ {| metric := "cpu_percent"; stat := "Average";
          threshold := 15; unit := "Percent" |};
       {| metric := "connections_active"; stat := "Average";
          threshold := 5; unit := "Count" |};
       {| metric := "io_consumption_percent"; stat := "Average";
          threshold := 10; unit := "Percent" |} ]);
    ("Microsoft.Storage/storageAccounts",
     [ {| metric := "Transactions"; stat := "Sum";
          threshold := 1000; unit := "Count" |};
       {| metric := "UsedCapacity"; stat := "Average";
          threshold := 1000000000; unit := "Bytes" |} ]);
    ("Microsoft.Web/sites",
     [ {| metric := "HttpRequests"; stat := "Sum";
          threshold := 100; unit := "Count" |};
       {| metric := "AverageResponseTime"; stat := "Average";
          threshold := 1000; unit := "Milliseconds" |} ]);
    ("Microsoft.ContainerService/managedClusters",
     [ {| metric := "cpuUsageNanoCores"; stat := "Average";
          threshold := 1000000000; unit := "NanoCores" |};
       {| metric := "memoryWorkingSetBytes"; stat := "Average";
          threshold := 1000000000; unit := "Bytes" |} ]);
    ("Microsoft.Network/loadBalancers",
     [ {| metric := "ByteCount"; stat := "Sum";
          threshold := 1000000; unit := "Bytes" |};
       {| metric := "PacketCount"; stat := "Sum";
          threshold := 1000; unit := "Count" |} ]) ]%string.

Definition default_metrics : list MetricSpec :=
  [ {| metric := "Requests"; stat := "Sum"; threshold := 10;
       unit := "Count" |};
    {| metric := "Errors"; stat := "Sum"; threshold := 1;
       unit := "Count" |} ]%string.

(** [d.get(key, default)] on a dict written as its list of items. *)
Fixpoint dict_get {V : Type} (d : list (string * V)) (key : string)
  (default : V) : V :=
  match d with
  | [] => default
  | (k, v) :: d' => if String.eqb k key then v else dict_get d' key default
  end.

Definition get_primary_metrics_for_service (resource_type : string)
  : list MetricSpec :=
  dict_get service_metrics resource_type default_metrics.

(* ================================================================== *)
(** ** [datetime.date], as far as the code uses it *)

Module Datetime.

Record date : Type := { year : Z; month : Z; day : Z }.

Definition MINYEAR : Z := 1.
Definition MAXYEAR : Z := 9999.

Definition is_leap (y : Z) : bool :=
  ((y mod 4 =? 0) && (negb (y mod 100 =? 0) || (y mod 400 =? 0)))%Z.

Definition days_in_month (y m : Z) : Z :=
  match m with
  | 1 | 3 | 5 | 7 | 8 | 10 | 12 => 31
  | 4 | 6 | 9 | 11 => 30
  | 2 => if is_leap y then 29 else 28
  | _ => 0
  end%Z.

Definition valid (y m d : Z) : bool :=
  ((MINYEAR <=? y) && (y <=? MAXYEAR) && (1 <=? m) && (m <=? 12)
   && (1 <=? d) && (d <=? days_in_month y m))%Z.

(** [date(y, m, d)] *)
Definition make (y m d : Z) : result date :=
  if valid y m d then Ok {| year := y; month := m; day := d |}
  else Raise ValueError.

(** [t.replace(year=..., month=..., day=...)]; an absent keyword keeps the
    field. *)
Definition replace (t : date) (y m d : option Z) : result date :=
  make (match y with Some v => v | None => year t end)
       (match m with Some v => v | None => month t end)
       (match d with Some v => v | None => day t end).

(** [t + timedelta(days=1)] *)
Definition tomorrow (t : date) : result date :=
  if (day t <? days_in_month (year t) (month t))%Z then
    Ok {| year := year t; month := month t; day := day t + 1 |}
  else if (month t <? 12)%Z then
    Ok {| year := year t; month := month t + 1; day := 1 |}
  else if (year t <? MAXYEAR)%Z then
    Ok {| year := year t + 1; month := 1; day := 1 |}
  else Raise OverflowError.

(** [t - timedelta(days=1)] *)
Definition yesterday (t : date) : result date :=
  if (1 <? day t)%Z then
    Ok {| year := year t; month := month t; day := day t - 1 |}
  else if (1 <? month t)%Z then
    Ok {| year := year t; month := month t - 1;
          day := days_in_month (year t) (month t - 1) |}
  else if (MINYEAR <? year t)%Z then
    Ok {| year := year t - 1; month := 12; day := 31 |}
  else Raise OverflowError.

(** [t - timedelta(days=n)] *)
Fixpoint minus_days (t : date) (n : nat) : result date :=
  match n with
  | O => Ok t
  | S n' => t' <- yesterday t ;; minus_days t' n'
  end.

(** [t.toordinal()]: day 1 is 0001-01-01. *)
Definition days_before_year (y : Z) : Z :=
  let p := (y - 1)%Z in (p * 365 + p / 4 - p / 100 + p / 400)%Z.

Fixpoint days_before_month (y : Z) (m : nat) : Z :=
  match m with
  | O => 0
  | S m' =>
      match m' with
      | O => 0
      | S _ => (days_before_month y m' + days_in_month y (Z.of_nat m'))%Z
      end
  end.

Definition toordinal (t : date) : Z :=
  (days_before_year (year t)
   + days_before_month (year t) (Z.to_nat (month t)) + day t)%Z.

Definition ltb (a b : date) : bool := (toordinal a <? toordinal b)%Z.

Definition pad (width : nat) (n : Z) : string :=
  let s := str_of_int n in
  (string_of_list_ascii (repeat "0"%char (width - String.length s))
     ++ s)%string.

(** [str(t)]: [YYYY-MM-DD] *)
Definition isoformat (t : date) : string :=
  (pad 4 (year t) ++ "-" ++ pad 2 (month t) ++ "-" ++ pad 2 (day t))%string.

(** [datetime.combine(t, time.min).isoformat()] *)
Definition midnight_isoformat (t : date) : string :=
  (isoformat t ++ "T00:00:00")%string.

End Datetime.

(* ================================================================== *)
(** ** Metric statistics fetcher ([get_metric_statistics]) *)

Module Monitor.

(** The answer of [metrics.list]: metrics, their time series, and each
    point's [value], which may be [None]. *)
Record TimeSeriesElement : Type := { data : list (option Q) }.
Record Metric : Type := { timeseries : list TimeSeriesElement }.
Record MetricsData : Type := { value : list Metric }.

Record Request : Type := {
  resource_uri : string;
  timespan : string;
  interval_days : Z;
  metricnames : string;
  aggregation : string
}.

Definition client : Type := Request -> result MetricsData.

End Monitor.

Definition Qltb (x y : Q) : bool := negb (Qle_bool y x).

(** [sum(values)] *)
Definition py_sum (values : list Q) : Q := fold_left Qplus values 0.

(** [max(values)] and [min(values)] of a list that is not empty: the first
    of the greatest, the first of the least. *)
Definition py_max (first : Q) (others : list Q) : Q :=
  fold_left (fun best v => if Qltb best v then v else best) others first.

Definition py_min (first : Q) (others : list Q) : Q :=
  fold_left (fun best v => if Qltb v best then v else best) others first.

(** [[dp.value for dp in data if dp.value is not None]] *)
Fixpoint non_null (points : list (option Q)) : list Q :=
  match points with
  | [] => []
  | Some v :: points' => v :: non_null points'
  | None :: points' => non_null points'
  end.

Definition reduce (aggregation : string) (values : list Q) : option Q :=
  match values with
  | [] => None
  | v :: vs =>
      if String.eqb aggregation "Average" then
        Some (py_sum values / inject_Z (Z.of_nat (List.length values)))
      else if String.eqb aggregation "Sum" then Some (py_sum values)
      else if String.eqb aggregation "Maximum" then Some (py_max v vs)
      else if String.eqb aggregation "Minimum" then Some (py_min v vs)
      else None
  end.

(** The arguments of [metrics.list]. *)
Definition metrics_request (resource_id metric_name : string)
  (start_time end_time : Datetime.date) (aggregation : string)
  : Monitor.Request :=
  {| Monitor.resource_uri := resource_id;
     Monitor.timespan :=
       (Datetime.midnight_isoformat start_time ++ "/"
          ++ Datetime.midnight_isoformat end_time)%string;
     Monitor.interval_days := 1;
     Monitor.metricnames := metric_name;
     Monitor.aggregation := aggregation |}.

Definition get_metric_statistics (monitor_client : Monitor.client)
  (resource_id metric_name : string) (start_time end_time : Datetime.date)
  (aggregation : string) : option Q :=
  match monitor_client
          (metrics_request resource_id metric_name start_time end_time
                           aggregation) with
  | Raise _ => None
  | Ok metrics_data =>
      match Monitor.value metrics_data with
      | [] => None
      | metric :: _ =>
          match Monitor.timeseries metric with
          | [] => None
          | timeseries :: _ =>
              match Monitor.data timeseries with
              | [] => None
              | _ :: _ =>
                  reduce aggregation (non_null (Monitor.data timeseries))
              end
          end
      end
  end.

(* ================================================================== *)
(** ** Resource discoverer ([get_all_resources]) *)

Definition MAX_RESOURCES_TO_ANALYZE : nat := 100.
Definition MAX_METRICS_PER_RESOURCE : nat := 5.

(** [s.split(sep)] for a one-character separator. *)
Fixpoint split_chars (sep : ascii) (l current : list ascii)
  : list (list ascii) :=
  match l with
  | [] => [rev current]
  | a :: l' =>
      if Ascii.eqb a sep then rev current :: split_chars sep l' []
      else split_chars sep l' (a :: current)
  end.

Definition split (s : string) (sep : ascii) : list string :=
  map string_of_list_ascii (split_chars sep (list_ascii_of_string s) []).

(** [sep in s] *)
Definition contains (s : string) (sep : ascii) : bool :=
  existsb (Ascii.eqb sep) (list_ascii_of_string s).

(** The SDK's resource descriptor; its [id] may be [None], its name, type
    and location are text. *)
Module GenericResource.
Record t : Type := {
  id : option string;
  name : string;
  type : string;
  location : string
}.
End GenericResource.

Module Resource.
Record t : Type := {
  id : string;
  name : string;
  type : string;
  location : string;
  resource_group : string
}.
End Resource.

(** [resources.list()] is a paged iterator: each element is fetched when
    the loop asks for it, and fetching may fail. *)
Definition resource_listing : Type := list (result GenericResource.t).

Definition resource_group_of (id : string) : string :=
  let parts := split id "/" in
  if (4 <? List.length parts)%nat then nth 4 parts EmptyString
  else "Unknown"%string.

Fixpoint list_resources (listing : resource_listing)
  (resources : list Resource.t) : result (list Resource.t) :=
  match listing with
  | [] => Ok resources
  | Raise e :: _ => Raise e
  | Ok resource :: listing' =>
      match GenericResource.id resource with
      | Some id =>
          if negb (String.eqb id EmptyString) then
            let resources' :=
              resources ++
              [ {| Resource.id := id;
                   Resource.name := GenericResource.name resource;
                   Resource.type := GenericResource.type resource;
                   Resource.location := GenericResource.location resource;
                   Resource.resource_group := resource_group_of id |} ] in
            if (MAX_RESOURCES_TO_ANALYZE <=? List.length resources')%nat
            then Ok resources'
            else list_resources listing' resources'
          else list_resources listing' resources
      | None => list_resources listing' resources
      end
  end.

Definition get_all_resources (resource_client : resource_listing)
  : list Resource.t :=
  match list_resources resource_client [] with
  | Ok resources => resources
  | Raise _ => []
  end.

(* ================================================================== *)
(** ** Low-usage classifier ([get_comprehensive_low_usage_resources]) *)

Module Finding.
Record t : Type := {
  service : string;
  resource_id : string;
  resource_name : string;
  resource_region : string;
  metric : string;
  average_usage : Q;
  threshold : Q;
  unit : string;
  stat_type : string
}.
End Finding.

(** The integer nearest to [x], a tie going to the even one. *)
Definition round_half_even (x : Q) : Z :=
  let f := Qfloor x in
  let r := (x - inject_Z f)%Q in
  if Qltb r (1 # 2) then f
  else if Qltb (1 # 2) r then (f + 1)%Z
  else if Z.even f then f else (f + 1)%Z.

(** [round(x, 2)] *)
Definition round2 (x : Q) : Q :=
  Qmake (round_half_even (x * 100)) 100.

(** [resource_type.split('/')[-1] if '/' in resource_type else
    resource_type] *)
Definition service_of (resource_type : string) : string :=
  if contains resource_type "/"
  then last (split resource_type "/") EmptyString
  else resource_type.

(** The dict appended to [low_usage]. *)
Definition low_usage_finding (resource : Resource.t)
  (metric_config : MetricSpec) (avg_usage : Q) : Finding.t :=
  {| Finding.service := service_of (Resource.type resource);
     Finding.resource_id := Resource.id resource;
     Finding.resource_name := Resource.name resource;
     Finding.resource_region := Resource.location resource;
     Finding.metric := metric metric_config;
     Finding.average_usage := round2 avg_usage;
     Finding.threshold := threshold metric_config;
     Finding.unit := unit metric_config;
     Finding.stat_type := stat metric_config |}.

(** The body of the inner loop: the finding appended for one metric of one
    resource, if any. The fetcher handles its own errors and the fields of
    a resource are text, so the handlers around the two loops have nothing
    to catch. *)
Definition evaluate_metric (monitor_client : Monitor.client)
  (resource : Resource.t) (start_dt end_dt : Datetime.date)
  (metric_config : MetricSpec) : option Finding.t :=
  let avg_usage :=
    get_metric_statistics monitor_client (Resource.id resource)
      (metric metric_config) start_dt end_dt (stat metric_config) in
  match avg_usage with
  | Some u =>
      if Qltb u (threshold metric_config)
      then Some (low_usage_finding resource metric_config u)
      else None
  | None => None
  end.

(** The specs the inner loop runs over: [metrics_config[:5]]. *)
Definition evaluated_specs (resource : Resource.t) : list MetricSpec :=
  firstn MAX_METRICS_PER_RESOURCE
         (get_primary_metrics_for_service (Resource.type resource)).

Definition analyze_resource (monitor_client : Monitor.client)
  (start_dt end_dt : Datetime.date) (low_usage : list Finding.t)
  (resource : Resource.t) : list Finding.t :=
  fold_left
    (fun low_usage metric_config =>
       match evaluate_metric monitor_client resource start_dt end_dt
               metric_config with
       | Some finding => low_usage ++ [finding]
       | None => low_usage
       end)
    (evaluated_specs resource) low_usage.

Definition classify (monitor_client : Monitor.client)
  (resources : list Resource.t) (start_dt end_dt : Datetime.date)
  : list Finding.t :=
  fold_left (analyze_resource monitor_client start_dt end_dt) resources [].

Definition get_comprehensive_low_usage_resources
  (monitor_client : Monitor.client) (resource_client : resource_listing)
  (start end_ : Datetime.date) : list Finding.t :=
  classify monitor_client (get_all_resources resource_client) start end_.

(* ================================================================== *)
(** ** Persistence helper ([postgres_helper.py]) *)

Module Postgres.

Import Datetime.

(** The tuples handed to [executemany], one type per table. *)
Record service_cost : Type := {
  sc_date_period : string;
  sc_service_name : string;
  sc_cost_amount : pyfloat;
  sc_month_label : string
}.

Record region_cost : Type := {
  rc_date_period : string;
  rc_region_name : string;
  rc_cost_amount : pyfloat;
  rc_month_label : string
}.

Record region_service_cost : Type := {
  rs_date_period : string;
  rs_region_name : string;
  rs_service_name : string;
  rs_cost_amount : pyfloat;
  rs_month_label : string
}.

Record tag_cost : Type := {
  tc_date_period : string;
  tc_month_label : string;
  tc_tag_key : string;
  tc_tag_value : string;
  tc_cost_amount : pyfloat
}.

Record low_usage_resource : Type := {
  lu_run_date : date;
  lu_service_name : string;
  lu_resource_id : string;
  lu_resource_name : string;
  lu_resource_region : string;
  lu_metric_name : string;
  lu_average_usage : Q;
  lu_threshold_value : Q;
  lu_unit : string;
  lu_stat_type : string
}.

Record monitoring_run : Type := {
  run_date : date;
  start_date : date;
  end_date : date;
  last_month_start : date;
  last_month_end : date;
  total_current_cost : pyfloat;
  total_last_month_cost : pyfloat;
  low_usage_count : nat;
  execution_status : string;
  error_message : option string;
  execution_time_ms : Z
}.

(** What the next [psycopg2.connect] meets: a server that answers, one that
    refuses the connection, one that accepts it and fails the statement. *)
Inductive session : Type := Up | Down | Broken.

(** The table definitions are not part of the repository. A statement with
    [ON CONFLICT (columns)] needs the unique index on those columns; for
    the two tables written without such a target, the unique constraints
    of the table are a parameter: two rows conflict when a unique index
    holds them equal. *)
Record schema : Type := {
  region_service_conflict : region_service_cost -> region_service_cost -> bool;
  low_usage_conflict : low_usage_resource -> low_usage_resource -> bool
}.

Record database : Type := {
  sessions : list session;
  azure_service_costs : list service_cost;
  azure_region_costs : list region_cost;
  azure_region_service_costs : list region_service_cost;
  azure_tag_costs : list tag_cost;
  azure_low_usage_resources : list low_usage_resource;
  azure_cost_monitoring_runs : list monitoring_run
}.

(** A computation on the database; what was committed before an exception
    stays committed. *)
Definition M (A : Type) : Type := database -> result A * database.

Definition ret {A : Type} (a : A) : M A := fun db => (Ok a, db).

Definition throw {A : Type} (e : exn) : M A := fun db => (Raise e, db).

Definition mbind {A B : Type} (m : M A) (k : A -> M B) : M B :=
  fun db =>
    match m db with
    | (Ok a, db') => k a db'
    | (Raise e, db') => (Raise e, db')
    end.

(** [try: m except Exception as e: handler(e)] *)
Definition try_except {A : Type} (m : M A) (handler : exn -> M A) : M A :=
  fun db =>
    match m db with
    | (Ok a, db') => (Ok a, db')
    | (Raise e, db') => handler e db'
    end.

(** [psycopg2.connect]: the next session; a server never heard to fail is
    up. *)
Definition connect (db : database) : session * database :=
  match sessions db with
  | [] => (Up, db)
  | s :: rest =>
      (s, {| sessions := rest;
             azure_service_costs := azure_service_costs db;
             azure_region_costs := azure_region_costs db;
             azure_region_service_costs := azure_region_service_costs db;
             azure_tag_costs := azure_tag_costs db;
             azure_low_usage_resources := azure_low_usage_resources db;
             azure_cost_monitoring_runs := azure_cost_monitoring_runs db |})
  end.

(** [PostgresHelper()]: fails when the connection settings are missing. *)
Definition create_postgres_helper (db_configured : bool) : M Datatypes.unit :=
  if db_configured then ret tt else throw PostgreSQLConnectionError.

Definition test_connection : M bool :=
  fun db =>
    match connect db with
    | (Up, db') => (Ok true, db')
    | (_, db') => (Ok false, db')
    end.

(** *** Statements *)

Inductive conflict_clause : Type := DoNothing | NoClause.

Section Statement.

Variable R : Type.
(** Whether two rows collide on a unique index of the table. *)
Variable conflict : R -> R -> bool.
Variable clause : conflict_clause.

(** One [INSERT]: the table afterwards and the rows affected, or a unique
    violation. *)
Definition execute (table : list R) (record : R) : option (list R * nat) :=
  if existsb (conflict record) table then
    match clause with
    | DoNothing => Some (table, O)
    | NoClause => None
    end
  else Some (table ++ [record], 1%nat).

(** [cursor.executemany]: the statements run in order in one transaction,
    and the row counts add up. *)
Fixpoint executemany (table : list R) (records : list R) (rowcount : nat)
  : option (list R * nat) :=
  match records with
  | [] => Some (table, rowcount)
  | record :: records' =>
      match execute table record with
      | Some (table', n) => executemany table' records' (rowcount + n)
      | None => None
      end
  end.

Variable get : database -> list R.
Variable set : list R -> database -> database.

(** [_execute_batch_insert]. An error of the driver inside the [with] block
    is thrown into [get_connection], whose handler turns it into
    [PostgreSQLConnectionError]; nothing is committed then. *)
Definition _execute_batch_insert (records : list R) : M nat :=
  fun db =>
    match records with
    | [] => (Ok O, db)
    | _ :: _ =>
        match connect db with
        | (Up, db') =>
            match executemany (get db') records O with
            | Some (table', inserted_count) =>
                (Ok inserted_count, set table' db')
            | None => (Raise PostgreSQLConnectionError, db')
            end
        | (_, db') => (Raise PostgreSQLConnectionError, db')
        end
    end.

End Statement.

Definition set_service_costs (t : list service_cost) (db : database) :=
  {| sessions := sessions db;
     azure_service_costs := t;
     azure_region_costs := azure_region_costs db;
     azure_region_service_costs := azure_region_service_costs db;
     azure_tag_costs := azure_tag_costs db;
     azure_low_usage_resources := azure_low_usage_resources db;
     azure_cost_monitoring_runs := azure_cost_monitoring_runs db |}.

Definition set_region_costs (t : list region_cost) (db : database) :=
  {| sessions := sessions db;
     azure_service_costs := azure_service_costs db;
     azure_region_costs := t;
     azure_region_service_costs := azure_region_service_costs db;
     azure_tag_costs := azure_tag_costs db;
     azure_low_usage_resources := azure_low_usage_resources db;
     azure_cost_monitoring_runs := azure_cost_monitoring_runs db |}.

Definition set_region_service_costs (t : list region_service_cost)
  (db : database) :=
  {| sessions := sessions db;
     azure_service_costs := azure_service_costs db;
     azure_region_costs := azure_region_costs db;
     azure_region_service_costs := t;
     azure_tag_costs := azure_tag_costs db;
     azure_low_usage_resources := azure_low_usage_resources db;
     azure_cost_monitoring_runs := azure_cost_monitoring_runs db |}.

Definition set_tag_costs (t : list tag_cost) (db : database) :=
  {| sessions := sessions db;
     azure_service_costs := azure_service_costs db;
     azure_region_costs := azure_region_costs db;
     azure_region_service_costs := azure_region_service_costs db;
     azure_tag_costs := t;
     azure_low_usage_resources := azure_low_usage_resources db;
     azure_cost_monitoring_runs := azure_cost_monitoring_runs db |}.

Definition set_low_usage_resources (t : list low_usage_resource)
  (db : database) :=
  {| sessions := sessions db;
     azure_service_costs := azure_service_costs db;
     azure_region_costs := azure_region_costs db;
     azure_region_service_costs := azure_region_service_costs db;
     azure_tag_costs := azure_tag_costs db;
     azure_low_usage_resources := t;
     azure_cost_monitoring_runs := azure_cost_monitoring_runs db |}.

Definition set_monitoring_runs (t : list monitoring_run) (db : database) :=
  {| sessions := sessions db;
     azure_service_costs := azure_service_costs db;
     azure_region_costs := azure_region_costs db;
     azure_region_service_costs := azure_region_service_costs db;
     azure_tag_costs := azure_tag_costs db;
     azure_low_usage_resources := azure_low_usage_resources db;
     azure_cost_monitoring_runs := t |}.

(** *** Reading the normalizer's dicts *)

(** [a or b] on strings that may be absent. *)
Definition or_ (a b : option string) : option string :=
  match a with
  | Some s => if String.eqb s EmptyString then b else a
  | None => b
  end.

Definition get_date (c : CostRow) : option string := row_date c.

Definition get_dimension (c : CostRow) : option string :=
  match c with
  | SingleDim _ d _ => Some d
  | RegionService _ _ _ _ => None
  end.

Definition get_region_name (c : CostRow) : option string :=
  match c with
  | SingleDim _ _ _ => None
  | RegionService _ r _ _ => Some r
  end.

Definition get_service_name (c : CostRow) : option string :=
  match c with
  | SingleDim _ _ _ => None
  | RegionService _ _ s _ => Some s
  end.

Definition with_default (a : option string) (default : string) : string :=
  match a with
  | Some s => s
  | None => default
  end.

(** [row.get('date') or row.get('date_period')], and the test
    [if not date_str: continue]: the rows of the normalizer have no
    [date_period] key. *)
Definition date_str_of (c : CostRow) : option string :=
  match or_ (get_date c) None with
  | Some s => if String.eqb s EmptyString then None else Some s
  | None => None
  end.

(** [float(Decimal(str(amount)))]: a float goes through its own text and
    comes back. *)
Definition float_of_decimal_of_str (amount : pyfloat) : result pyfloat :=
  Ok amount.

Definition same_text (a b : string) : bool := String.eqb a b.

(** *** The insert operations *)

Fixpoint service_cost_records (rows : list CostRow) (month_label : string)
  : list service_cost :=
  match rows with
  | [] => []
  | row :: rows' =>
      match date_str_of row with
      | None => service_cost_records rows' month_label
      | Some date_str =>
          let service :=
            with_default
              (or_ (get_dimension row)
                   (Some (with_default (get_service_name row) EmptyString)))
              EmptyString in
          match float_of_decimal_of_str (row_cost_amount row) with
          | Ok amount =>
              {| sc_date_period := date_str; sc_service_name := service;
                 sc_cost_amount := amount; sc_month_label := month_label |}
              :: service_cost_records rows' month_label
          | Raise _ => service_cost_records rows' month_label
          end
      end
  end.

(** [ON CONFLICT (date_period, service_name, month_label) DO NOTHING] *)
Definition service_cost_conflict (a b : service_cost) : bool :=
  same_text (sc_date_period a) (sc_date_period b)
  && same_text (sc_service_name a) (sc_service_name b)
  && same_text (sc_month_label a) (sc_month_label b).

Definition insert_service_costs (service_costs_data : list CostRow)
  (month_label : string) : M nat :=
  _execute_batch_insert service_cost_conflict DoNothing
    azure_service_costs set_service_costs
    (service_cost_records service_costs_data month_label).

Fixpoint region_cost_records (rows : list CostRow) (month_label : string)
  : list region_cost :=
  match rows with
  | [] => []
  | row :: rows' =>
      match date_str_of row with
      | None => region_cost_records rows' month_label
      | Some date_str =>
          let region :=
            with_default
              (or_ (get_dimension row)
                   (Some (with_default (get_region_name row) EmptyString)))
              EmptyString in
          match float_of_decimal_of_str (row_cost_amount row) with
          | Ok amount =>
              {| rc_date_period := date_str; rc_region_name := region;
                 rc_cost_amount := amount; rc_month_label := month_label |}
              :: region_cost_records rows' month_label
          | Raise _ => region_cost_records rows' month_label
          end
      end
  end.

(** [ON CONFLICT (date_period, region_name, month_label) DO NOTHING] *)
Definition region_cost_conflict (a b : region_cost) : bool :=
  same_text (rc_date_period a) (rc_date_period b)
  && same_text (rc_region_name a) (rc_region_name b)
  && same_text (rc_month_label a) (rc_month_label b).

Definition insert_region_costs (region_costs_data : list CostRow)
  (month_label : string) : M nat :=
  _execute_batch_insert region_cost_conflict DoNothing
    azure_region_costs set_region_costs
    (region_cost_records region_costs_data month_label).

Fixpoint region_service_cost_records (rows : list CostRow)
  (month_label : string) : list region_service_cost :=
  match rows with
  | [] => []
  | time_period :: rows' =>
      match date_str_of time_period with
      | None => region_service_cost_records rows' month_label
      | Some date_str =>
          let region :=
            with_default (get_region_name time_period) EmptyString in
          let service :=
            with_default (get_service_name time_period) EmptyString in
          match float_of_decimal_of_str (row_cost_amount time_period) with
          | Ok amount =>
              {| rs_date_period := date_str; rs_region_name := region;
                 rs_service_name := service; rs_cost_amount := amount;
                 rs_month_label := month_label |}
              :: region_service_cost_records rows' month_label
          | Raise _ => region_service_cost_records rows' month_label
          end
      end
  end.

(** [ON CONFLICT DO NOTHING], without a target *)
Definition insert_region_service_costs (s : schema)
  (region_service_costs_data : list CostRow) (month_label : string)
  : M nat :=
  _execute_batch_insert (region_service_conflict s) DoNothing
    azure_region_service_costs set_region_service_costs
    (region_service_cost_records region_service_costs_data month_label).

Fixpoint tag_cost_records (rows : list CostRow)
  (month_label tag_key : string) : list tag_cost :=
  match rows with
  | [] => []
  | row :: rows' =>
      match date_str_of row with
      | None => tag_cost_records rows' month_label tag_key
      | Some date_str =>
          let tag_value :=
            with_default (or_ (get_dimension row) (Some "UnTagged"%string))
                         EmptyString in
          match float_of_decimal_of_str (row_cost_amount row) with
          | Ok amount =>
              {| tc_date_period := date_str; tc_month_label := month_label;
                 tc_tag_key := tag_key; tc_tag_value := tag_value;
                 tc_cost_amount := amount |}
              :: tag_cost_records rows' month_label tag_key
          | Raise _ => tag_cost_records rows' month_label tag_key
          end
      end
  end.

(** [ON CONFLICT (date_period, month_label, tag_key, tag_value) DO NOTHING] *)
Definition tag_cost_conflict (a b : tag_cost) : bool :=
  same_text (tc_date_period a) (tc_date_period b)
  && same_text (tc_month_label a) (tc_month_label b)
  && same_text (tc_tag_key a) (tc_tag_key b)
  && same_text (tc_tag_value a) (tc_tag_value b).

Definition insert_tag_costs (tag_costs_data : list CostRow)
  (month_label tag_key : string) : M nat :=
  _execute_batch_insert tag_cost_conflict DoNothing
    azure_tag_costs set_tag_costs
    (tag_cost_records tag_costs_data month_label tag_key).

Definition low_usage_record (run_date : date) (resource : Finding.t)
  : low_usage_resource :=
  {| lu_run_date := run_date;
     lu_service_name := Finding.service resource;
     lu_resource_id := Finding.resource_id resource;
     lu_resource_name := Finding.resource_name resource;
     lu_resource_region := Finding.resource_region resource;
     lu_metric_name := Finding.metric resource;
     lu_average_usage := Finding.average_usage resource;
     lu_threshold_value := Finding.threshold resource;
     lu_unit := Finding.unit resource;
     lu_stat_type := Finding.stat_type resource |}.

(** A plain [INSERT]: no [ON CONFLICT] clause. *)
Definition insert_low_usage_resources (s : schema)
  (low_usage_resources : list Finding.t) (run_date : date) : M nat :=
  _execute_batch_insert (low_usage_conflict s) NoClause
    azure_low_usage_resources set_low_usage_resources
    (map (low_usage_record run_date) low_usage_resources).

(** A plain [INSERT ... RETURNING id]; the id is the serial number of the
    row. *)
Definition insert_monitoring_run (run_data : monitoring_run)
  : M (option string) :=
  fun db =>
    match connect db with
    | (Up, db') =>
        let runs := azure_cost_monitoring_runs db' ++ [run_data] in
        (Ok (Some (str_of_int (Z.of_nat (List.length runs)))),
         set_monitoring_runs runs db')
    | (_, db') => (Raise PostgreSQLConnectionError, db')
    end.

Record insert_counts : Type := {
  service_costs_inserted : nat;
  region_costs_inserted : nat;
  region_service_costs_inserted : nat;
  low_usage_inserted : nat
}.

Definition insert_azure_cost_data (db_configured : bool) (s : schema)
  (service_costs_data region_costs_data region_service_costs_data
     : list CostRow)
  (low_usage_resources : list Finding.t) (run_date : date)
  (month_label : string) : M insert_counts :=
  mbind (create_postgres_helper db_configured) (fun _ =>
  mbind (insert_service_costs service_costs_data month_label) (fun n1 =>
  mbind (insert_region_costs region_costs_data month_label) (fun n2 =>
  mbind (insert_region_service_costs s region_service_costs_data month_label)
        (fun n3 =>
  mbind (insert_low_usage_resources s low_usage_resources run_date)
        (fun n4 =>
  ret {| service_costs_inserted := n1; region_costs_inserted := n2;
         region_service_costs_inserted := n3;
         low_usage_inserted := n4 |}))))).

(** *** Retention ([cleanup_old_data]) *)

Definition number_of (l : list ascii) : Z :=
  fold_left (fun acc a => (10 * acc + digit_value a)%Z) l 0%Z.

(** The date a [DATE] column reads from a text that starts [YYYY-MM-DD]. *)
Definition date_of_text (s : string) : option date :=
  match list_ascii_of_string s with
  | y1 :: y2 :: y3 :: y4 :: "-"%char :: m1 :: m2 :: "-"%char :: d1 :: d2 :: _ =>
      if forallb is_digit [y1; y2; y3; y4; m1; m2; d1; d2] then
        match make (number_of [y1; y2; y3; y4]) (number_of [m1; m2])
                   (number_of [d1; d2]) with
        | Ok t => Some t
        | Raise _ => None
        end
      else None
  | _ => None
  end.

(** [date_period < cutoff] *)
Definition stale (cutoff : date) (date_period : string) : bool :=
  match date_of_text date_period with
  | Some t => ltb t cutoff
  | None => false
  end.

Definition keep {R : Type} (is_stale : R -> bool) (table : list R) : list R :=
  filter (fun r => negb (is_stale r)) table.

Definition deleted {R : Type} (is_stale : R -> bool) (table : list R) : nat :=
  List.length (filter is_stale table).

Definition cleanup_old_data (today : date) (days_to_keep : nat) : M nat :=
  fun db =>
    match minus_days today days_to_keep with
    | Raise e => (Raise e, db)
    | Ok cutoff_date =>
        match connect db with
        | (Up, db') =>
            let s := fun r => stale cutoff_date (sc_date_period r) in
            let r := fun r => stale cutoff_date (rc_date_period r) in
            let rs := fun r => stale cutoff_date (rs_date_period r) in
            let lu := fun r => ltb (lu_run_date r) cutoff_date in
            (Ok (deleted s (azure_service_costs db')
                 + deleted r (azure_region_costs db')
                 + deleted rs (azure_region_service_costs db')
                 + deleted lu (azure_low_usage_resources db'))%nat,
             {| sessions := sessions db';
                azure_service_costs := keep s (azure_service_costs db');
                azure_region_costs := keep r (azure_region_costs db');
                azure_region_service_costs :=
                  keep rs (azure_region_service_costs db');
                azure_tag_costs := azure_tag_costs db';
                azure_low_usage_resources :=
                  keep lu (azure_low_usage_resources db');
                azure_cost_monitoring_runs :=
                  azure_cost_monitoring_runs db' |})
        | (_, db') => (Raise PostgreSQLConnectionError, db')
        end
    end.

End Postgres.

(* ================================================================== *)
(** ** Cost queries ([get_cost_data] and its three groupings) *)

Module Cost.

Record QueryDefinition : Type := {
  scope : string;
  from_property : string;
  to : string;
  grouping : list (string * string)
}.

(** [query.usage]: the [rows] of the [QueryResult], or an error. *)
Definition client : Type := QueryDefinition -> result (option (list row)).

End Cost.

Definition get_cost_data (cost_client : Cost.client)
  (scope start_date end_date : string) (group_by : list (string * string))
  : response :=
  match cost_client {| Cost.scope := scope;
                       Cost.from_property := start_date;
                       Cost.to := end_date;
                       Cost.grouping := group_by |} with
  | Ok rows => QueryResult rows
  | Raise _ => FallbackDict
  end.

Definition get_cost_breakdown_by_service (cost_client : Cost.client)
  (scope start end_ : string) : response :=
  get_cost_data cost_client scope start end_
    [("Dimension", "ServiceName")]%string.

Definition get_cost_breakdown_by_region (cost_client : Cost.client)
  (scope start end_ : string) : response :=
  get_cost_data cost_client scope start end_
    [("Dimension", "ResourceLocation")]%string.

Definition get_cost_breakdown_by_region_and_service
  (cost_client : Cost.client) (scope start end_ : string) : response :=
  get_cost_data cost_client scope start end_
    [("Dimension", "ResourceLocation"); ("Dimension", "ServiceName")]%string.

(* ================================================================== *)
(** ** Run orchestrator ([main]) *)

(** [x in l] on integers *)
Definition in_list (x : Z) (l : list Z) : bool := existsb (Z.eqb x) l.

(** "Last Month Cost: Complete previous month": the first and the last day
    of the window. *)
Definition last_month_window (today : Datetime.date)
  : result (Datetime.date * Datetime.date) :=
  let year := Datetime.year today in
  let month := Datetime.month today in
  if (month =? 1)%Z then
    last_month_start <-
      Datetime.replace today (Some (year - 1)%Z) (Some 12%Z) (Some 1%Z) ;;
    last_month_end <-
      Datetime.replace today (Some (year - 1)%Z) (Some 12%Z) (Some 31%Z) ;;
    Ok (last_month_start, last_month_end)
  else
    last_month_start <-
      Datetime.replace today None (Some (month - 1)%Z) (Some 1%Z) ;;
    let last_day :=
      if in_list (month - 1) [1; 3; 5; 7; 8; 10; 12]%Z then 31%Z
      else if in_list (month - 1) [4; 6; 9; 11]%Z then 30%Z
      else
        if (((year mod 4 =? 0) && negb (year mod 100 =? 0))
            || (year mod 400 =? 0))%Z
        then 29%Z else 28%Z in
    last_month_end <-
      Datetime.replace today None (Some (month - 1)%Z) (Some last_day) ;;
    Ok (last_month_start, last_month_end).

(** [Decimal + Decimal] under the default context. *)
Definition decimal_add (a b : pyfloat) : result pyfloat :=
  match a, b with
  | NaN, _ => Ok NaN
  | _, NaN => Ok NaN
  | Inf s, Inf s' =>
      if Bool.eqb s s' then Ok (Inf s) else Raise InvalidOperation
  | Inf s, Finite _ => Ok (Inf s)
  | Finite _, Inf s => Ok (Inf s)
  | Finite x, Finite y => Ok (Finite (x + y))
  end.

(** [for row in rows: total += Decimal(str(row.get('cost_amount', 0)))] *)
Fixpoint total_cost (rows : list CostRow) (total : pyfloat) : result pyfloat :=
  match rows with
  | [] => Ok total
  | row :: rows' =>
      total' <- decimal_add total (row_cost_amount row) ;;
      total_cost rows' total'
  end.

(** The class name stands for the text of an exception. *)
Definition exn_text (e : exn) : string :=
  match e with
  | ValueError => "ValueError"
  | TypeError => "TypeError"
  | OverflowError => "OverflowError"
  | IndexError => "IndexError"
  | InvalidOperation => "InvalidOperation"
  | AzureError => "AzureError"
  | PostgreSQLConnectionError => "PostgreSQLConnectionError"
  | PostgreSQLDataError => "PostgreSQLDataError"
  end.

(** What a run reads from outside: the settings, the clock, the provider
    and the table definitions. *)
Record environment : Type := {
  ENABLE_POSTGRES : bool;
  SUBSCRIPTION_ID : option string;
  AZURE_SCOPE : option string;
  db_configured : bool;
  db_schema : Postgres.schema;
  today : Datetime.date;
  elapsed_ms : Z;
  cost_client : Cost.client;
  monitor_client : Monitor.client;
  resource_client : resource_listing
}.

(** The variables [main] holds when the analysis is done. *)
Record analysis : Type := {
  start_date : Datetime.date;
  end_date : Datetime.date;
  last_month_start : Datetime.date;
  last_month_end : Datetime.date;
  cost_data_service : list CostRow;
  cost_data_region : list CostRow;
  cost_data_region_service : list CostRow;
  last_month_cost_data_service : list CostRow;
  last_month_cost_data_region : list CostRow;
  last_month_cost_data_region_service : list CostRow;
  low_usage_resources : list Finding.t;
  current_total_cost : pyfloat;
  last_total_cost : pyfloat;
  execution_time_ms : Z
}.

(** The dict [postgres_results]: empty, or with [status] ['success'] or
    ['failed']. *)
Inductive postgres_results : Type :=
| NoResults
| Success (current_month_inserted last_month_inserted : Postgres.insert_counts)
          (run_id : option string)
| Failed (error : string).

Definition truthy_text (s : option string) : bool :=
  match s with
  | Some t => negb (String.eqb t EmptyString)
  | None => false
  end.

Definition scope_of (env : environment) (subscription_id : string) : string :=
  let default := ("/subscriptions/" ++ subscription_id)%string in
  let SCOPE :=
    match AZURE_SCOPE env with
    | Some s => s
    | None => default
    end in
  if negb (String.eqb SCOPE EmptyString) then SCOPE else default.

Definition analyse (env : environment) : result analysis :=
  if negb (truthy_text (SUBSCRIPTION_ID env)) then Raise ValueError
  else
    let subscription_id :=
      match SUBSCRIPTION_ID env with
      | Some s => s
      | None => EmptyString
      end in
    let scope := scope_of env subscription_id in
    let today := today env in
    start_date <- Datetime.replace today None None (Some 1%Z) ;;
    let end_date := today in
    end_date_plus1 <- Datetime.tomorrow end_date ;;
    window <- last_month_window today ;;
    let last_month_start := fst window in
    let last_month_end := snd window in
    last_month_end_plus1 <- Datetime.tomorrow last_month_end ;;
    let fetch := fun breakdown (a b : Datetime.date) =>
      process_cost_response
        (breakdown (cost_client env) scope
                   (Datetime.isoformat a) (Datetime.isoformat b)) in
    let cost_data_service :=
      fetch get_cost_breakdown_by_service start_date end_date_plus1 in
    let cost_data_region :=
      fetch get_cost_breakdown_by_region start_date end_date_plus1 in
    let cost_data_region_service :=
      fetch get_cost_breakdown_by_region_and_service
            start_date end_date_plus1 in
    let last_month_cost_data_service :=
      fetch get_cost_breakdown_by_service
            last_month_start last_month_end_plus1 in
    let last_month_cost_data_region :=
      fetch get_cost_breakdown_by_region
            last_month_start last_month_end_plus1 in
    let last_month_cost_data_region_service :=
      fetch get_cost_breakdown_by_region_and_service
            last_month_start last_month_end_plus1 in
    let low_usage_resources :=
      get_comprehensive_low_usage_resources
        (monitor_client env) (resource_client env) start_date end_date in
    current_total_cost <- total_cost cost_data_service (Finite 0) ;;
    last_total_cost <- total_cost last_month_cost_data_service (Finite 0) ;;
    Ok {| start_date := start_date;
          end_date := end_date;
          last_month_start := last_month_start;
          last_month_end := last_month_end;
          cost_data_service := cost_data_service;
          cost_data_region := cost_data_region;
          cost_data_region_service := cost_data_region_service;
          last_month_cost_data_service := last_month_cost_data_service;
          last_month_cost_data_region := last_month_cost_data_region;
          last_month_cost_data_region_service :=
            last_month_cost_data_region_service;
          low_usage_resources := low_usage_resources;
          current_total_cost := current_total_cost;
          last_total_cost := last_total_cost;
          execution_time_ms := elapsed_ms env |}.

(** The body of the [try] under [if ENABLE_POSTGRES:]. *)
Definition store (env : environment) (a : analysis)
  : Postgres.M postgres_results :=
  Postgres.mbind (Postgres.create_postgres_helper (db_configured env))
    (fun _ =>
  Postgres.mbind Postgres.test_connection (fun connected =>
  if negb connected then Postgres.throw PostgreSQLConnectionError
  else
  Postgres.mbind
    (Postgres.insert_azure_cost_data (db_configured env) (db_schema env)
       (cost_data_service a) (cost_data_region a)
       (cost_data_region_service a) (low_usage_resources a)
       (today env) "current")
    (fun current_month_results =>
  let last_month_low_usage_resources :=
    get_comprehensive_low_usage_resources
      (monitor_client env) (resource_client env)
      (last_month_start a) (last_month_end a) in
  Postgres.mbind
    (Postgres.insert_azure_cost_data (db_configured env) (db_schema env)
       (last_month_cost_data_service a) (last_month_cost_data_region a)
       (last_month_cost_data_region_service a)
       last_month_low_usage_resources (today env) "last_month")
    (fun last_month_results =>
  Postgres.mbind
    (Postgres.insert_monitoring_run
       {| Postgres.run_date := today env;
          Postgres.start_date := start_date a;
          Postgres.end_date := end_date a;
          Postgres.last_month_start := last_month_start a;
          Postgres.last_month_end := last_month_end a;
          Postgres.total_current_cost := current_total_cost a;
          Postgres.total_last_month_cost := last_total_cost a;
          Postgres.low_usage_count := List.length (low_usage_resources a);
          Postgres.execution_status := "success";
          Postgres.error_message := None;
          Postgres.execution_time_ms := execution_time_ms a |})
    (fun run_id =>
  Postgres.ret
    (Success current_month_results last_month_results run_id)))))).

(** The storage phase with its two handlers: both set [postgres_results]
    to the failed status and go on. *)
Definition storage_phase (env : environment) (a : analysis)
  : Postgres.M postgres_results :=
  if ENABLE_POSTGRES env then
    Postgres.try_except (store env a)
      (fun e => Postgres.ret (Failed (exn_text e)))
  else Postgres.ret NoResults.

Definition is_success (r : postgres_results) : bool :=
  match r with
  | Success _ _ _ => true
  | _ => false
  end.

(** "Optional: Clean up old data"; a failure is logged and dropped. *)
Definition cleanup_phase (env : environment) (r : postgres_results)
  : Postgres.M Datatypes.unit :=
  if (ENABLE_POSTGRES env && is_success r)%bool then
    Postgres.try_except
      (Postgres.mbind (Postgres.create_postgres_helper (db_configured env))
         (fun _ =>
       Postgres.mbind (Postgres.cleanup_old_data (today env) 90)
         (fun _ => Postgres.ret tt)))
      (fun _ => Postgres.ret tt)
  else Postgres.ret tt.

(** The outer [try] block; its value is what the run holds at its end. *)
Definition main_body (env : environment)
  : Postgres.M (analysis * postgres_results) :=
  fun db =>
    match analyse env with
    | Raise e => (Raise e, db)
    | Ok a =>
        Postgres.mbind (storage_phase env a) (fun results =>
        Postgres.mbind (cleanup_phase env results) (fun _ =>
        Postgres.ret (a, results))) db
    end.

(** The outer handler: one attempt to write a failed run, then [raise]. *)
Definition log_failure (env : environment) (e : exn)
  : Postgres.M Datatypes.unit :=
  if ENABLE_POSTGRES env then
    Postgres.try_except
      (Postgres.mbind (Postgres.create_postgres_helper (db_configured env))
         (fun _ db =>
            match Datetime.replace (today env) None None (Some 1%Z) with
            | Raise e' => (Raise e', db)
            | Ok first =>
                Postgres.mbind
                  (Postgres.insert_monitoring_run
                     {| Postgres.run_date := today env;
                        Postgres.start_date := first;
                        Postgres.end_date := today env;
                        Postgres.last_month_start := first;
                        Postgres.last_month_end := today env;
                        Postgres.total_current_cost := Finite 0;
                        Postgres.total_last_month_cost := Finite 0;
                        Postgres.low_usage_count := 0;
                        Postgres.execution_status := "failed";
                        Postgres.error_message :=
                          Some ("Azure Function execution failed: "
                                  ++ exn_text e)%string;
                        Postgres.execution_time_ms := elapsed_ms env |})
                  (fun _ => Postgres.ret tt) db
            end))
      (fun _ => Postgres.ret tt)
  else Postgres.ret tt.

Definition main (env : environment) : Postgres.M Datatypes.unit :=
  fun db =>
    match main_body env db with
    | (Ok _, db') => (Ok tt, db')
    | (Raise e, db') =>
        match log_failure env e db' with
        | (_, db'') => (Raise e, db'')
        end
    end.

(* ================================================================== *)
(** ** Notions used in the statements *)

(** A row converts when the loop body does not raise on it. *)
Definition converts (r : row) : Prop := raises (process_row r) = false.

(** The records a row adds to [rows] when the loop reaches it. *)
Definition emitted (r : row) : list CostRow :=
  match process_row r with
  | Ok (Some c) => [c]
  | _ => []
  end.


(** The record has a date the inserts accept. *)
Definition dated (c : CostRow) : bool :=
  match Postgres.date_str_of c with
  | Some _ => true
  | None => false
  end.


(** The sum of a list of numbers. *)
Definition total (values : list Q) : Q := fold_right Qplus 0 values.

(** A monitor that answers every request with one series. *)
Definition sample_monitor (points : list (option Q)) : Monitor.client :=
  fun _ =>
    Ok {| Monitor.value :=
            [ {| Monitor.timeseries := [ {| Monitor.data := points |} ] |} ]
       |}.

(** The findings of one resource, in the order of its specs. *)
Definition findings_of (monitor_client : Monitor.client)
  (start_dt end_dt : Datetime.date) (resource : Resource.t)
  : list Finding.t :=
  flat_map
    (fun metric_config =>
       match evaluate_metric monitor_client resource start_dt end_dt
               metric_config with
       | Some finding => [finding]
       | None => []
       end)
    (evaluated_specs resource).

Definition sample_vm : Resource.t :=
  {| Resource.id :=
       "/subscriptions/s1/resourceGroups/rg1/providers/Microsoft.Compute/virtualMachines/vm1";
     Resource.name := "vm1";
     Resource.type := "Microsoft.Compute/virtualMachines";
     Resource.location := "westeurope";
     Resource.resource_group := "rg1" |}.

Definition may_1 : Datetime.date :=
  {| Datetime.year := 2024; Datetime.month := 5; Datetime.day := 1 |}.

Definition may_20 : Datetime.date :=
  {| Datetime.year := 2024; Datetime.month := 5; Datetime.day := 20 |}.

(** A database with empty tables, and the sessions its server will meet. *)
Definition empty_database (sessions : list Postgres.session)
  : Postgres.database :=
  {| Postgres.sessions := sessions;
     Postgres.azure_service_costs := [];
     Postgres.azure_region_costs := [];
     Postgres.azure_region_service_costs := [];
     Postgres.azure_tag_costs := [];
     Postgres.azure_low_usage_resources := [];
     Postgres.azure_cost_monitoring_runs := [] |}.

(** Tables without a unique constraint of their own. *)
Definition no_constraint : Postgres.schema :=
  {| Postgres.region_service_conflict := fun _ _ => false;
     Postgres.low_usage_conflict := fun _ _ => false |}.

(** A unique index on the run date, the resource and the metric. *)
Definition finding_key : Postgres.schema :=
  {| Postgres.region_service_conflict := fun _ _ => false;
     Postgres.low_usage_conflict := fun a b =>
       (Datetime.toordinal (Postgres.lu_run_date a)
          =? Datetime.toordinal (Postgres.lu_run_date b))%Z
       && String.eqb (Postgres.lu_resource_id a) (Postgres.lu_resource_id b)
       && String.eqb (Postgres.lu_metric_name a) (Postgres.lu_metric_name b)
  |}.

(** Rows of the three shapes, and three rows off the common path. *)
Definition sample_service_row : row :=
  [VStr "2024-05-01"; VStr "VM"; VFloat (25 # 2)].

Definition sample_region_service_row : row :=
  [VStr "2024-05-02"; VStr "westeurope"; VStr "VM"; VInt 3].

Definition sample_short_row : row := [VStr "2024-05-03"; VFloat 1].

Definition sample_undated_row : row := [VNone; VStr "VM"; VFloat (25 # 2)].


Definition sample_text_cost_row : row :=
  [VStr "2024-05-02"; VStr "VM"; VStr "abc"].

Definition sample_later_row : row :=
  [VStr "2024-05-03"; VStr "Storage"; VFloat 2].

Definition sample_finding : Finding.t :=
  low_usage_finding sample_vm
    {| metric := "Percentage CPU"; stat := "Average"; threshold := 10;
       unit := "Percent" |}
    (5 # 2).

(** A run on 2024-05-20 against a subscription with one virtual machine at
    2.5 percent CPU. *)
Definition sample_environment : environment :=
  {| ENABLE_POSTGRES := true;
     SUBSCRIPTION_ID := Some "s1"%string;
     AZURE_SCOPE := None;
     db_configured := true;
     db_schema := no_constraint;
     today := may_20;
     elapsed_ms := 1234;
     cost_client := fun query =>
       match Cost.grouping query with
       | [_] => Ok (Some [sample_service_row])
       | _ => Ok (Some [sample_region_service_row])
       end;
     monitor_client := sample_monitor [Some (5 # 2)];
     resource_client :=
       [Ok {| GenericResource.id := Some (Resource.id sample_vm);
              GenericResource.name := "vm1";
              GenericResource.type := "Microsoft.Compute/virtualMachines";
              GenericResource.location := "westeurope" |}] |}.

(* ================================================================== *)
(* ================================================================== *)
(** ** Decimal conversion ([convert_decimals_to_float]) *)

(** The objects the function tells apart: a finite [Decimal], a dict, a
    list, and anything else, which it returns as it is. *)
#[local] Set Warnings "-register-all".
Inductive pyobject : Type :=
| ODecimal (d : Q)
| OFloat (x : Q)
| OOther (v : value)
| ODict (items : list (string * pyobject))
| OList (items : list pyobject).
#[local] Set Warnings "register-all".

Fixpoint convert_decimals_to_float (obj : pyobject) : pyobject :=
  match obj with
  | ODecimal d => OFloat d
  | ODict items =>
      ODict
        ((fix convert_items (l : list (string * pyobject)) :=
            match l with
            | [] => []
            | (key, value) :: l' =>
                (key, convert_decimals_to_float value) :: convert_items l'
            end) items)
  | OList items =>
      OList
        ((fix convert_list (l : list pyobject) :=
            match l with
            | [] => []
            | item :: l' => convert_decimals_to_float item :: convert_list l'
            end) items)
  | OFloat _ | OOther _ => obj
  end.

(* ================================================================== *)
(** ** Further notions used in the statements *)

(** Whether a [Decimal] is found in an object, through dicts and lists. *)
Fixpoint has_decimal (obj : pyobject) : bool :=
  match obj with
  | ODecimal _ => true
  | ODict items =>
      (fix any_item (l : list (string * pyobject)) :=
         match l with
         | [] => false
         | (_, value) :: l' => has_decimal value || any_item l'
         end) items
  | OList items =>
      (fix any (l : list pyobject) :=
         match l with
         | [] => false
         | item :: l' => has_decimal item || any l'
         end) items
  | OFloat _ | OOther _ => false
  end.

(** [sep.join(parts)] *)
Fixpoint join (sep : ascii) (parts : list string) : string :=
  match parts with
  | [] => EmptyString
  | [p] => p
  | p :: parts' => (p ++ String sep (join sep parts'))%string
  end.

(** What the rows of the metric table have in common: two or three
    metrics, a positive threshold, and the average or the sum as
    aggregation. *)
Definition well_formed_specs (specs : list MetricSpec) : bool :=
  (2 <=? List.length specs)%nat && (List.length specs <=? 3)%nat
  && forallb (fun spec =>
                Qltb 0 (threshold spec)
                && (String.eqb (stat spec) "Average"
                    || String.eqb (stat spec) "Sum"))
             specs.

(** What the discovery loop records for one descriptor: nothing when it
    has no id. *)
Definition recorded (resource : GenericResource.t) : list Resource.t :=
  match GenericResource.id resource with
  | Some id =>
      if negb (String.eqb id EmptyString) then
        [ {| Resource.id := id;
             Resource.name := GenericResource.name resource;
             Resource.type := GenericResource.type resource;
             Resource.location := GenericResource.location resource;
             Resource.resource_group := resource_group_of id |} ]
      else []
  | None => []
  end.

Definition well_recorded (r : Resource.t) : Prop :=
  Resource.id r <> EmptyString
  /\ Resource.resource_group r = resource_group_of (Resource.id r).

(** The rows the normalizer goes through: those before the first that
    raises. *)
Fixpoint converting_prefix (rs : list row) : list row :=
  match rs with
  | [] => []
  | r :: rs' =>
      if raises (process_row r) then [] else r :: converting_prefix rs'
  end.

(** The cost of a record when it is a finite number. *)
Definition finite_cost (c : CostRow) : option Q :=
  match row_cost_amount c with
  | Finite q => Some q
  | _ => None
  end.

Fixpoint sum_of_costs (rows : list CostRow) : Q :=
  match rows with
  | [] => 0
  | c :: rows' =>
      match finite_cost c with
      | Some q => q + sum_of_costs rows'
      | None => sum_of_costs rows'
      end
  end.

(** A computation leaves a view of the database as it was. *)
Definition preserves {A G : Type} (g : Postgres.database -> G)
  (m : Postgres.M A) : Prop :=
  forall db r db', m db = (r, db') -> g db' = g db.

(** A computation only appends to a table. *)
Definition appends_to {A R : Type} (g : Postgres.database -> list R)
  (m : Postgres.M A) : Prop :=
  forall db r db', m db = (r, db') -> exists more, g db' = g db ++ more.

(** The six tables, without the sessions of the server. *)
Definition tables (db : Postgres.database) :=
  (Postgres.azure_service_costs db, Postgres.azure_region_costs db,
   Postgres.azure_region_service_costs db, Postgres.azure_tag_costs db,
   Postgres.azure_low_usage_resources db,
   Postgres.azure_cost_monitoring_runs db).

(** The tables that hold costs and findings. *)
Definition data_tables (db : Postgres.database) :=
  (Postgres.azure_service_costs db, Postgres.azure_region_costs db,
   Postgres.azure_region_service_costs db, Postgres.azure_tag_costs db,
   Postgres.azure_low_usage_resources db).

(** The columns named by the [ON CONFLICT] targets. *)
Definition service_key (r : Postgres.service_cost) :=
  (Postgres.sc_date_period r, Postgres.sc_service_name r,
   Postgres.sc_month_label r).

Definition region_key (r : Postgres.region_cost) :=
  (Postgres.rc_date_period r, Postgres.rc_region_name r,
   Postgres.rc_month_label r).

Definition tag_key (r : Postgres.tag_cost) :=
  (Postgres.tc_date_period r, Postgres.tc_month_label r,
   Postgres.tc_tag_key r, Postgres.tc_tag_value r).


(** The row [main] writes after a run that stored its data. *)
Definition success_run (env : environment) (a : analysis)
  : Postgres.monitoring_run :=
  {| Postgres.run_date := today env;
     Postgres.start_date := start_date a;
     Postgres.end_date := end_date a;
     Postgres.last_month_start := last_month_start a;
     Postgres.last_month_end := last_month_end a;
     Postgres.total_current_cost := current_total_cost a;
     Postgres.total_last_month_cost := last_total_cost a;
     Postgres.low_usage_count := List.length (low_usage_resources a);
     Postgres.execution_status := "success";
     Postgres.error_message := None;
     Postgres.execution_time_ms := execution_time_ms a |}.

(** The segments of the id of a virtual machine. *)
Definition sample_segments : list string :=
  [EmptyString; "subscriptions"; "s1"; "resourceGroups"; "rg1";
   "providers"; "Microsoft.Compute"; "virtualMachines"; "vm1"]%string.

(** Two records of a service grouping. *)
Definition sample_cost_rows : list CostRow :=
  process_cost_response
    (QueryResult (Some [sample_service_row; sample_later_row])).

(** The settings of a run without a subscription id. *)
Definition sample_unconfigured : environment :=
  {| ENABLE_POSTGRES := ENABLE_POSTGRES sample_environment;
     SUBSCRIPTION_ID := None;
     AZURE_SCOPE := AZURE_SCOPE sample_environment;
     db_configured := db_configured sample_environment;
     db_schema := db_schema sample_environment;
     today := today sample_environment;
     elapsed_ms := elapsed_ms sample_environment;
     cost_client := cost_client sample_environment;
     monitor_client := monitor_client sample_environment;
     resource_client := resource_client sample_environment |}.

(** * Properties *)

(** ** The runtime model on examples *)

Example float_of_string_decimal :
  float_of_string "12.5" = Ok (Finite (125 # 10)).
Proof. reflexivity. Qed.

Example float_of_string_exponent :
  float_of_string " -1_0.25e+2 " = Ok (Finite (inject_Z (-1025))).
Proof. reflexivity. Qed.

Example float_of_string_leading_dot :
  float_of_string ".5" = Ok (Finite (5 # 10)).
Proof. reflexivity. Qed.

Example float_of_string_special :
  float_of_string "-Infinity" = Ok (Inf true)
  /\ float_of_string "NaN" = Ok NaN.
Proof. split; reflexivity. Qed.

Example float_of_string_rejects :
  map float_of_string
      ["abc"; EmptyString; "."; "1e"; "1_"; "_1"; "1__0"; "1 2"; "--1"]%string
  = repeat (Raise ValueError) 9.
Proof. reflexivity. Qed.

Example str_examples :
  map str [VStr "2024-05-01"; VInt 20240501; VFloat (25 # 2);
           VFloat (-3); VBool true]
  = ["2024-05-01"; "20240501"; "12.5"; "-3.0"; "True"]%string.
Proof. reflexivity. Qed.

(** ** Normalizer *)

Section Normalizer.

Lemma getitem_nth (r : row) (i : nat) (v : value) :
  nth_error r i = Some v -> getitem r (Z.of_nat i) = Ok v.
Proof.
  intros H. unfold getitem.
  assert (Hlt : (i < List.length r)%nat)
    by (apply nth_error_Some; congruence).
  destruct (Z.of_nat i <? 0)%Z eqn:E; [apply Z.ltb_lt in E; lia|].
  replace ((0 <=? Z.of_nat i) && (Z.of_nat i <? Z.of_nat (List.length r)))%Z
    with true.
  - now rewrite Nat2Z.id, H.
  - symmetry. apply andb_true_iff. split;
      [apply Z.leb_le | apply Z.ltb_lt]; lia.
Qed.

Lemma nth_error_last (r : row) (d : value) :
  r <> [] -> nth_error r (List.length r - 1) = Some (last r d).
Proof.
  induction r as [|a r IH]; [congruence|]. intros _.
  destruct r as [|b r]; [reflexivity|].
  change (List.length (a :: b :: r) - 1)%nat with (S (List.length r)).
  change (last (a :: b :: r) d) with (last (b :: r) d).
  simpl nth_error. rewrite <- IH by discriminate.
  simpl. now rewrite Nat.sub_0_r.
Qed.

Lemma getitem_last (r : row) :
  r <> [] -> getitem r (-1) = Ok (last r VNone).
Proof.
  intros H. unfold getitem.
  assert (Hlen : (0 < List.length r)%nat)
    by (destruct r; [congruence | simpl; lia]).
  change (-1 <? 0)%Z with true. cbv iota.
  replace ((0 <=? Z.of_nat (List.length r) + -1)
           && (Z.of_nat (List.length r) + -1 <? Z.of_nat (List.length r)))%Z
    with true.
  - replace (Z.to_nat (Z.of_nat (List.length r) + -1))
      with (List.length r - 1)%nat by lia.
    now rewrite (nth_error_last VNone H).
  - symmetry. apply andb_true_iff. split;
      [apply Z.leb_le | apply Z.ltb_lt]; lia.
Qed.

Lemma process_row_short (r : row) :
  (List.length r < 3)%nat -> process_row r = Ok None.
Proof.
  intros H. unfold process_row.
  destruct (3 <=? List.length r)%nat eqn:E; [|reflexivity].
  apply Nat.leb_le in E. lia.
Qed.

Lemma process_row_three (d x c : value) :
  process_row [d; x; c]
  = (cost <- cost_of c ;;
     Ok (Some (SingleDim (date_of d) (name_of x) cost))).
Proof. reflexivity. Qed.

Lemma process_row_long (d x s : value) (rest : list value) :
  rest <> [] ->
  process_row (d :: x :: s :: rest)
  = (cost <- cost_of (last (d :: x :: s :: rest) VNone) ;;
     Ok (Some (RegionService (date_of d) (name_of x) (name_of s) cost))).
Proof.
  intros H. destruct rest as [|t rest]; [congruence|].
  unfold process_row.
  change (3 <=? List.length (d :: x :: s :: t :: rest))%nat with true.
  change (List.length (d :: x :: s :: t :: rest) =? 3)%nat with false.
  change (4 <=? List.length (d :: x :: s :: t :: rest))%nat with true.
  cbv iota.
  set (r := d :: x :: s :: t :: rest).
  assert (H0 : getitem r 0 = Ok d) by (apply (@getitem_nth r 0); reflexivity).
  assert (H1 : getitem r 1 = Ok x) by (apply (@getitem_nth r 1); reflexivity).
  assert (H2 : getitem r 2 = Ok s) by (apply (@getitem_nth r 2); reflexivity).
  assert (Hl : getitem r (-1) = Ok (last r VNone))
    by (apply getitem_last; discriminate).
  rewrite H0, Hl, H1, H2. simpl.
  destruct (cost_of (last r VNone)); reflexivity.
Qed.

Lemma for_rows_acc (rs : list row) (acc : list CostRow) :
  for_rows rs acc
  = (acc ++ fst (for_rows rs []), snd (for_rows rs [])).
Proof.
  revert acc. induction rs as [|r rs IH]; intros acc; simpl.
  - now rewrite app_nil_r.
  - destruct (process_row r) as [[c|]|e]; simpl.
    + rewrite (IH (acc ++ [c])), (IH [c]). simpl.
      now rewrite <- app_assoc.
    + apply IH.
    + now rewrite app_nil_r.
Qed.

Lemma for_rows_converting (before rest : list row) (acc : list CostRow) :
  Forall converts before ->
  for_rows (before ++ rest) acc
  = for_rows rest (acc ++ flat_map emitted before).
Proof.
  intros H. revert acc. induction H as [|r before Hr _ IH]; intros acc; simpl.
  - now rewrite app_nil_r.
  - unfold converts in Hr. unfold emitted at 1.
    destruct (process_row r) as [[c|]|e]; simpl in *; try discriminate.
    + rewrite IH. now rewrite <- app_assoc.
    + apply IH.
Qed.

(** The loop leaves at the first row that raises. *)
Lemma for_rows_stops_at_failure (before after : list row) (bad : row)
  (e : exn) (acc : list CostRow) :
  Forall converts before -> process_row bad = Raise e ->
  for_rows (before ++ bad :: after) acc
  = (acc ++ flat_map emitted before, Some e).
Proof.
  intros H Hbad. rewrite for_rows_converting by assumption.
  simpl. now rewrite Hbad.
Qed.


Lemma run_process_cost_response_rows (rs : list row) :
  run_process_cost_response (QueryResult (Some rs)) = for_rows rs [].
Proof. destruct rs; reflexivity. Qed.

Lemma process_cost_response_rows (rs : list row) :
  process_cost_response (QueryResult (Some rs)) = fst (for_rows rs []).
Proof.
  unfold process_cost_response. now rewrite run_process_cost_response_rows.
Qed.

Lemma process_cost_response_converting (rs : list row) :
  Forall converts rs ->
  process_cost_response (QueryResult (Some rs)) = flat_map emitted rs.
Proof.
  intros H. rewrite process_cost_response_rows.
  rewrite <- (app_nil_r rs) at 1.
  now rewrite for_rows_converting.
Qed.

(** The output after a converting prefix and a row that emits [c]. *)
Lemma process_cost_response_after_prefix (before after : list row) (r : row)
  (c : CostRow) :
  Forall converts before -> process_row r = Ok (Some c) ->
  process_cost_response (QueryResult (Some (before ++ r :: after)))
  = process_cost_response (QueryResult (Some before))
      ++ c :: fst (for_rows after []).
Proof.
  intros H Hr.
  rewrite (process_cost_response_converting H).
  rewrite process_cost_response_rows, for_rows_converting by assumption.
  simpl. rewrite Hr, for_rows_acc. simpl.
  now rewrite <- app_assoc.
Qed.

Lemma emitted_from_input (rs : list row) (acc : list CostRow) (c : CostRow) :
  In c (fst (for_rows rs acc)) ->
  In c acc \/ exists r, In r rs /\ process_row r = Ok (Some c).
Proof.
  revert acc. induction rs as [|r rs IH]; intros acc; simpl.
  - auto.
  - destruct (process_row r) as [[c'|]|e] eqn:E; simpl; intros H.
    + apply IH in H. destruct H as [H|[r' [Hin Hr']]].
      * apply in_app_or in H. destruct H as [H|[H|[]]]; [now left|].
        subst c'. right. exists r. auto.
      * right. exists r'. auto.
    + apply IH in H. destruct H as [H|[r' [Hin Hr']]]; [now left|].
      right. exists r'. auto.
    + now left.
Qed.

Lemma converting_row_emits (r : row) :
  converts r -> (3 <= List.length r)%nat ->
  exists c, process_row r = Ok (Some c).
Proof.
  unfold converts. intros Hr Hlen.
  destruct r as [|d [|x [|s rest]]]; simpl in Hlen; try lia.
  destruct rest as [|t rest].
  - rewrite process_row_three in *.
    destruct (cost_of s); [eexists; reflexivity | discriminate].
  - rewrite process_row_long in * by discriminate.
    destruct (cost_of (last (d :: x :: s :: t :: rest) VNone));
      [eexists; reflexivity | discriminate].
Qed.

Lemma process_row_date (r : row) (c : CostRow) (d : value) :
  process_row r = Ok (Some c) -> nth_error r 0 = Some d ->
  row_date c = date_of d.
Proof.
  intros H Hd.
  destruct r as [|d' [|x [|s rest]]];
    try (rewrite process_row_short in H by (simpl; lia); discriminate).
  injection Hd as ->.
  destruct rest as [|t rest].
  - rewrite process_row_three in H.
    destruct (cost_of s); simpl in H; [|discriminate].
    now injection H as <-.
  - rewrite process_row_long in H by discriminate.
    destruct (cost_of (last (d :: x :: s :: t :: rest) VNone));
      simpl in H; [|discriminate].
    now injection H as <-.
Qed.

End Normalizer.

(** ** C1 to C4: what the normalizer does with a row *)

Section NormalizerClaims.



Example process_cost_response_three_shapes :
  process_cost_response
    (QueryResult
       (Some [sample_service_row; sample_region_service_row;
              sample_short_row]))
  = [SingleDim (Some "2024-05-01"%string) "VM" (Finite (25 # 2));
     RegionService (Some "2024-05-02"%string) "westeurope" "VM" (Finite 3)].
Proof. reflexivity. Qed.

(** C2, as stated, fails: a row whose date element is null is not dropped,
    its record is in the output with [date] [None]. *)
Lemma null_date_row_is_emitted :
  process_cost_response (QueryResult (Some [sample_undated_row]))
  = [SingleDim None "VM" (Finite (25 # 2))]
  /\ process_cost_response (QueryResult (Some [sample_undated_row]))
     <> process_cost_response (QueryResult (Some [])).
Proof. split; [reflexivity | discriminate]. Qed.

Lemma date_str_of_undated (c : CostRow) :
  row_date c = None -> Postgres.date_str_of c = None.
Proof.
  unfold Postgres.date_str_of, Postgres.get_date. now intros ->.
Qed.

Lemma service_cost_records_dated (rows : list CostRow) (label : string) :
  Postgres.service_cost_records rows label
  = Postgres.service_cost_records (filter dated rows) label.
Proof.
  induction rows as [|c rows IH]; [reflexivity|].
  simpl. unfold dated at 1.
  destruct (Postgres.date_str_of c) eqn:E; simpl; [|assumption].
  rewrite E. unfold Postgres.float_of_decimal_of_str. now rewrite IH.
Qed.

Lemma region_cost_records_dated (rows : list CostRow) (label : string) :
  Postgres.region_cost_records rows label
  = Postgres.region_cost_records (filter dated rows) label.
Proof.
  induction rows as [|c rows IH]; [reflexivity|].
  simpl. unfold dated at 1.
  destruct (Postgres.date_str_of c) eqn:E; simpl; [|assumption].
  rewrite E. unfold Postgres.float_of_decimal_of_str. now rewrite IH.
Qed.

Lemma region_service_cost_records_dated (rows : list CostRow)
  (label : string) :
  Postgres.region_service_cost_records rows label
  = Postgres.region_service_cost_records (filter dated rows) label.
Proof.
  induction rows as [|c rows IH]; [reflexivity|].
  simpl. unfold dated at 1.
  destruct (Postgres.date_str_of c) eqn:E; simpl; [|assumption].
  rewrite E. unfold Postgres.float_of_decimal_of_str. now rewrite IH.
Qed.

(** C2, amended. A row of length 3 or more whose date element is null, or
    falsy in another way, is kept by the normalizer: when the rows up to it
    convert, its record is in the output with [date] [None], and nothing is
    raised. Such a record is left out later, when an insert operation of
    the persistence helper builds its batch: the batch is the one built
    from the dated records alone. *)
Theorem null_date_row_kept_until_insert
  (before after : list row) (r : row) (d : value) :
  Forall converts before -> converts r ->
  (3 <= List.length r)%nat -> nth_error r 0 = Some d -> truthy d = false ->
  (exists c rest,
     row_date c = None /\ dated c = false /\
     process_cost_response (QueryResult (Some (before ++ r :: after)))
     = process_cost_response (QueryResult (Some before)) ++ c :: rest)
  /\ (forall rows label,
        Postgres.service_cost_records rows label
        = Postgres.service_cost_records (filter dated rows) label
        /\ Postgres.region_cost_records rows label
           = Postgres.region_cost_records (filter dated rows) label
        /\ Postgres.region_service_cost_records rows label
           = Postgres.region_service_cost_records (filter dated rows) label).
Proof.
  intros Hb Hr Hlen Hd Hfalsy. split.
  - destruct (@converting_row_emits r Hr Hlen) as [c Hc].
    assert (Hnone : row_date c = None).
    { rewrite (@process_row_date r c d Hc Hd). unfold date_of.
      now rewrite Hfalsy. }
    exists c, (fst (for_rows after [])).
    split; [exact Hnone|]. split.
    + unfold dated. now rewrite (@date_str_of_undated c Hnone).
    + now apply process_cost_response_after_prefix.
  - intros rows label. repeat split.
    + apply service_cost_records_dated.
    + apply region_cost_records_dated.
    + apply region_service_cost_records_dated.
Qed.

Lemma null_date_row_kept_until_insert_witness :
  (exists c rest,
     row_date c = None /\ dated c = false /\
     process_cost_response
       (QueryResult
          (Some ([sample_service_row] ++ sample_undated_row :: [])))
     = process_cost_response (QueryResult (Some [sample_service_row]))
         ++ c :: rest)
  /\ (forall rows label,
        Postgres.service_cost_records rows label
        = Postgres.service_cost_records (filter dated rows) label
        /\ Postgres.region_cost_records rows label
           = Postgres.region_cost_records (filter dated rows) label
        /\ Postgres.region_service_cost_records rows label
           = Postgres.region_service_cost_records (filter dated rows) label).
Proof.
  apply (@null_date_row_kept_until_insert
           [sample_service_row] [] sample_undated_row VNone).
  - repeat constructor.
  - reflexivity.
  - apply le_n.
  - reflexivity.
  - reflexivity.
Defined.






Example missing_cost_is_zero :
  process_cost_response
    (QueryResult (Some [[VStr "2024-05-01"; VStr "VM"; VNone];
                        [VStr "2024-05-02"; VStr "VM"; VInt 0];
                        [VStr "2024-05-03"; VStr "VM"; VStr EmptyString]]))
  = [SingleDim (Some "2024-05-01"%string) "VM" (Finite 0);
     SingleDim (Some "2024-05-02"%string) "VM" (Finite 0);
     SingleDim (Some "2024-05-03"%string) "VM" (Finite 0)].
Proof. reflexivity. Qed.

(** The service grouping of two days: the rows are normalized and their
    costs add up to 12.5. *)
Example service_rows_total :
  let rows :=
    process_cost_response
      (QueryResult
         (Some [[VStr "2024-05-01"; VStr "VM"; VFloat (25 # 2)];
                [VStr "2024-05-02"; VStr "VM"; VInt 0]])) in
  rows = [SingleDim (Some "2024-05-01"%string) "VM" (Finite (25 # 2));
          SingleDim (Some "2024-05-02"%string) "VM" (Finite 0)]
  /\ total_cost rows (Finite 0) = Ok (Finite (25 # 2)).
Proof. split; reflexivity. Qed.

(** A response without rows, and the dict of a failed query. *)
Example process_cost_response_no_rows :
  map process_cost_response
      [QueryResult None; QueryResult (Some []); FallbackDict]
  = [[]; []; []].
Proof. reflexivity. Qed.

(** C4, as stated, fails: the row after a row whose cost does not convert
    is well formed, and its record is not in the output. *)
Lemma rows_after_a_failing_row_are_lost :
  process_row sample_text_cost_row = Raise ValueError
  /\ emitted sample_later_row
     = [SingleDim (Some "2024-05-03"%string) "Storage" (Finite 2)]
  /\ process_cost_response
       (QueryResult
          (Some [sample_service_row; sample_text_cost_row;
                 sample_later_row]))
     = [SingleDim (Some "2024-05-01"%string) "VM" (Finite (25 # 2))]
  /\ ~ In (SingleDim (Some "2024-05-03"%string) "Storage" (Finite 2))
         (process_cost_response
            (QueryResult
               (Some [sample_service_row; sample_text_cost_row;
                      sample_later_row]))).
Proof.
  repeat split. intros [H|[]]. discriminate H.
Qed.

(** C4, amended. The normalizer returns a list for every response, it
    never raises. When a row raises a conversion error after rows that
    convert, the error is the one logged, the records of the rows before
    it are in the output, in order and at its start, and every record of
    the output comes from a row that converts, so the failing row adds
    none. When every row fails the output is empty. *)
Theorem process_cost_response_contains_failure
  (before after : list row) (bad : row) (e : exn) :
  Forall converts before -> process_row bad = Raise e ->
  let resp := QueryResult (Some (before ++ bad :: after)) in
  process_cost_response_logged resp = Some e
  /\ (exists rest,
        process_cost_response resp
        = process_cost_response (QueryResult (Some before)) ++ rest)
  /\ (forall c, In c (process_cost_response resp) ->
                exists r, In r (before ++ bad :: after)
                          /\ process_row r = Ok (Some c))
  /\ (forall rs, Forall (fun r => raises (process_row r) = true) rs ->
                 process_cost_response (QueryResult (Some rs)) = []).
Proof.
  intros Hb Hbad resp. unfold resp.
  pose proof (@for_rows_stops_at_failure before after bad e [] Hb Hbad)
    as Hrun.
  simpl in Hrun.
  split; [|split; [|split]].
  - unfold process_cost_response_logged.
    now rewrite run_process_cost_response_rows, Hrun.
  - exists []. rewrite app_nil_r, process_cost_response_rows, Hrun.
    now rewrite (process_cost_response_converting Hb).
  - intros c Hc. rewrite process_cost_response_rows in Hc.
    apply emitted_from_input in Hc. now destruct Hc as [[]|Hc].
  - intros rs Hrs. rewrite process_cost_response_rows.
    destruct rs as [|r rs]; [reflexivity|].
    inversion Hrs as [|? ? Hr _]; subst. simpl.
    destruct (process_row r) as [[?|]|?]; simpl in Hr; try discriminate.
    reflexivity.
Qed.

Lemma process_cost_response_contains_failure_witness :
  let resp :=
    QueryResult
      (Some ([sample_service_row]
               ++ sample_text_cost_row :: [sample_later_row])) in
  process_cost_response_logged resp = Some ValueError
  /\ (exists rest,
        process_cost_response resp
        = process_cost_response (QueryResult (Some [sample_service_row]))
            ++ rest)
  /\ (forall c, In c (process_cost_response resp) ->
                exists r,
                  In r ([sample_service_row]
                          ++ sample_text_cost_row :: [sample_later_row])
                  /\ process_row r = Ok (Some c))
  /\ (forall rs, Forall (fun r => raises (process_row r) = true) rs ->
                 process_cost_response (QueryResult (Some rs)) = []).
Proof.
  apply (@process_cost_response_contains_failure
           [sample_service_row] [sample_later_row] sample_text_cost_row
           ValueError).
  - repeat constructor.
  - reflexivity.
Defined.

End NormalizerClaims.

(** ** C5: the metric statistics fetcher *)

Section Fetcher.

Lemma Qltb_lt (x y : Q) : Qltb x y = true <-> x < y.
Proof.
  unfold Qltb. rewrite negb_true_iff. split.
  - intros H. apply Qnot_le_lt. intros Hle.
    apply Qle_bool_iff in Hle. congruence.
  - intros H. destruct (Qle_bool y x) eqn:E; [|reflexivity].
    apply Qle_bool_iff in E. exfalso. exact (Qlt_not_le _ _ H E).
Qed.

Lemma Qltb_ge (x y : Q) : Qltb x y = false <-> y <= x.
Proof.
  unfold Qltb. rewrite negb_false_iff. apply Qle_bool_iff.
Qed.







Example get_metric_statistics_examples :
  let points := [Some 4; None; Some (1 # 2); Some 3] in
  let read := fun aggregation =>
    get_metric_statistics (sample_monitor points) "vm1" "Percentage CPU"
      {| Datetime.year := 2024; Datetime.month := 5; Datetime.day := 1 |}
      {| Datetime.year := 2024; Datetime.month := 5; Datetime.day := 20 |}
      aggregation in
  option_map Qred (read "Average"%string) = Some (5 # 2)
  /\ option_map Qred (read "Sum"%string) = Some (15 # 2)
  /\ read "Maximum"%string = Some 4
  /\ read "Minimum"%string = Some (1 # 2)
  /\ read "Count"%string = None
  /\ get_metric_statistics (sample_monitor [None; None]) "vm1" "Percentage CPU"
       {| Datetime.year := 2024; Datetime.month := 5; Datetime.day := 1 |}
       {| Datetime.year := 2024; Datetime.month := 5; Datetime.day := 20 |}
       "Average" = None.
Proof. repeat split. Qed.

End Fetcher.

(** ** C6 and C10: the low-usage classifier *)

Section Classifier.

Variable monitor_client : Monitor.client.
Variables start_dt end_dt : Datetime.date.

Lemma analyze_resource_appends (low_usage : list Finding.t)
  (resource : Resource.t) :
  analyze_resource monitor_client start_dt end_dt low_usage resource
  = low_usage ++ findings_of monitor_client start_dt end_dt resource.
Proof.
  unfold analyze_resource, findings_of.
  generalize (evaluated_specs resource). intros specs. revert low_usage.
  induction specs as [|spec specs IH]; intros low_usage; simpl.
  - now rewrite app_nil_r.
  - rewrite IH.
    destruct (evaluate_metric monitor_client resource start_dt end_dt spec);
      simpl; [now rewrite <- app_assoc | reflexivity].
Qed.

Lemma fold_analyze_resource (resources : list Resource.t)
  (low_usage : list Finding.t) :
  fold_left (analyze_resource monitor_client start_dt end_dt) resources
            low_usage
  = low_usage
      ++ flat_map (findings_of monitor_client start_dt end_dt) resources.
Proof.
  revert low_usage.
  induction resources as [|r resources IH]; intros low_usage; simpl.
  - now rewrite app_nil_r.
  - now rewrite IH, analyze_resource_appends, <- app_assoc.
Qed.

Lemma classify_flat_map (resources : list Resource.t) :
  classify monitor_client resources start_dt end_dt
  = flat_map (findings_of monitor_client start_dt end_dt) resources.
Proof. unfold classify. now rewrite fold_analyze_resource. Qed.

Lemma evaluated_specs_capped (resource : Resource.t) :
  (List.length (evaluated_specs resource) <= MAX_METRICS_PER_RESOURCE)%nat
  /\ evaluated_specs resource
     = firstn 5 (get_primary_metrics_for_service (Resource.type resource)).
Proof.
  split; [|reflexivity]. unfold evaluated_specs. apply firstn_le_length.
Qed.

(** A finding of the classifier and the pair it comes from. *)
Lemma classify_finding_origin (resources : list Resource.t) (f : Finding.t) :
  In f (classify monitor_client resources start_dt end_dt) <->
  exists resource metric_config,
    In resource resources /\ In metric_config (evaluated_specs resource)
    /\ evaluate_metric monitor_client resource start_dt end_dt metric_config
       = Some f.
Proof.
  rewrite classify_flat_map, in_flat_map. split.
  - intros [resource [Hr Hf]]. unfold findings_of in Hf.
    apply in_flat_map in Hf. destruct Hf as [spec [Hs Hf]].
    exists resource, spec. repeat split; try assumption.
    destruct (evaluate_metric monitor_client resource start_dt end_dt spec);
      [|contradiction].
    destruct Hf as [<-|[]]. reflexivity.
  - intros [resource [spec [Hr [Hs Hf]]]]. exists resource.
    split; [assumption|]. unfold findings_of. apply in_flat_map.
    exists spec. split; [assumption|]. rewrite Hf. now left.
Qed.

(** C6. For a resource and a spec that is evaluated, a finding is emitted
    exactly when a reading was obtained and the reading is strictly below
    the threshold of the spec: no finding without a reading, none for a
    reading at or above the threshold, one for a reading below it. The
    specs evaluated for a resource are the first five of its table entry,
    in table order, and the findings of a run are those of its resources,
    in order. *)
Theorem classify_emits_iff_below_threshold (resources : list Resource.t) :
  (forall resource metric_config,
     let reading :=
       get_metric_statistics monitor_client (Resource.id resource)
         (metric metric_config) start_dt end_dt (stat metric_config) in
     let finding :=
       evaluate_metric monitor_client resource start_dt end_dt
                       metric_config in
     (reading = None -> finding = None)
     /\ (forall u, reading = Some u -> threshold metric_config <= u ->
                   finding = None)
     /\ (forall u, reading = Some u -> u < threshold metric_config ->
                   finding = Some (low_usage_finding resource metric_config u)))
  /\ (forall resource,
        evaluated_specs resource
        = firstn 5 (get_primary_metrics_for_service (Resource.type resource))
        /\ (List.length (evaluated_specs resource) <= 5)%nat)
  /\ classify monitor_client resources start_dt end_dt
     = flat_map
         (fun resource =>
            flat_map
              (fun metric_config =>
                 match evaluate_metric monitor_client resource start_dt end_dt
                         metric_config with
                 | Some finding => [finding]
                 | None => []
                 end)
              (evaluated_specs resource))
         resources
  /\ (forall f,
        In f (classify monitor_client resources start_dt end_dt) <->
        exists resource metric_config u,
          In resource resources
          /\ In metric_config (evaluated_specs resource)
          /\ get_metric_statistics monitor_client (Resource.id resource)
               (metric metric_config) start_dt end_dt (stat metric_config)
             = Some u
          /\ u < threshold metric_config
          /\ f = low_usage_finding resource metric_config u).
Proof.
  split; [|split; [|split]].
  - intros resource spec reading finding. unfold finding, evaluate_metric.
    fold reading. repeat split.
    + now intros ->.
    + intros u -> Hu. apply Qltb_ge in Hu. now rewrite Hu.
    + intros u -> Hu. apply Qltb_lt in Hu. now rewrite Hu.
  - intros resource. destruct (evaluated_specs_capped resource). auto.
  - apply classify_flat_map.
  - intros f. rewrite classify_finding_origin. split.
    + intros [resource [spec [Hr [Hs Hf]]]]. unfold evaluate_metric in Hf.
      destruct (get_metric_statistics monitor_client (Resource.id resource)
                  (metric spec) start_dt end_dt (stat spec)) as [u|] eqn:E;
        [|discriminate].
      destruct (Qltb u (threshold spec)) eqn:Hu; [|discriminate].
      exists resource, spec, u. repeat split; try assumption.
      * now apply Qltb_lt.
      * congruence.
    + intros [resource [spec [u [Hr [Hs [E [Hu ->]]]]]]].
      exists resource, spec. repeat split; try assumption.
      unfold evaluate_metric. rewrite E.
      apply Qltb_lt in Hu. now rewrite Hu.
Qed.

End Classifier.

(** Every finding of the classifier comes from a reading below the
    threshold. *)
Lemma classify_emits_below_threshold_origin (monitor_client : Monitor.client)
  (resources : list Resource.t) (start_dt end_dt : Datetime.date)
  (f : Finding.t) :
  In f (classify monitor_client resources start_dt end_dt) ->
  exists resource metric_config u,
    In resource resources
    /\ In metric_config (evaluated_specs resource)
    /\ get_metric_statistics monitor_client (Resource.id resource)
         (metric metric_config) start_dt end_dt (stat metric_config)
       = Some u
    /\ u < threshold metric_config
    /\ f = low_usage_finding resource metric_config u.
Proof.
  intros Hf. apply classify_finding_origin in Hf.
  destruct Hf as [resource [spec [Hr [Hs Hf]]]].
  unfold evaluate_metric in Hf.
  destruct (get_metric_statistics monitor_client (Resource.id resource)
              (metric spec) start_dt end_dt (stat spec)) as [u|] eqn:E;
    [|discriminate].
  destruct (Qltb u (threshold spec)) eqn:Hu; [|discriminate].
  exists resource, spec, u. repeat split; try assumption.
  - now apply Qltb_lt.
  - congruence.
Qed.

Section RoundedUsage.

(** C10. A finding records the reading rounded to two decimal places,
    while the comparison that decides on it uses the reading as fetched:
    every finding of the classifier comes from a reading strictly below the
    threshold it records, and carries that reading rounded. The recorded
    usage can therefore reach the threshold: a reading of [9.998046875]
    against a threshold of [10] is recorded as [10.0]. *)
Theorem finding_records_rounded_reading :
  (forall monitor_client resources start_dt end_dt f,
     In f (classify monitor_client resources start_dt end_dt) ->
     exists resource metric_config u,
       In resource resources
       /\ In metric_config (evaluated_specs resource)
       /\ get_metric_statistics monitor_client (Resource.id resource)
            (metric metric_config) start_dt end_dt (stat metric_config)
          = Some u
       /\ u < threshold metric_config
       /\ Finding.threshold f = threshold metric_config
       /\ Finding.average_usage f = round2 u)
  /\ (exists monitor_client resources start_dt end_dt f u,
        In f (classify monitor_client resources start_dt end_dt)
        /\ get_metric_statistics monitor_client (Finding.resource_id f)
             (Finding.metric f) start_dt end_dt (Finding.stat_type f)
           = Some u
        /\ u < Finding.threshold f
        /\ Finding.threshold f <= Finding.average_usage f).
Proof.
  split.
  - intros monitor_client resources start_dt end_dt f Hf.
    apply classify_emits_below_threshold_origin in Hf.
    destruct Hf as [resource [spec [u [Hr [Hs [E [Hu ->]]]]]]].
    exists resource, spec, u. repeat split; assumption.
  - exists (sample_monitor [Some (5119 # 512)]), [sample_vm], may_1, may_20,
      (low_usage_finding sample_vm
         {| metric := "Percentage CPU"; stat := "Average";
            threshold := 10; unit := "Percent" |}
         (5119 # 512)),
      (5119 # 512).
    split; [left; reflexivity|].
    split; [reflexivity|].
    split; [reflexivity|]. discriminate.
Qed.

Lemma finding_records_rounded_reading_witness :
  exists resource metric_config u,
    In resource [sample_vm]
    /\ In metric_config (evaluated_specs resource)
    /\ get_metric_statistics (sample_monitor [Some (5119 # 512)])
         (Resource.id resource) (metric metric_config) may_1 may_20
         (stat metric_config)
       = Some u
    /\ u < threshold metric_config
    /\ Finding.threshold
         (low_usage_finding sample_vm
            {| metric := "Percentage CPU"; stat := "Average";
               threshold := 10; unit := "Percent" |}
            (5119 # 512))
       = threshold metric_config
    /\ Finding.average_usage
         (low_usage_finding sample_vm
            {| metric := "Percentage CPU"; stat := "Average";
               threshold := 10; unit := "Percent" |}
            (5119 # 512))
       = round2 u.
Proof.
  apply (proj1 finding_records_rounded_reading
           (sample_monitor [Some (5119 # 512)]) [sample_vm] may_1 may_20).
  left. reflexivity.
Defined.

Example round2_examples :
  map round2 [5119 # 512; 1 # 2; 1 # 8; 3 # 8; - (1 # 8); 12345 # 1000]
  = [1000 # 100; 50 # 100; 12 # 100; 38 # 100; (-12) # 100; 1234 # 100].
Proof. reflexivity. Qed.

End RoundedUsage.

(** ** C7: the previous-month window *)

Section Windows.

Import Datetime.

Lemma code_leap_test (y : Z) :
  (((y mod 4 =? 0) && negb (y mod 100 =? 0)) || (y mod 400 =? 0))%Z
  = is_leap y.
Proof.
  unfold is_leap.
  destruct (y mod 4 =? 0)%Z eqn:E4, (y mod 100 =? 0)%Z eqn:E100,
           (y mod 400 =? 0)%Z eqn:E400; try reflexivity.
  - apply Z.eqb_neq in E4. apply Z.eqb_eq in E400. Z.div_mod_to_equations. lia.
  - apply Z.eqb_neq in E4. apply Z.eqb_eq in E400. Z.div_mod_to_equations. lia.
Qed.

Lemma make_valid (y m d : Z) :
  valid y m d = true -> make y m d = Ok {| year := y; month := m; day := d |}.
Proof. unfold make. now intros ->. Qed.

Lemma valid_bounds (y m d : Z) :
  valid y m d = true <->
  (MINYEAR <= y <= MAXYEAR /\ 1 <= m <= 12 /\ 1 <= d <= days_in_month y m)%Z.
Proof.
  unfold valid. rewrite !andb_true_iff, !Z.leb_le. tauto.
Qed.

Lemma days_in_month_bounds (y m : Z) :
  (1 <= m <= 12)%Z -> (28 <= days_in_month y m <= 31)%Z.
Proof.
  intros H.
  assert (Hm : (m = 1 \/ m = 2 \/ m = 3 \/ m = 4 \/ m = 5 \/ m = 6 \/ m = 7
                \/ m = 8 \/ m = 9 \/ m = 10 \/ m = 11 \/ m = 12)%Z) by lia.
  unfold days_in_month.
  repeat (destruct Hm as [->|Hm]); try subst m;
    try destruct (is_leap y); lia.
Qed.

Lemma last_day_of_previous_month (y m : Z) :
  (2 <= m <= 12)%Z ->
  (if in_list (m - 1) [1; 3; 5; 7; 8; 10; 12]%Z then 31%Z
   else if in_list (m - 1) [4; 6; 9; 11]%Z then 30%Z
        else if is_leap y then 29%Z else 28%Z)
  = days_in_month y (m - 1).
Proof.
  intros H.
  assert (Hm : (m = 2 \/ m = 3 \/ m = 4 \/ m = 5 \/ m = 6 \/ m = 7
                \/ m = 8 \/ m = 9 \/ m = 10 \/ m = 11 \/ m = 12)%Z) by lia.
  repeat (destruct Hm as [->|Hm]); try subst m; reflexivity.
Qed.

Lemma days_before_year_next (y : Z) :
  days_before_year (y + 1)
  = (days_before_year y + if is_leap y then 366 else 365)%Z.
Proof.
  unfold days_before_year, is_leap.
  replace (y + 1 - 1)%Z with y by lia.
  destruct (y mod 4 =? 0)%Z eqn:E4, (y mod 100 =? 0)%Z eqn:E100,
           (y mod 400 =? 0)%Z eqn:E400; simpl;
    rewrite ?Z.eqb_eq, ?Z.eqb_neq in *;
    Z.div_mod_to_equations; lia.
Qed.

Lemma ordinal_of_next_month (y m : Z) :
  (2 <= m <= 12)%Z ->
  (days_before_month y (Z.to_nat (m - 1)) + days_in_month y (m - 1))%Z
  = days_before_month y (Z.to_nat m).
Proof.
  intros H.
  assert (Hm : (m = 2 \/ m = 3 \/ m = 4 \/ m = 5 \/ m = 6 \/ m = 7
                \/ m = 8 \/ m = 9 \/ m = 10 \/ m = 11 \/ m = 12)%Z) by lia.
  repeat (destruct Hm as [->|Hm]); try subst m; reflexivity.
Qed.

Lemma days_before_december (y : Z) :
  (days_before_month y 12 + 31)%Z
  = (if is_leap y then 366 else 365)%Z.
Proof.
  change (days_before_month y 12)
    with (0 + 31 + (if is_leap y then 29 else 28) + 31 + 30 + 31 + 30 + 31
          + 31 + 30 + 31 + 30)%Z.
  destruct (is_leap y); reflexivity.
Qed.

(** C7. For a date of the calendar other than one of January of year 1,
    the previous-month window starts on day 1 of the month before and ends
    on the last day of that month: no later day of that month is a date,
    February has 29 days in the years divisible by 4 and not by 100, or by
    400, and 28 otherwise, and the day after the end of the window is the
    first day of the month of the input. *)
Theorem last_month_window_is_previous_month (today : date) :
  valid (year today) (month today) (day today) = true ->
  (1 < year today \/ 1 < month today)%Z ->
  let y := if (month today =? 1)%Z then (year today - 1)%Z else year today in
  let m := if (month today =? 1)%Z then 12%Z else (month today - 1)%Z in
  let first := {| year := y; month := m; day := 1 |} in
  let last_ := {| year := y; month := m; day := days_in_month y m |} in
  let this_month :=
    {| year := year today; month := month today; day := 1 |} in
  last_month_window today = Ok (first, last_)
  /\ valid y m (days_in_month y m) = true
  /\ (forall d, valid y m d = true -> (d <= days_in_month y m)%Z)
  /\ (m = 2%Z ->
      (days_in_month y m = 29%Z <->
       ((y mod 4 = 0 /\ y mod 100 <> 0) \/ y mod 400 = 0)%Z)
      /\ (days_in_month y m = 29 \/ days_in_month y m = 28)%Z)
  /\ tomorrow last_ = Ok this_month
  /\ (toordinal last_ + 1 = toordinal this_month)%Z.
Proof.
  intros Hv Hy y m first last_ this_month.
  destruct today as [ty tm td]. cbn [year month day] in *.
  apply valid_bounds in Hv.
  unfold MINYEAR, MAXYEAR in Hv. destruct Hv as [Hty [Htm Htd]].
  assert (Hym : (1 <= y <= 9999 /\ 1 <= m <= 12)%Z).
  { unfold y, m. destruct (Z.eqb_spec tm 1); lia. }
  assert (Hdim : (28 <= days_in_month y m <= 31)%Z)
    by (apply days_in_month_bounds; lia).
  assert (Hlast : valid y m (days_in_month y m) = true).
  { apply valid_bounds. unfold MINYEAR, MAXYEAR. lia. }
  assert (Hfirst : valid y m 1 = true).
  { apply valid_bounds. unfold MINYEAR, MAXYEAR. lia. }
  split; [|split; [exact Hlast|split; [|split; [|split]]]].
  - unfold last_month_window, replace. cbn [year month day].
    rewrite code_leap_test. fold this_month.
    unfold first, last_, y, m in *. clear y m first last_.
    destruct (Z.eqb_spec tm 1) as [->|Hne].
    + rewrite (make_valid _ _ _ Hfirst). cbn [bind].
      change (days_in_month (ty - 1) 12) with 31%Z in Hlast.
      rewrite (make_valid _ _ _ Hlast). reflexivity.
    + rewrite (make_valid _ _ _ Hfirst). cbn [bind].
      rewrite last_day_of_previous_month by lia.
      rewrite (make_valid _ _ _ Hlast). reflexivity.
  - intros d Hd. apply valid_bounds in Hd. lia.
  - intros Hm2. rewrite Hm2. unfold days_in_month.
    rewrite <- code_leap_test.
    destruct (y mod 4 =? 0)%Z eqn:E4, (y mod 100 =? 0)%Z eqn:E100,
             (y mod 400 =? 0)%Z eqn:E400; simpl;
      rewrite ?Z.eqb_eq, ?Z.eqb_neq in *; split; try lia; split; try lia;
      try (intros _; tauto); intros [[? ?]|?]; try lia;
      Z.div_mod_to_equations; lia.
  - unfold tomorrow, last_. cbn [year month day].
    rewrite Z.ltb_irrefl. unfold this_month, y, m.
    destruct (Z.eqb_spec tm 1) as [->|Hne].
    + change (12 <? 12)%Z with false. cbv iota.
      replace (ty - 1 <? MAXYEAR)%Z with true
        by (symmetry; apply Z.ltb_lt; unfold MAXYEAR; lia).
      do 2 f_equal. lia.
    + replace (tm - 1 <? 12)%Z with true
        by (symmetry; apply Z.ltb_lt; lia).
      do 2 f_equal. lia.
  - unfold toordinal, last_, this_month, y, m. cbn [year month day].
    destruct (Z.eqb_spec tm 1) as [->|Hne].
    + change (Z.to_nat 12) with 12%nat. change (Z.to_nat 1) with 1%nat.
      change (days_before_month ty 1) with 0%Z.
      change (days_in_month (ty - 1) 12) with 31%Z.
      pose proof (days_before_year_next (ty - 1)) as Hn.
      replace (ty - 1 + 1)%Z with ty in Hn by lia.
      pose proof (days_before_december (ty - 1)) as Hd. lia.
    + pose proof (@ordinal_of_next_month ty tm ltac:(lia)). lia.
Qed.

Lemma last_month_window_is_previous_month_witness :
  last_month_window
    {| year := 2024; month := 3; day := 10 |}
  = Ok ({| year := 2024; month := 2; day := 1 |},
        {| year := 2024; month := 2; day := 29 |})
  /\ valid 2024 2 29 = true
  /\ (forall d, valid 2024 2 d = true -> (d <= 29)%Z)
  /\ (2%Z = 2%Z ->
      (29%Z = 29%Z <->
       ((2024 mod 4 = 0 /\ 2024 mod 100 <> 0) \/ 2024 mod 400 = 0)%Z)
      /\ (29 = 29 \/ 29 = 28)%Z)
  /\ tomorrow {| year := 2024; month := 2; day := 29 |}
     = Ok {| year := 2024; month := 3; day := 1 |}
  /\ (toordinal {| year := 2024; month := 2; day := 29 |} + 1
      = toordinal {| year := 2024; month := 3; day := 1 |})%Z.
Proof.
  apply (@last_month_window_is_previous_month
           {| year := 2024; month := 3; day := 10 |}).
  - reflexivity.
  - left. reflexivity.
Defined.

Example last_month_window_examples :
  last_month_window {| year := 2024; month := 1; day := 15 |}
  = Ok ({| year := 2023; month := 12; day := 1 |},
        {| year := 2023; month := 12; day := 31 |})
  /\ last_month_window {| year := 2024; month := 3; day := 10 |}
     = Ok ({| year := 2024; month := 2; day := 1 |},
           {| year := 2024; month := 2; day := 29 |})
  /\ last_month_window {| year := 2023; month := 3; day := 10 |}
     = Ok ({| year := 2023; month := 2; day := 1 |},
           {| year := 2023; month := 2; day := 28 |})
  /\ last_month_window {| year := 1900; month := 3; day := 31 |}
     = Ok ({| year := 1900; month := 2; day := 1 |},
           {| year := 1900; month := 2; day := 28 |})
  /\ last_month_window {| year := 2000; month := 3; day := 31 |}
     = Ok ({| year := 2000; month := 2; day := 1 |},
           {| year := 2000; month := 2; day := 29 |}).
Proof. repeat split. Qed.

End Windows.

(** ** C8: running an insert twice *)

Section Reruns.

Import Postgres.

Variable R : Type.
Variable conflict : R -> R -> bool.
Hypothesis conflict_refl : forall r, conflict r r = true.

Lemma existsb_app_l (p : R -> bool) (l l' : list R) :
  existsb p l = true -> existsb p (l ++ l') = true.
Proof. rewrite existsb_app. now intros ->. Qed.

(** After a batch under [DO NOTHING], every row of the table is still
    there and every record of the batch meets a row it conflicts with. *)
Lemma executemany_do_nothing_covers (records table table' : list R)
  (n n' : nat) :
  executemany conflict DoNothing table records n = Some (table', n') ->
  (forall r, existsb (conflict r) table = true ->
             existsb (conflict r) table' = true)
  /\ Forall (fun r => existsb (conflict r) table' = true) records.
Proof.
  revert table n. induction records as [|r records IH]; intros table n H.
  - simpl in H. injection H as <- <-. auto.
  - simpl in H. unfold execute in H.
    destruct (existsb (conflict r) table) eqn:E.
    + apply IH in H. destruct H as [Hmono Hall].
      split; [assumption|]. constructor; auto.
    + apply IH in H. destruct H as [Hmono Hall].
      assert (Hr : existsb (conflict r) (table ++ [r]) = true).
      { rewrite existsb_app. simpl. rewrite conflict_refl.
        now rewrite orb_true_r. }
      split.
      * intros x Hx. apply Hmono. now apply existsb_app_l.
      * constructor; auto.
Qed.

Lemma executemany_do_nothing_skips (records table : list R) (n : nat) :
  Forall (fun r => existsb (conflict r) table = true) records ->
  executemany conflict DoNothing table records n = Some (table, n).
Proof.
  intros H. revert n. induction H as [|r records Hr _ IH]; intros n.
  - reflexivity.
  - simpl. unfold execute. rewrite Hr. rewrite IH. now rewrite Nat.add_0_r.
Qed.

(** A batch under [DO NOTHING] always goes through. *)
Lemma executemany_do_nothing_total (records table : list R) (n : nat) :
  exists table' n',
    executemany conflict DoNothing table records n = Some (table', n').
Proof.
  revert table n. induction records as [|r records IH]; intros table n.
  - simpl. eauto.
  - simpl. unfold execute.
    destruct (existsb (conflict r) table); apply IH.
Qed.

(** Run again on its own result, a batch under [DO NOTHING] changes
    nothing and affects no row. *)
Lemma executemany_do_nothing_idempotent (records table table' : list R)
  (n n' : nat) :
  executemany conflict DoNothing table records n = Some (table', n') ->
  executemany conflict DoNothing table' records 0 = Some (table', 0%nat).
Proof.
  intros H. apply executemany_do_nothing_covers in H.
  now apply executemany_do_nothing_skips.
Qed.

End Reruns.

Section PlainInsert.

Import Postgres.

Variable R : Type.
Variable conflict : R -> R -> bool.

(** A batch of plain inserts that goes through has appended every
    record. *)
Lemma executemany_no_clause_appends (records table table' : list R)
  (n n' : nat) :
  executemany conflict NoClause table records n = Some (table', n') ->
  table' = table ++ records /\ n' = (n + List.length records)%nat.
Proof.
  revert table n. induction records as [|r records IH]; intros table n H.
  - simpl in H. injection H as <- <-.
    now rewrite app_nil_r, Nat.add_0_r.
  - simpl in H. unfold execute in H.
    destruct (existsb (conflict r) table); [discriminate|].
    apply IH in H. destruct H as [-> ->].
    rewrite <- app_assoc. simpl. split; [reflexivity | lia].
Qed.

End PlainInsert.

Section InsertClaims.

Import Postgres.

Lemma service_cost_conflict_refl (r : service_cost) :
  service_cost_conflict r r = true.
Proof.
  unfold service_cost_conflict, same_text. now rewrite !String.eqb_refl.
Qed.

Lemma region_cost_conflict_refl (r : region_cost) :
  region_cost_conflict r r = true.
Proof.
  unfold region_cost_conflict, same_text. now rewrite !String.eqb_refl.
Qed.

Lemma tag_cost_conflict_refl (r : tag_cost) : tag_cost_conflict r r = true.
Proof.
  unfold tag_cost_conflict, same_text. now rewrite !String.eqb_refl.
Qed.

(** A batch insert under [DO NOTHING], run a second time on a server that
    answers, leaves the table as the first run left it. *)
Lemma batch_insert_do_nothing_rerun (R : Type) (conflict : R -> R -> bool)
  (get : database -> list R) (set : list R -> database -> database)
  (records : list R) (db db1 : database) (n : nat) :
  (forall r, conflict r r = true) ->
  (forall t d, get (set t d) = t) ->
  (forall t d, sessions (set t d) = sessions d) ->
  sessions db = [] ->
  _execute_batch_insert conflict DoNothing get set records db = (Ok n, db1) ->
  exists db2,
    _execute_batch_insert conflict DoNothing get set records db1
    = (Ok 0%nat, db2)
    /\ get db2 = get db1.
Proof.
  intros Hrefl Hget Hses Hup H. unfold _execute_batch_insert in *.
  destruct records as [|r records].
  - injection H as <- <-. eauto.
  - unfold connect in *. rewrite Hup in H.
    destruct (executemany conflict DoNothing (get db) (r :: records) 0)
      as [[table' n']|] eqn:E; [|discriminate].
    injection H as <- <-.
    rewrite Hses, Hup, Hget.
    rewrite (@executemany_do_nothing_idempotent R conflict Hrefl
               (r :: records) (get db) table' 0 n' E).
    eexists. split; [reflexivity|]. now rewrite !Hget.
Qed.

(** A batch of plain inserts, run a second time, fails or appends its
    records again. *)
Lemma batch_insert_no_clause_rerun (R : Type) (conflict : R -> R -> bool)
  (get : database -> list R) (set : list R -> database -> database)
  (records : list R) (db db1 : database) (n : nat) :
  (forall t d, get (set t d) = t) ->
  (forall t d, sessions (set t d) = sessions d) ->
  records <> [] -> sessions db = [] ->
  _execute_batch_insert conflict NoClause get set records db = (Ok n, db1) ->
  get db1 = get db ++ records
  /\ n = List.length records
  /\ (_execute_batch_insert conflict NoClause get set records db1
      = (Raise PostgreSQLConnectionError, db1)
      \/ exists db2,
           _execute_batch_insert conflict NoClause get set records db1
           = (Ok (List.length records), db2)
           /\ get db2 = get db ++ records ++ records).
Proof.
  intros Hget Hses Hne Hup H. unfold _execute_batch_insert in *.
  destruct records as [|r records]; [congruence|].
  unfold connect in *. rewrite Hup in H.
  destruct (executemany conflict NoClause (get db) (r :: records) 0)
    as [[table' n']|] eqn:E; [|discriminate].
  injection H as <- <-.
  apply executemany_no_clause_appends in E. destruct E as [-> ->].
  rewrite Hses, Hup, !Hget. split; [reflexivity|]. split; [reflexivity|].
  destruct (executemany conflict NoClause (get db ++ r :: records)
              (r :: records) 0) as [[table2 n2]|] eqn:E2.
  - right. apply executemany_no_clause_appends in E2.
    destruct E2 as [-> ->]. eexists. split; [reflexivity|].
    now rewrite Hget, <- app_assoc.
  - now left.
Qed.

(** The cost inserts can be run again: the second run of
    [insert_service_costs], [insert_region_costs] or [insert_tag_costs]
    with the same data adds no row. *)
Lemma cost_inserts_rerun (rows : list CostRow) (label tag_key : string)
  (db : database) :
  sessions db = [] ->
  (forall n db1,
     insert_service_costs rows label db = (Ok n, db1) ->
     exists db2, insert_service_costs rows label db1 = (Ok 0%nat, db2)
                 /\ azure_service_costs db2 = azure_service_costs db1)
  /\ (forall n db1,
        insert_region_costs rows label db = (Ok n, db1) ->
        exists db2, insert_region_costs rows label db1 = (Ok 0%nat, db2)
                    /\ azure_region_costs db2 = azure_region_costs db1)
  /\ (forall n db1,
        insert_tag_costs rows label tag_key db = (Ok n, db1) ->
        exists db2, insert_tag_costs rows label tag_key db1 = (Ok 0%nat, db2)
                    /\ azure_tag_costs db2 = azure_tag_costs db1).
Proof.
  intros Hup. repeat split; intros n db1 H.
  - eapply batch_insert_do_nothing_rerun;
      eauto using service_cost_conflict_refl.
  - eapply batch_insert_do_nothing_rerun;
      eauto using region_cost_conflict_refl.
  - eapply batch_insert_do_nothing_rerun; eauto using tag_cost_conflict_refl.
Qed.

(** C8, on the code. The insert of the low-usage findings is a plain
    [INSERT]. Run a second time with the same findings and the same run
    date on a server that answers, it does not leave the table as it was:
    whatever the unique constraints of the table, either the second run
    fails with an error of the persistence layer, or it appends every
    finding once more, so that each is stored twice. *)
Theorem insert_low_usage_resources_rerun (s : schema)
  (findings : list Finding.t) (run_date : Datetime.date)
  (db db1 : database) (n : nat) :
  findings <> [] -> sessions db = [] ->
  insert_low_usage_resources s findings run_date db = (Ok n, db1) ->
  let records := map (low_usage_record run_date) findings in
  azure_low_usage_resources db1 = azure_low_usage_resources db ++ records
  /\ (insert_low_usage_resources s findings run_date db1
      = (Raise PostgreSQLConnectionError, db1)
      \/ exists db2,
           insert_low_usage_resources s findings run_date db1
           = (Ok (List.length findings), db2)
           /\ azure_low_usage_resources db2
              = azure_low_usage_resources db ++ records ++ records).
Proof.
  intros Hne Hup H records.
  assert (Hrec : records <> [])
    by (unfold records; destruct findings; [congruence | discriminate]).
  unfold insert_low_usage_resources in *. fold records in H |- *.
  destruct (@batch_insert_no_clause_rerun _ (low_usage_conflict s)
              azure_low_usage_resources set_low_usage_resources
              records db db1 n (fun _ _ => eq_refl) (fun _ _ => eq_refl)
              Hrec Hup H) as [Htable [Hn Hagain]].
  split; [assumption|].
  replace (List.length findings) with (List.length records)
    by (unfold records; apply length_map).
  assumption.
Qed.

Lemma insert_low_usage_resources_rerun_witness :
  let db1 :=
    snd (insert_low_usage_resources no_constraint [sample_finding] may_20
           (empty_database [])) in
  let records := map (low_usage_record may_20) [sample_finding] in
  azure_low_usage_resources db1
  = azure_low_usage_resources (empty_database []) ++ records
  /\ (insert_low_usage_resources no_constraint [sample_finding] may_20 db1
      = (Raise PostgreSQLConnectionError, db1)
      \/ exists db2,
           insert_low_usage_resources no_constraint [sample_finding] may_20
             db1
           = (Ok (List.length [sample_finding]), db2)
           /\ azure_low_usage_resources db2
              = azure_low_usage_resources (empty_database [])
                  ++ records ++ records).
Proof.
  apply (@insert_low_usage_resources_rerun no_constraint [sample_finding]
           may_20 (empty_database []) _ 1).
  - discriminate.
  - reflexivity.
  - reflexivity.
Defined.

(** The same finding, inserted twice for the same run date: stored twice
    where the table has no unique constraint, refused the second time
    where it has one. *)
Example insert_low_usage_resources_twice :
  let run := insert_low_usage_resources no_constraint [sample_finding] may_20 in
  let keyed := insert_low_usage_resources finding_key [sample_finding] may_20 in
  azure_low_usage_resources (snd (run (snd (run (empty_database [])))))
  = [low_usage_record may_20 sample_finding;
     low_usage_record may_20 sample_finding]
  /\ fst (keyed (snd (keyed (empty_database []))))
     = Raise PostgreSQLConnectionError.
Proof. split; reflexivity. Qed.

Example insert_service_costs_twice :
  let run := insert_service_costs
      (process_cost_response (QueryResult (Some [sample_service_row])))
      "current" in
  fst (run (empty_database [])) = Ok 1%nat
  /\ fst (run (snd (run (empty_database [])))) = Ok 0%nat
  /\ azure_service_costs (snd (run (snd (run (empty_database [])))))
     = azure_service_costs (snd (run (empty_database []))).
Proof. repeat split. Qed.

End InsertClaims.

(** ** C9: a failure of the storage phase *)

Section StorageFailure.

Lemma cleanup_phase_returns (env : environment) (r : postgres_results)
  (db : Postgres.database) :
  exists db', cleanup_phase env r db = (Ok tt, db').
Proof.
  unfold cleanup_phase.
  destruct (ENABLE_POSTGRES env && is_success r)%bool;
    [|eexists; reflexivity].
  unfold Postgres.try_except.
  destruct (Postgres.mbind _ _ db) as [[[]|e] db']; eexists; reflexivity.
Qed.

Lemma cleanup_phase_skipped (env : environment) (error : string)
  (db : Postgres.database) :
  cleanup_phase env (Failed error) db = (Ok tt, db).
Proof.
  unfold cleanup_phase. simpl is_success. now rewrite andb_false_r.
Qed.

Lemma store_without_connection (env : environment) (a : analysis)
  (db : Postgres.database) (s : Postgres.session)
  (rest : list Postgres.session) :
  Postgres.sessions db = s :: rest -> s <> Postgres.Up ->
  exists db1, store env a db = (Raise PostgreSQLConnectionError, db1).
Proof.
  intros Hs Hdown. unfold store, Postgres.mbind at 1.
  unfold Postgres.create_postgres_helper.
  destruct (db_configured env); [|eexists; reflexivity].
  unfold Postgres.ret. unfold Postgres.mbind at 1.
  unfold Postgres.test_connection, Postgres.connect. rewrite Hs.
  destruct s; [congruence| |]; eexists; reflexivity.
Qed.

(** C9. Once the analysis is done, an exception raised while storing, of
    connectivity, of data or of any other kind, ends the storage phase
    only: [postgres_results] gets the status [failed] with the error, the
    clean-up is skipped, [main] returns without raising, and the cost rows,
    totals and findings of the analysis are the ones the run still holds.
    A missing database configuration and a server that refuses or breaks
    the first connection are such failures. *)
Theorem storage_failure_is_contained (env : environment)
  (db : Postgres.database) (a : analysis) :
  ENABLE_POSTGRES env = true -> analyse env = Ok a ->
  (forall e db1,
     store env a db = (Raise e, db1) ->
     main_body env db = (Ok (a, Failed (exn_text e)), db1)
     /\ main env db = (Ok tt, db1))
  /\ (exists results db',
        main_body env db = (Ok (a, results), db')
        /\ main env db = (Ok tt, db'))
  /\ (db_configured env = false ->
      store env a db = (Raise PostgreSQLConnectionError, db))
  /\ (forall s rest,
        Postgres.sessions db = s :: rest -> s <> Postgres.Up ->
        exists db1, store env a db = (Raise PostgreSQLConnectionError, db1)).
Proof.
  intros Hen Ha.
  assert (Hbody : forall r db1,
            storage_phase env a db = (Ok r, db1) ->
            exists db', main_body env db = (Ok (a, r), db')
                        /\ main env db = (Ok tt, db')
                        /\ (forall error, r = Failed error -> db' = db1)).
  { intros r db1 Hst.
    destruct (cleanup_phase_returns env r db1) as [db' Hc].
    assert (Hmb : main_body env db = (Ok (a, r), db')).
    { unfold main_body. rewrite Ha. unfold Postgres.mbind.
      rewrite Hst, Hc. reflexivity. }
    exists db'. split; [exact Hmb|]. split.
    - unfold main. now rewrite Hmb.
    - intros error ->. rewrite cleanup_phase_skipped in Hc. congruence. }
  split; [|split; [|split]].
  - intros e db1 Hstore.
    assert (Hst : storage_phase env a db = (Ok (Failed (exn_text e)), db1)).
    { unfold storage_phase. rewrite Hen. unfold Postgres.try_except.
      now rewrite Hstore. }
    destruct (Hbody _ _ Hst) as [db' [H1 [H2 H3]]].
    rewrite (H3 _ eq_refl) in H1, H2. split; assumption.
  - assert (Hst : exists r db1, storage_phase env a db = (Ok r, db1)).
    { unfold storage_phase. rewrite Hen. unfold Postgres.try_except.
      destruct (store env a db) as [[r|e] db1];
        do 2 eexists; reflexivity. }
    destruct Hst as [r [db1 Hst]].
    destruct (Hbody _ _ Hst) as [db' [H1 [H2 _]]]. eauto.
  - intros Hcfg. unfold store, Postgres.mbind at 1.
    unfold Postgres.create_postgres_helper. now rewrite Hcfg.
  - intros s rest. apply store_without_connection.
Qed.

Lemma storage_failure_is_contained_witness :
  exists a,
    analyse sample_environment = Ok a
    /\ main_body sample_environment (empty_database [Postgres.Down])
       = (Ok (a, Failed "PostgreSQLConnectionError"), empty_database [])
    /\ main sample_environment (empty_database [Postgres.Down])
       = (Ok tt, empty_database []).
Proof.
  eexists. split; [reflexivity|].
  apply (proj1 (@storage_failure_is_contained sample_environment
                  (empty_database [Postgres.Down]) _ eq_refl eq_refl)
           PostgreSQLConnectionError (empty_database [])).
  reflexivity.
Defined.

(** A server that breaks the third connection fails the run's second
    insert: what was committed stays, the status is [failed], the run
    ends normally. *)
Example storage_data_error_is_contained :
  let db := empty_database [Postgres.Up; Postgres.Up; Postgres.Broken] in
  fst (main sample_environment db) = Ok tt
  /\ option_map snd (match fst (main_body sample_environment db) with
                     | Ok r => Some r
                     | Raise _ => None
                     end)
     = Some (Failed "PostgreSQLConnectionError")
  /\ List.length
       (Postgres.azure_service_costs (snd (main sample_environment db)))
     = 1%nat.
Proof. repeat split. Qed.

(** Before the analysis is done, an exception ends the run: it is written
    to the run table as a failed run and raised again. *)
Example configuration_error_is_raised :
  let env :=
    {| ENABLE_POSTGRES := true; SUBSCRIPTION_ID := None;
       AZURE_SCOPE := None; db_configured := true;
       db_schema := no_constraint; today := may_20; elapsed_ms := 7;
       cost_client := cost_client sample_environment;
       monitor_client := monitor_client sample_environment;
       resource_client := [] |} in
  fst (main env (empty_database [])) = Raise ValueError
  /\ map Postgres.execution_status
       (Postgres.azure_cost_monitoring_runs
          (snd (main env (empty_database []))))
     = ["failed"%string].
Proof. split; reflexivity. Qed.

End StorageFailure.

(** ** The metric table *)

Section MetricTable.

Lemma dict_get_cases (V : Type) (d : list (string * V)) (key : string)
  (default : V) :
  (In key (map fst d) /\ In (key, dict_get d key default) d)
  \/ (~ In key (map fst d) /\ dict_get d key default = default).
Proof.
  induction d as [|[k v] d IH]; simpl.
  - right. auto.
  - destruct (String.eqb_spec k key) as [->|Hne].
    + left. auto.
    + destruct IH as [[Hin H]|[Hnin H]].
      * left. auto.
      * right. split; [intros [?|?]; congruence | assumption].
Qed.

Lemma specs_well_formed (specs : list MetricSpec) :
  well_formed_specs specs = true ->
  (2 <= List.length specs <= 3)%nat
  /\ firstn MAX_METRICS_PER_RESOURCE specs = specs
  /\ Forall (fun spec =>
               0 < threshold spec
               /\ (stat spec = "Average"%string \/ stat spec = "Sum"%string))
            specs.
Proof.
  unfold well_formed_specs.
  rewrite !andb_true_iff, !Nat.leb_le, forallb_forall.
  intros [[H2 H3] Hall]. split; [lia|]. split.
  - apply firstn_all2. unfold MAX_METRICS_PER_RESOURCE. lia.
  - apply Forall_forall. intros spec Hin. apply Hall in Hin.
    rewrite andb_true_iff, orb_true_iff, !String.eqb_eq in Hin.
    split; [now apply Qltb_lt | tauto].
Qed.

(** Every row of the table, and the default, passes the check. *)
Lemma table_specs_checked (resource_type : string) :
  well_formed_specs (get_primary_metrics_for_service resource_type) = true.
Proof.
  unfold get_primary_metrics_for_service.
  destruct (dict_get_cases service_metrics resource_type default_metrics)
    as [[_ H]|[_ H]]; [|now rewrite H].
  revert H.
  generalize (dict_get service_metrics resource_type default_metrics).
  intros l H. simpl in H.
  repeat (destruct H as [H|H]; [injection H as _ <-; reflexivity|]).
  contradiction.
Qed.

(** X1. The metrics of a resource type are those of its row of the table,
    and those of the default row when the table has no row for the type;
    in both cases there are two or three of them, so the cap of five
    metrics for a resource never cuts any, every threshold is positive and
    every aggregation is the average or the sum. *)
Theorem get_primary_metrics_for_service_total (resource_type : string) :
  let specs := get_primary_metrics_for_service resource_type in
  (~ In resource_type (map fst service_metrics) -> specs = default_metrics)
  /\ (In resource_type (map fst service_metrics) ->
      In (resource_type, specs) service_metrics)
  /\ (2 <= List.length specs <= 3)%nat
  /\ firstn MAX_METRICS_PER_RESOURCE specs = specs
  /\ Forall (fun spec =>
               0 < threshold spec
               /\ (stat spec = "Average"%string \/ stat spec = "Sum"%string))
            specs.
Proof.
  intros specs.
  pose proof (@specs_well_formed _ (table_specs_checked resource_type))
    as Hwf.
  fold specs in Hwf. split; [|split; [|exact Hwf]].
  - intros Hnin. unfold specs, get_primary_metrics_for_service.
    destruct (dict_get_cases service_metrics resource_type default_metrics)
      as [[Hin _]|[_ H]]; [contradiction | exact H].
  - intros Hin. unfold specs, get_primary_metrics_for_service.
    destruct (dict_get_cases service_metrics resource_type default_metrics)
      as [[_ H]|[Hnin _]]; [exact H | contradiction].
Qed.

End MetricTable.

Section TableAndFetcher.



End TableAndFetcher.

(** ** Resource discovery *)

Section Discovery.

Lemma recorded_length (resource : GenericResource.t) :
  (List.length (recorded resource) <= 1)%nat.
Proof.
  unfold recorded.
  destruct (GenericResource.id resource) as [id|]; simpl; [|lia].
  destruct (negb (String.eqb id EmptyString)); simpl; lia.
Qed.

Lemma recorded_well (resource : GenericResource.t) :
  Forall well_recorded (recorded resource).
Proof.
  unfold recorded.
  destruct (GenericResource.id resource) as [id|]; [|constructor].
  destruct (String.eqb_spec id EmptyString); simpl; constructor;
    [|constructor].
  split; [assumption | reflexivity].
Qed.

(** One turn of the loop on a descriptor that arrived. *)
Lemma list_resources_step (resource : GenericResource.t)
  (listing : resource_listing) (resources : list Resource.t) :
  list_resources (Ok resource :: listing) resources
  = match recorded resource with
    | [] => list_resources listing resources
    | _ :: _ =>
        if (MAX_RESOURCES_TO_ANALYZE
              <=? List.length (resources ++ recorded resource))%nat
        then Ok (resources ++ recorded resource)
        else list_resources listing (resources ++ recorded resource)
    end.
Proof.
  simpl. unfold recorded.
  destruct (GenericResource.id resource) as [id|]; [|reflexivity].
  destruct (negb (String.eqb id EmptyString)); reflexivity.
Qed.

Lemma list_resources_keeps (listing : resource_listing)
  (resources found : list Resource.t) :
  (List.length resources < MAX_RESOURCES_TO_ANALYZE)%nat ->
  Forall well_recorded resources ->
  list_resources listing resources = Ok found ->
  (List.length found <= MAX_RESOURCES_TO_ANALYZE)%nat
  /\ Forall well_recorded found
  /\ exists more, found = resources ++ more.
Proof.
  revert resources. induction listing as [|[resource|e] listing IH];
    intros resources Hlen Hwell H.
  - simpl in H. injection H as <-. split; [lia|]. split; [assumption|].
    exists []. now rewrite app_nil_r.
  - rewrite list_resources_step in H.
    pose proof (recorded_length resource) as H1.
    pose proof (recorded_well resource) as Hw.
    destruct (recorded resource) as [|r rs] eqn:Er; [now apply IH|].
    assert (Hrs : rs = []) by (destruct rs; [reflexivity | simpl in H1; lia]).
    subst rs.
    assert (Hwell' : Forall well_recorded (resources ++ [r]))
      by (apply Forall_app; auto).
    destruct (MAX_RESOURCES_TO_ANALYZE <=? List.length (resources ++ [r]))%nat
      eqn:E.
    + injection H as <-. rewrite length_app in *. simpl in *.
      split; [lia|]. split; [assumption|]. eauto.
    + apply Nat.leb_gt in E. apply IH in H; try assumption.
      destruct H as (Hl & Hw' & more & ->).
      split; [assumption|]. split; [assumption|].
      exists (r :: more). now rewrite <- app_assoc.
  - discriminate.
Qed.

(** What the loop returns was there at the start or comes from a
    descriptor of the listing. *)
Lemma list_resources_origin (listing : resource_listing)
  (resources found : list Resource.t) :
  list_resources listing resources = Ok found ->
  forall r, In r found ->
    In r resources
    \/ exists resource, In (Ok resource) listing /\ recorded resource = [r].
Proof.
  revert resources. induction listing as [|[resource|e] listing IH];
    intros resources H r Hin.
  - simpl in H. injection H as <-. now left.
  - rewrite list_resources_step in H.
    pose proof (recorded_length resource) as H1.
    destruct (recorded resource) as [|r0 rs] eqn:Er.
    + destruct (IH _ H r Hin) as [Hr|[g [Hg Hrec]]]; [now left|].
      right. exists g. split; [now right | assumption].
    + assert (Hrs : rs = [])
        by (destruct rs; [reflexivity | simpl in H1; lia]).
      subst rs.
      assert (Hnew : In r (resources ++ [r0]) ->
                     In r resources
                     \/ exists resource0,
                          In (Ok resource0) (Ok resource :: listing)
                          /\ recorded resource0 = [r]).
      { intros Hr. apply in_app_or in Hr. destruct Hr as [Hr|[<-|[]]].
        - now left.
        - right. exists resource. split; [now left | assumption]. }
      destruct (MAX_RESOURCES_TO_ANALYZE
                  <=? List.length (resources ++ [r0]))%nat.
      * injection H as <-. now apply Hnew.
      * destruct (IH _ H r Hin) as [Hr|[g [Hg Hrec]]]; [now apply Hnew|].
        right. exists g. split; [now right | assumption].
  - discriminate.
Qed.

Lemma get_all_resources_well (resource_client : resource_listing) :
  (List.length (get_all_resources resource_client)
   <= MAX_RESOURCES_TO_ANALYZE)%nat
  /\ Forall well_recorded (get_all_resources resource_client).
Proof.
  unfold get_all_resources.
  destruct (list_resources resource_client []) as [found|e] eqn:E.
  - apply list_resources_keeps in E.
    + destruct E as (Hl & Hw & _). split; assumption.
    + unfold MAX_RESOURCES_TO_ANALYZE. simpl. lia.
    + constructor.
  - split; [simpl; lia | constructor].
Qed.

(** X3. The discovery returns at most 100 resources; each has a non-empty
    id, the resource group read from that id, and the name, type and
    location of a descriptor of the listing that carries this id. *)
Theorem get_all_resources_capped (resource_client : resource_listing) :
  let resources := get_all_resources resource_client in
  (List.length resources <= 100)%nat
  /\ Forall (fun r =>
               Resource.id r <> EmptyString
               /\ Resource.resource_group r
                  = resource_group_of (Resource.id r)
               /\ exists resource,
                    In (Ok resource) resource_client
                    /\ GenericResource.id resource = Some (Resource.id r)
                    /\ GenericResource.name resource = Resource.name r
                    /\ GenericResource.type resource = Resource.type r
                    /\ GenericResource.location resource
                       = Resource.location r)
            resources.
Proof.
  intros resources.
  destruct (get_all_resources_well resource_client) as [Hlen Hwell].
  fold resources in Hlen, Hwell. split; [exact Hlen|].
  rewrite Forall_forall in *. intros r Hin.
  destruct (Hwell r Hin) as [Hid Hgroup].
  split; [exact Hid|]. split; [exact Hgroup|].
  unfold resources, get_all_resources in Hin.
  destruct (list_resources resource_client []) as [found|e] eqn:E;
    [|contradiction].
  destruct (list_resources_origin _ _ E r Hin) as [[]|[g [Hg Hrec]]].
  exists g. split; [exact Hg|].
  unfold recorded in Hrec.
  destruct (GenericResource.id g) as [id|]; [|discriminate].
  destruct (negb (String.eqb id EmptyString)); [|discriminate].
  injection Hrec as <-. repeat split.
Qed.

(** The loop on a stretch of the listing that arrives: it stops inside the
    stretch when the cap is reached there, and goes on after it with what
    it recorded otherwise. *)
Lemma list_resources_fetched (pages : list GenericResource.t)
  (rest : resource_listing) (resources : list Resource.t) :
  (List.length resources < MAX_RESOURCES_TO_ANALYZE)%nat ->
  list_resources (map Ok pages ++ rest) resources
  = if (MAX_RESOURCES_TO_ANALYZE
          <=? List.length (resources ++ flat_map recorded pages))%nat
    then Ok (firstn MAX_RESOURCES_TO_ANALYZE
                    (resources ++ flat_map recorded pages))
    else list_resources rest (resources ++ flat_map recorded pages).
Proof.
  revert resources. induction pages as [|page pages IH]; intros resources Hlen.
  - cbn [map app flat_map]. rewrite app_nil_r.
    destruct (MAX_RESOURCES_TO_ANALYZE <=? List.length resources)%nat eqn:E;
      [apply Nat.leb_le in E; lia | reflexivity].
  - cbn [map app flat_map]. rewrite list_resources_step.
    pose proof (recorded_length page) as H1.
    destruct (recorded page) as [|r rs] eqn:Er.
    + cbn [app]. now apply IH.
    + assert (Hrs : rs = [])
        by (destruct rs; [reflexivity | simpl in H1; lia]).
      subst rs.
      destruct (MAX_RESOURCES_TO_ANALYZE
                  <=? List.length (resources ++ [r]))%nat eqn:E.
      * apply Nat.leb_le in E. rewrite length_app in E.
        cbn [List.length] in E.
        assert (Hfull : List.length (resources ++ [r])
                        = MAX_RESOURCES_TO_ANALYZE)
          by (rewrite length_app; cbn [List.length]; lia).
        replace (resources ++ [r] ++ flat_map recorded pages)
          with ((resources ++ [r]) ++ flat_map recorded pages)
          by (now rewrite <- app_assoc).
        replace (MAX_RESOURCES_TO_ANALYZE
                   <=? List.length ((resources ++ [r])
                                      ++ flat_map recorded pages))%nat
          with true
          by (symmetry; apply Nat.leb_le; rewrite length_app; lia).
        rewrite <- Hfull at 1. rewrite firstn_app, firstn_all.
        rewrite Nat.sub_diag. cbn [firstn]. now rewrite app_nil_r.
      * apply Nat.leb_gt in E. rewrite IH by assumption.
        now rewrite <- app_assoc.
Qed.

(** X4. The discovery stops reading the listing at the hundredth resource
    it keeps: what comes after, an error included, does not change the
    result. An error met before that loses everything found so far: the
    result is empty. A listing that arrives whole gives the first hundred
    of the resources with an id, in the order of the listing. *)
Theorem get_all_resources_eager (pages : list GenericResource.t)
  (rest : resource_listing) (e : exn) :
  let kept := flat_map recorded pages in
  ((100 <= List.length kept)%nat ->
   get_all_resources (map Ok pages ++ rest) = firstn 100 kept)
  /\ ((List.length kept < 100)%nat ->
      get_all_resources (map Ok pages) = kept
      /\ get_all_resources (map Ok pages ++ Raise e :: rest) = [])
  /\ get_all_resources (map Ok pages) = firstn 100 kept.
Proof.
  intros kept.
  assert (H0 : (List.length (@nil Resource.t) < MAX_RESOURCES_TO_ANALYZE)%nat)
    by (unfold MAX_RESOURCES_TO_ANALYZE; simpl; lia).
  assert (Hgen : forall rest',
            list_resources (map Ok pages ++ rest') []
            = if (100 <=? List.length kept)%nat
              then Ok (firstn 100 kept)
              else list_resources rest' kept).
  { intros rest'. now rewrite (@list_resources_fetched pages rest' [] H0). }
  unfold get_all_resources.
  split; [|split; [|]].
  - intros Hfull. rewrite Hgen.
    now replace (100 <=? List.length kept)%nat with true
      by (symmetry; now apply Nat.leb_le).
  - intros Hfew.
    assert (E : (100 <=? List.length kept)%nat = false)
      by (now apply Nat.leb_gt).
    split.
    + rewrite <- (app_nil_r (map Ok pages)), Hgen, E. reflexivity.
    + rewrite Hgen, E. reflexivity.
  - rewrite <- (app_nil_r (map Ok pages)), Hgen.
    destruct (100 <=? List.length kept)%nat eqn:E; [reflexivity|].
    apply Nat.leb_gt in E. cbn [list_resources]. symmetry.
    apply firstn_all2. lia.
Qed.

End Discovery.

(** ** Names read from the segments of an id and of a type *)

Section Segments.

Variable sep : ascii.

Lemma list_ascii_of_string_app (a b : string) :
  list_ascii_of_string (a ++ b)
  = list_ascii_of_string a ++ list_ascii_of_string b.
Proof. induction a as [|c a IH]; simpl; [reflexivity | now rewrite IH]. Qed.

Lemma contains_false (s : string) :
  contains s sep = false <-> ~ In sep (list_ascii_of_string s).
Proof.
  unfold contains. split.
  - intros H Hin.
    assert (Ht : existsb (Ascii.eqb sep) (list_ascii_of_string s) = true).
    { apply existsb_exists. exists sep. split; [assumption|].
      apply Ascii.eqb_refl. }
    congruence.
  - intros H. destruct (existsb _ _) eqn:E; [|reflexivity].
    apply existsb_exists in E. destruct E as [c [Hin Hc]].
    apply Ascii.eqb_eq in Hc. subst c. contradiction.
Qed.

Lemma split_chars_free (l current : list ascii) :
  ~ In sep l -> split_chars sep l current = [rev current ++ l].
Proof.
  revert current. induction l as [|a l IH]; intros current H; simpl.
  - now rewrite app_nil_r.
  - destruct (Ascii.eqb_spec a sep) as [->|Hne].
    + exfalso. apply H. now left.
    + rewrite IH by (intros Hin; apply H; now right).
      simpl. now rewrite <- app_assoc.
Qed.

Lemma split_chars_at_sep (l1 l2 current : list ascii) :
  ~ In sep l1 ->
  split_chars sep (l1 ++ sep :: l2) current
  = (rev current ++ l1) :: split_chars sep l2 [].
Proof.
  revert current. induction l1 as [|a l1 IH]; intros current H; simpl.
  - rewrite Ascii.eqb_refl. now rewrite app_nil_r.
  - destruct (Ascii.eqb_spec a sep) as [->|Hne].
    + exfalso. apply H. now left.
    + rewrite IH by (intros Hin; apply H; now right).
      simpl. now rewrite <- app_assoc.
Qed.

Lemma split_chars_parts_free (l current : list ascii) :
  ~ In sep current ->
  Forall (fun part => ~ In sep part) (split_chars sep l current).
Proof.
  revert current. induction l as [|a l IH]; intros current H; simpl.
  - constructor; [|constructor]. now rewrite <- in_rev.
  - destruct (Ascii.eqb_spec a sep) as [->|Hne].
    + constructor; [now rewrite <- in_rev|]. apply IH. intros [].
    + apply IH. intros [Heq|Hin]; [congruence | contradiction].
Qed.

Lemma split_chars_nonempty (l current : list ascii) :
  split_chars sep l current <> [].
Proof.
  revert current. induction l as [|a l IH]; intros current; simpl.
  - discriminate.
  - destruct (Ascii.eqb a sep); [discriminate | apply IH].
Qed.

Lemma split_join (parts : list string) :
  parts <> [] ->
  Forall (fun p => contains p sep = false) parts ->
  split (join sep parts) sep = parts.
Proof.
  intros Hne Hfree. unfold split.
  induction Hfree as [|p parts Hp Hfree IH]; [congruence|].
  apply contains_false in Hp.
  destruct parts as [|q parts].
  - simpl join. rewrite split_chars_free by assumption.
    simpl. now rewrite string_of_list_ascii_of_string.
  - change (join sep (p :: q :: parts))
      with (p ++ String sep (join sep (q :: parts)))%string.
    rewrite list_ascii_of_string_app. simpl list_ascii_of_string.
    rewrite split_chars_at_sep by assumption.
    simpl map. rewrite string_of_list_ascii_of_string.
    f_equal. apply IH. discriminate.
Qed.

End Segments.

Section ResourceNames.

(** X5. The resource group of an id is its fifth segment between slashes,
    or [Unknown] when it has fewer than five; the service of a type is its
    last segment. *)
Theorem names_from_segments (parts : list string) :
  parts <> [] ->
  Forall (fun p => contains p "/" = false) parts ->
  resource_group_of (join "/" parts)
  = (if (4 <? List.length parts)%nat then nth 4 parts EmptyString
     else "Unknown"%string)
  /\ service_of (join "/" parts) = last parts EmptyString.
Proof.
  intros Hne Hfree. split.
  - unfold resource_group_of. now rewrite split_join.
  - unfold service_of. rewrite split_join by assumption.
    destruct (contains (join "/" parts) "/") eqn:E; [reflexivity|].
    destruct parts as [|p [|q parts]]; [congruence | reflexivity |].
    exfalso. apply contains_false in E. apply E.
    change (join "/" (p :: q :: parts))
      with (p ++ String "/" (join "/" (q :: parts)))%string.
    rewrite list_ascii_of_string_app. apply in_or_app. right. now left.
Qed.

Lemma names_from_segments_witness :
  resource_group_of (join "/" sample_segments)
  = (if (4 <? List.length sample_segments)%nat
     then nth 4 sample_segments EmptyString
     else "Unknown"%string)
  /\ service_of (join "/" sample_segments)
     = last sample_segments EmptyString.
Proof.
  apply (@names_from_segments sample_segments).
  - discriminate.
  - repeat constructor.
Defined.

(** The id of a virtual machine gives its resource group, and its type
    gives the service. *)
Example names_of_a_virtual_machine :
  resource_group_of (join "/" sample_segments) = "rg1"%string
  /\ service_of "Microsoft.Compute/virtualMachines" = "virtualMachines"%string.
Proof. split; reflexivity. Qed.

(** X6. The service label of a finding never holds a slash, whatever the
    type of the resource. *)
Theorem service_of_has_no_slash (resource_type : string) :
  contains (service_of resource_type) "/" = false.
Proof.
  unfold service_of.
  destruct (contains resource_type "/") eqn:E; [|assumption].
  unfold split.
  pose proof (@split_chars_parts_free "/"
                (list_ascii_of_string resource_type) [] (fun H => H)) as Hfree.
  pose proof (@split_chars_nonempty "/"
                (list_ascii_of_string resource_type) []) as Hne.
  destruct (split_chars "/" (list_ascii_of_string resource_type) [])
    as [|part parts]; [congruence|].
  apply contains_false.
  assert (Hlast : In (last (map string_of_list_ascii (part :: parts))
                           EmptyString)
                     (map string_of_list_ascii (part :: parts))).
  { destruct (exists_last (l := map string_of_list_ascii (part :: parts)))
      as [l' [x Hx]]; [discriminate|].
    rewrite Hx, last_last. apply in_or_app. right. now left. }
  apply in_map_iff in Hlast. destruct Hlast as [chars [Hc Hin]].
  rewrite <- Hc, list_ascii_of_string_of_list_ascii.
  rewrite Forall_forall in Hfree. now apply Hfree.
Qed.

End ResourceNames.

(** ** The output of the normalizer and the totals *)

Section NormalizerOutput.

Lemma converting_prefix_converts (rs : list row) :
  Forall converts (converting_prefix rs).
Proof.
  induction rs as [|r rs IH]; simpl; [constructor|].
  destruct (raises (process_row r)) eqn:E; constructor; assumption.
Qed.

Lemma converting_prefix_split (rs : list row) :
  converting_prefix rs = rs
  \/ exists bad after e,
       rs = converting_prefix rs ++ bad :: after
       /\ process_row bad = Raise e.
Proof.
  induction rs as [|r rs IH]; simpl; [now left|].
  destruct (process_row r) as [o|e] eqn:E; simpl.
  - destruct IH as [IH|(bad & after & e & IH & Hbad)].
    + left. now rewrite IH.
    + right. exists bad, after, e. split; [|assumption].
      simpl. now rewrite <- IH.
  - right. exists r, rs, e. auto.
Qed.

Lemma emitted_length (r : row) :
  (List.length (emitted r) <= 1)%nat
  /\ ((List.length r < 3)%nat -> emitted r = []).
Proof.
  unfold emitted. split.
  - destruct (process_row r) as [[c|]|e]; simpl; lia.
  - intros H. now rewrite process_row_short.
Qed.

Lemma flat_map_emitted_length (rs : list row) :
  (List.length (flat_map emitted rs)
   <= List.length (filter (fun r => 3 <=? List.length r)%nat rs))%nat.
Proof.
  induction rs as [|r rs IH]; [simpl; lia|].
  cbn [flat_map filter]. rewrite length_app.
  destruct (emitted_length r) as [H1 H0].
  destruct (Nat.leb_spec 3 (List.length r)) as [Hge|Hlt].
  - cbn [List.length]. lia.
  - rewrite (H0 Hlt). cbn [List.length]. lia.
Qed.

(** X7. The output is made of the records of the rows before the first row
    that raises, in the order of the response, at most one per row and none
    for a row of fewer than three elements; an error is logged exactly when
    a row raises. *)
Theorem process_cost_response_is_converting_prefix (rs : list row) :
  let resp := QueryResult (Some rs) in
  process_cost_response resp = flat_map emitted (converting_prefix rs)
  /\ (process_cost_response_logged resp = None <-> converting_prefix rs = rs)
  /\ (List.length (process_cost_response resp)
      <= List.length (filter (fun r => 3 <=? List.length r)%nat rs))%nat.
Proof.
  intros resp. unfold resp.
  assert (Hout : process_cost_response (QueryResult (Some rs))
                 = flat_map emitted (converting_prefix rs)
                 /\ (process_cost_response_logged (QueryResult (Some rs))
                     = None <-> converting_prefix rs = rs)).
  { unfold process_cost_response, process_cost_response_logged.
    rewrite run_process_cost_response_rows.
    pose proof (converting_prefix_converts rs) as Hc.
    destruct (converting_prefix_split rs)
      as [Heq|(bad & after & e & Heq & Hbad)].
    - rewrite Heq in *.
      pose proof (@for_rows_converting rs [] [] Hc) as Hrun.
      rewrite app_nil_r in Hrun. rewrite Hrun. simpl. tauto.
    - remember (converting_prefix rs) as p eqn:Ep. clear Ep. subst rs.
      rewrite (@for_rows_stops_at_failure p after bad e [] Hc Hbad).
      simpl. split; [reflexivity|]. split; [discriminate|].
      intros Hall. exfalso.
      apply (f_equal (@List.length row)) in Hall.
      rewrite length_app in Hall. simpl in Hall. lia. }
  destruct Hout as [Hout Hlog]. split; [assumption|]. split; [assumption|].
  rewrite Hout.
  eapply Nat.le_trans; [apply flat_map_emitted_length|].
  clear. induction rs as [|r rs IH]; [simpl; lia|].
  cbn [converting_prefix filter].
  destruct (raises (process_row r)); cbn [filter];
    destruct (Nat.leb_spec 3 (List.length r)); cbn [List.length]; lia.
Qed.

End NormalizerOutput.

Section Totals.

Lemma total_cost_finite (rows : list CostRow) (start : Q) :
  Forall (fun c => finite_cost c <> None) rows ->
  exists q, total_cost rows (Finite start) = Ok (Finite q)
            /\ q == start + sum_of_costs rows.
Proof.
  intros H. revert start. induction H as [|c rows Hc _ IH]; intros start.
  - simpl. exists start. split; [reflexivity | lra].
  - simpl. unfold finite_cost in *.
    destruct (row_cost_amount c) as [x| |]; try congruence.
    simpl. destruct (IH (start + x)) as [q [Hq Hsum]].
    exists q. split; [assumption | lra].
Qed.

Lemma decimal_add_inf (a b : pyfloat) (s : bool) :
  decimal_add a b = Ok (Inf s) -> a = Inf s \/ b = Inf s.
Proof.
  destruct a as [x|sa|], b as [y|sb|]; simpl; try discriminate;
    try (intros H; injection H as <-; auto; fail).
  destruct (Bool.eqb sa sb); [|discriminate].
  intros H. injection H as <-. auto.
Qed.

Lemma decimal_add_raise (a b : pyfloat) (e : exn) :
  decimal_add a b = Raise e ->
  e = InvalidOperation /\ exists s, a = Inf s /\ b = Inf (negb s).
Proof.
  destruct a as [x|sa|], b as [y|sb|]; simpl; try discriminate.
  destruct (Bool.eqb sa sb) eqn:E; [discriminate|].
  intros H. injection H as <-. split; [reflexivity|].
  exists sa. split; [reflexivity|].
  destruct sa, sb; simpl in *; congruence.
Qed.

Lemma total_cost_raises (rows : list CostRow) (total : pyfloat) (e : exn) :
  total_cost rows total = Raise e ->
  e = InvalidOperation
  /\ exists s,
       (total = Inf s \/ In (Inf s) (map row_cost_amount rows))
       /\ In (Inf (negb s)) (map row_cost_amount rows).
Proof.
  revert total. induction rows as [|c rows IH]; intros total H;
    [discriminate|].
  simpl in H.
  destruct (decimal_add total (row_cost_amount c)) as [t|e'] eqn:Ed;
    simpl in H.
  - apply IH in H. destruct H as [-> [s [Hs Hn]]].
    split; [reflexivity|]. exists s. simpl. split; [|now right].
    destruct Hs as [->|Hs]; [|now right; right].
    apply decimal_add_inf in Ed. destruct Ed as [->|<-]; auto.
  - injection H as <-. apply decimal_add_raise in Ed.
    destruct Ed as [-> [s [-> Hc]]]. split; [reflexivity|].
    exists s. simpl. rewrite Hc. auto.
Qed.

(** Without an infinite cost the total is computed and is not infinite;
    it is not a number as soon as a cost is not. *)
Lemma total_cost_no_inf (rows : list CostRow) (start : pyfloat) :
  (forall s, ~ In (Inf s) (map row_cost_amount rows)) ->
  (forall s, start <> Inf s) ->
  exists total,
    total_cost rows start = Ok total
    /\ (start = NaN \/ In NaN (map row_cost_amount rows) -> total = NaN).
Proof.
  revert start. induction rows as [|c rows IH]; intros start Hrows Hstart.
  - exists start. split; [reflexivity|]. intros [H|[]]. exact H.
  - cbn [total_cost map] in *.
    assert (Hc : forall s, row_cost_amount c <> Inf s)
      by (intros s H; apply (Hrows s); now left).
    assert (Hrest : forall s, ~ In (Inf s) (map row_cost_amount rows))
      by (intros s H; apply (Hrows s); now right).
    destruct start as [x|s|]; [|now destruct (Hstart s)|];
      destruct (row_cost_amount c) as [y|s|] eqn:Ec;
      try (now destruct (Hc s)); cbn [decimal_add bind].
    + destruct (IH (Finite (x + y)) Hrest) as [total [Ht Hn]];
        [discriminate|].
      exists total. split; [exact Ht|].
      intros [H|[H|H]]; [discriminate | discriminate | auto].
    + destruct (IH NaN Hrest) as [total [Ht Hn]]; [discriminate|].
      exists total. split; [exact Ht | auto].
    + destruct (IH NaN Hrest) as [total [Ht Hn]]; [discriminate|].
      exists total. split; [exact Ht | auto].
    + destruct (IH NaN Hrest) as [total [Ht Hn]]; [discriminate|].
      exists total. split; [exact Ht | auto].
Qed.

(** X8. The total of a grouping whose costs are all finite numbers is a
    finite number, the sum of the costs (numbers are exact here: the
    rounding of the arithmetic context is not part of the model). *)
Theorem total_cost_sums (rows : list CostRow) :
  Forall (fun c => finite_cost c <> None) rows ->
  exists q, total_cost rows (Finite 0) = Ok (Finite q)
            /\ q == sum_of_costs rows.
Proof.
  intros H. destruct (total_cost_finite 0 H) as [q [Hq Hs]].
  exists q. split; [assumption | lra].
Qed.

Lemma total_cost_sums_witness :
  exists q,
    total_cost
      (process_cost_response
         (QueryResult (Some [sample_service_row; sample_later_row])))
      (Finite 0) = Ok (Finite q)
    /\ q == sum_of_costs
              (process_cost_response
                 (QueryResult (Some [sample_service_row; sample_later_row]))).
Proof.
  apply (@total_cost_sums
           (process_cost_response
              (QueryResult (Some [sample_service_row; sample_later_row])))).
  repeat constructor; discriminate.
Defined.

(** X9. The only error of a total is the invalid operation of the decimal
    arithmetic, and it needs a cost of plus infinity and a cost of minus
    infinity among the rows; without an infinite cost the total is
    computed, and it is not a number as soon as one cost is not. *)
Theorem total_cost_fails_on_opposite_infinities (rows : list CostRow) :
  (forall e,
     total_cost rows (Finite 0) = Raise e ->
     e = InvalidOperation
     /\ In (Inf false) (map row_cost_amount rows)
     /\ In (Inf true) (map row_cost_amount rows))
  /\ ((forall s, ~ In (Inf s) (map row_cost_amount rows)) ->
      exists total,
        total_cost rows (Finite 0) = Ok total
        /\ (In NaN (map row_cost_amount rows) -> total = NaN)).
Proof.
  split.
  - intros e H. apply total_cost_raises in H.
    destruct H as [-> [s [[Hs|Hs] Hn]]]; [discriminate|].
    split; [reflexivity|]. destruct s; simpl in Hn; auto.
  - intros Hfin.
    destruct (@total_cost_no_inf rows (Finite 0) Hfin) as [total [Ht Hn]];
      [discriminate|].
    exists total. split; [exact Ht | auto].
Qed.

End Totals.

(** ** Bounds on the findings *)

Section Rounding.



End Rounding.

Section ClassifierBounds.

Variable monitor_client : Monitor.client.
Variables start_dt end_dt : Datetime.date.

Lemma findings_of_length (resource : Resource.t) :
  (List.length (findings_of monitor_client start_dt end_dt resource)
   <= 3)%nat.
Proof.
  unfold findings_of.
  assert (Hspecs : (List.length (evaluated_specs resource) <= 3)%nat).
  { unfold evaluated_specs.
    destruct (@specs_well_formed _
                (table_specs_checked (Resource.type resource)))
      as (Hl & Hf & _).
    rewrite Hf. lia. }
  revert Hspecs. generalize (evaluated_specs resource). intros specs.
  assert (Hgen : (List.length
                    (flat_map
                       (fun metric_config =>
                          match evaluate_metric monitor_client resource
                                  start_dt end_dt metric_config with
                          | Some finding => [finding]
                          | None => []
                          end) specs)
                  <= List.length specs)%nat).
  { induction specs as [|spec specs IH]; [simpl; lia|].
    cbn [flat_map]. rewrite length_app.
    destruct (evaluate_metric monitor_client resource start_dt end_dt spec);
      cbn [List.length]; lia. }
  lia.
Qed.

Lemma classify_length (resources : list Resource.t) :
  (List.length (classify monitor_client resources start_dt end_dt)
   <= 3 * List.length resources)%nat.
Proof.
  rewrite classify_flat_map.
  induction resources as [|r resources IH]; [simpl; lia|].
  cbn [flat_map]. rewrite length_app.
  pose proof (findings_of_length r). cbn [List.length]. lia.
Qed.

(** X10. A run of the classifier evaluates at most 100 resources on at most 3
    metrics each, and returns at most 300 findings. *)
Theorem low_usage_findings_bounded (resource_client : resource_listing) :
  (List.length
     (get_comprehensive_low_usage_resources monitor_client resource_client
        start_dt end_dt)
   <= 300)%nat
  /\ (forall resources,
        List.length (classify monitor_client resources start_dt end_dt)
        <= 3 * List.length resources)%nat.
Proof.
  split; [|apply classify_length].
  unfold get_comprehensive_low_usage_resources.
  pose proof (classify_length (get_all_resources resource_client)) as H.
  destruct (get_all_resources_well resource_client) as [Hcap _].
  unfold MAX_RESOURCES_TO_ANALYZE in Hcap. lia.
Qed.


End ClassifierBounds.


(** ** What the statements leave of the tables *)

Section Frames.

Import Postgres.

Lemma connect_tables (db : database) : tables (snd (connect db)) = tables db.
Proof. unfold connect. destruct (sessions db); reflexivity. Qed.

Lemma preserves_ret (A G : Type) (g : database -> G) (a : A) :
  preserves g (ret a).
Proof. intros db r db' H. injection H as _ <-. reflexivity. Qed.

Lemma preserves_throw (A G : Type) (g : database -> G) (e : exn) :
  preserves g (@throw A e).
Proof. intros db r db' H. injection H as _ <-. reflexivity. Qed.

Lemma preserves_mbind (A B G : Type) (g : database -> G) (m : M A)
  (k : A -> M B) :
  preserves g m -> (forall a, preserves g (k a)) -> preserves g (mbind m k).
Proof.
  intros Hm Hk db r db' H. unfold mbind in H.
  destruct (m db) as [[a|e] db1] eqn:E.
  - rewrite (Hk a _ _ _ H). exact (Hm _ _ _ E).
  - injection H as _ <-. exact (Hm _ _ _ E).
Qed.

Lemma preserves_try_except (A G : Type) (g : database -> G) (m : M A)
  (handler : exn -> M A) :
  preserves g m -> (forall e, preserves g (handler e)) ->
  preserves g (try_except m handler).
Proof.
  intros Hm Hh db r db' H. unfold try_except in H.
  destruct (m db) as [[a|e] db1] eqn:E.
  - injection H as _ <-. exact (Hm _ _ _ E).
  - rewrite (Hh e _ _ _ H). exact (Hm _ _ _ E).
Qed.

Lemma appends_of_preserves (A R : Type) (g : database -> list R) (m : M A) :
  preserves g m -> appends_to g m.
Proof.
  intros H db r db' E. exists []. rewrite app_nil_r. exact (H _ _ _ E).
Qed.

Lemma appends_mbind (A B R : Type) (g : database -> list R) (m : M A)
  (k : A -> M B) :
  appends_to g m -> (forall a, appends_to g (k a)) ->
  appends_to g (mbind m k).
Proof.
  intros Hm Hk db r db' H. unfold mbind in H.
  destruct (m db) as [[a|e] db1] eqn:E.
  - destruct (Hm _ _ _ E) as [m1 H1]. destruct (Hk a _ _ _ H) as [m2 H2].
    exists (m1 ++ m2). now rewrite H2, H1, app_assoc.
  - injection H as _ <-. exact (Hm _ _ _ E).
Qed.

End Frames.

Section Batches.

Import Postgres.

Variable R : Type.
Variable conflict : R -> R -> bool.

Lemma executemany_grows (clause : conflict_clause)
  (records table table' : list R)
  (n n' : nat) :
  executemany conflict clause table records n = Some (table', n') ->
  exists added,
    table' = table ++ added
    /\ n' = (n + List.length added)%nat
    /\ incl added records.
Proof.
  revert table n. induction records as [|r records IH]; intros table n H.
  - simpl in H. injection H as <- <-. exists [].
    rewrite app_nil_r, Nat.add_0_r. repeat split. apply incl_nil_l.
  - simpl in H. unfold execute in H.
    destruct (existsb (conflict r) table).
    + destruct clause; [|discriminate].
      apply IH in H. destruct H as (added & -> & -> & Hincl).
      exists added. repeat split; [lia|]. now apply incl_tl.
    + apply IH in H. destruct H as (added & -> & -> & Hincl).
      exists (r :: added). rewrite <- app_assoc. simpl.
      repeat split; [lia|]. apply incl_cons; [now left | now apply incl_tl].
Qed.

Variable get : database -> list R.
Variable set : list R -> database -> database.
Hypothesis get_set : forall t d, get (set t d) = t.
Hypothesis get_connect : forall d, get (snd (connect d)) = get d.

(** A batch insert either fails and leaves its table as it was, or
    appends records of the batch, as many as it reports. *)
Lemma batch_insert_outcome (clause : conflict_clause) (records : list R)
  (db db' : database) (r : result nat) :
  _execute_batch_insert conflict clause get set records db = (r, db') ->
  (forall e, r = Raise e ->
             e = PostgreSQLConnectionError /\ get db' = get db)
  /\ (forall n, r = Ok n ->
                exists added,
                  get db' = get db ++ added /\ List.length added = n
                  /\ incl added records).
Proof.
  unfold _execute_batch_insert. intros H.
  destruct records as [|x records].
  - injection H as <- <-. split; [discriminate|].
    intros n Hn. injection Hn as <-. exists [].
    rewrite app_nil_r. repeat split. apply incl_nil_l.
  - pose proof (get_connect db) as Hc.
    destruct (connect db) as [s db1]. simpl in Hc.
    destruct s.
    + destruct (executemany conflict clause (get db1) (x :: records) 0)
        as [[table' n']|] eqn:E.
      * injection H as <- <-. split; [discriminate|].
        intros n Hn. injection Hn as <-.
        apply executemany_grows in E.
        destruct E as (added & -> & -> & Hincl).
        exists added. rewrite get_set, Hc. auto.
      * injection H as <- <-. split; [|discriminate].
        intros e He. injection He as <-. auto.
    + injection H as <- <-. split; [|discriminate].
      intros e He. injection He as <-. auto.
    + injection H as <- <-. split; [|discriminate].
      intros e He. injection He as <-. auto.
Qed.

Lemma batch_insert_appends (clause : conflict_clause) (records : list R) :
  appends_to get (_execute_batch_insert conflict clause get set records).
Proof.
  intros db r db' H. apply batch_insert_outcome in H.
  destruct H as [Hraise Hok]. destruct r as [n|e].
  - destruct (Hok n eq_refl) as (added & Ha & _). eauto.
  - destruct (Hraise e eq_refl) as [_ Hg]. exists [].
    now rewrite app_nil_r.
Qed.

Lemma batch_insert_preserves (G : Type) (g : database -> G)
  (clause : conflict_clause) (records : list R) :
  (forall t d, g (set t d) = g d) ->
  (forall d, g (snd (connect d)) = g d) ->
  preserves g (_execute_batch_insert conflict clause get set records).
Proof.
  intros Hset Hcon db r db' H. unfold _execute_batch_insert in H.
  destruct records as [|x records]; [injection H as _ <-; reflexivity|].
  pose proof (Hcon db) as Hc.
  destruct (connect db) as [s db1]. simpl in Hc.
  destruct s; try (injection H as _ <-; assumption).
  destruct (executemany conflict clause (get db1) (x :: records) 0)
    as [[table' n']|]; injection H as _ <-; [|assumption].
  now rewrite Hset.
Qed.

End Batches.

Section Keys.

Import Postgres.

Variables R K : Type.
Variable conflict : R -> R -> bool.
Variable key : R -> K.
Hypothesis conflict_key : forall a b, conflict a b = true <-> key a = key b.

Lemma NoDup_snoc (l : list K) (k : K) :
  NoDup l -> ~ In k l -> NoDup (l ++ [k]).
Proof.
  induction l as [|a l IH]; intros Hnd Hnin; simpl.
  - constructor; [auto | constructor].
  - inversion Hnd as [|? ? Ha Hl]; subst. constructor.
    + intros Hin. apply in_app_or in Hin. destruct Hin as [Hin|[Heq|[]]].
      * contradiction.
      * apply Hnin. now left.
    + apply IH; [assumption|]. intros Hin. apply Hnin. now right.
Qed.

Lemma conflict_free_key (r : R) (table : list R) :
  existsb (conflict r) table = false -> ~ In (key r) (map key table).
Proof.
  intros H Hin. apply in_map_iff in Hin. destruct Hin as [t [Hk Ht]].
  assert (Hex : existsb (conflict r) table = true).
  { apply existsb_exists. exists t. split; [assumption|].
    apply conflict_key. now symmetry. }
  congruence.
Qed.

(** Under [DO NOTHING] a table without two rows of one key stays so. *)
Lemma executemany_keeps_keys (records table table' : list R) (n n' : nat) :
  NoDup (map key table) ->
  executemany conflict DoNothing table records n = Some (table', n') ->
  NoDup (map key table').
Proof.
  revert table n. induction records as [|r records IH]; intros table n Hnd H.
  - simpl in H. now injection H as <- <-.
  - simpl in H. unfold execute in H.
    destruct (existsb (conflict r) table) eqn:E.
    + now apply IH in H.
    + apply IH in H; [assumption|].
      rewrite map_app. simpl. apply NoDup_snoc; [assumption|].
      now apply conflict_free_key.
Qed.

Variable get : database -> list R.
Variable set : list R -> database -> database.
Hypothesis get_set : forall t d, get (set t d) = t.
Hypothesis get_connect : forall d, get (snd (connect d)) = get d.

Lemma batch_insert_keeps_keys (records : list R) (db db' : database)
  (r : result nat) :
  NoDup (map key (get db)) ->
  _execute_batch_insert conflict DoNothing get set records db = (r, db') ->
  NoDup (map key (get db')).
Proof.
  intros Hnd H. unfold _execute_batch_insert in H.
  destruct records as [|x records]; [now injection H as _ <-|].
  pose proof (get_connect db) as Hc.
  destruct (connect db) as [s db1]. simpl in Hc.
  destruct s; try (injection H as _ <-; now rewrite Hc).
  destruct (executemany conflict DoNothing (get db1) (x :: records) 0)
    as [[table' n']|] eqn:E; injection H as _ <-; [|now rewrite Hc].
  rewrite get_set. eapply executemany_keeps_keys; [|exact E].
  now rewrite Hc.
Qed.

End Keys.

(** ** The inserts, the clean-up and the run log *)

Ltac connect_law :=
  let d := fresh "d" in
  intros d; unfold Postgres.connect; destruct (Postgres.sessions d);
  reflexivity.

Ltac framed := apply batch_insert_preserves; [reflexivity | connect_law].

Ltac grows := apply batch_insert_appends; [reflexivity | connect_law].

Section InsertOutcomes.

Import Postgres.

Lemma service_cost_conflict_key (a b : service_cost) :
  service_cost_conflict a b = true <-> service_key a = service_key b.
Proof.
  unfold service_cost_conflict, same_text, service_key.
  rewrite !andb_true_iff, !String.eqb_eq. split.
  - intros [[-> ->] ->]. reflexivity.
  - intros H. injection H as -> -> ->. auto.
Qed.

Lemma region_cost_conflict_key (a b : region_cost) :
  region_cost_conflict a b = true <-> region_key a = region_key b.
Proof.
  unfold region_cost_conflict, same_text, region_key.
  rewrite !andb_true_iff, !String.eqb_eq. split.
  - intros [[-> ->] ->]. reflexivity.
  - intros H. injection H as -> -> ->. auto.
Qed.

Lemma tag_cost_conflict_key (a b : tag_cost) :
  tag_cost_conflict a b = true <-> tag_key a = tag_key b.
Proof.
  unfold tag_cost_conflict, same_text, tag_key.
  rewrite !andb_true_iff, !String.eqb_eq. split.
  - intros [[[-> ->] ->] ->]. reflexivity.
  - intros H. injection H as -> -> -> ->. auto.
Qed.

Lemma insert_service_costs_frame (rows : list CostRow) (label : string) :
  preserves (fun db => (azure_region_costs db, azure_region_service_costs db,
                        azure_tag_costs db, azure_low_usage_resources db,
                        azure_cost_monitoring_runs db))
            (insert_service_costs rows label).
Proof. unfold insert_service_costs. framed. Qed.

Lemma insert_region_costs_frame (rows : list CostRow) (label : string) :
  preserves (fun db => (azure_service_costs db, azure_region_service_costs db,
                        azure_tag_costs db, azure_low_usage_resources db,
                        azure_cost_monitoring_runs db))
            (insert_region_costs rows label).
Proof. unfold insert_region_costs. framed. Qed.

Lemma insert_region_service_costs_frame (s : schema) (rows : list CostRow)
  (label : string) :
  preserves (fun db => (azure_service_costs db, azure_region_costs db,
                        azure_tag_costs db, azure_low_usage_resources db,
                        azure_cost_monitoring_runs db))
            (insert_region_service_costs s rows label).
Proof. unfold insert_region_service_costs. framed. Qed.

Lemma insert_low_usage_resources_frame (s : schema)
  (findings : list Finding.t) (run_date : Datetime.date) :
  preserves (fun db => (azure_service_costs db, azure_region_costs db,
                        azure_region_service_costs db, azure_tag_costs db,
                        azure_cost_monitoring_runs db))
            (insert_low_usage_resources s findings run_date).
Proof. unfold insert_low_usage_resources. framed. Qed.

(** X12. An insert of service costs fails as a whole or appends: on an error no
    table has changed; on success the rows added are records of the batch,
    as many as the count returned, after the rows already stored, which
    are kept as they were, and the other tables have not changed. *)
Theorem insert_service_costs_outcome (rows : list CostRow) (label : string)
  (db db' : database) (r : result nat) :
  insert_service_costs rows label db = (r, db') ->
  (forall e, r = Raise e ->
             e = PostgreSQLConnectionError /\ tables db' = tables db)
  /\ (forall n, r = Ok n ->
        exists added,
          azure_service_costs db' = azure_service_costs db ++ added
          /\ List.length added = n
          /\ incl added (service_cost_records rows label)
          /\ Forall (fun record => sc_month_label record = label) added)
  /\ (azure_region_costs db', azure_region_service_costs db',
      azure_tag_costs db', azure_low_usage_resources db',
      azure_cost_monitoring_runs db')
     = (azure_region_costs db, azure_region_service_costs db,
        azure_tag_costs db, azure_low_usage_resources db,
        azure_cost_monitoring_runs db).
Proof.
  intros H.
  pose proof (@insert_service_costs_frame rows label db r db' H) as Hframe.
  cbv beta in Hframe.
  unfold insert_service_costs in H.
  apply (@batch_insert_outcome _ service_cost_conflict azure_service_costs
           set_service_costs (fun _ _ => eq_refl))
    in H; [|connect_law].
  destruct H as [Hraise Hok]. split; [|split; [|exact Hframe]].
  - intros e He. destruct (Hraise e He) as [-> Hsame].
    split; [reflexivity|]. unfold tables.
    injection Hframe as -> -> -> -> ->. now rewrite Hsame.
  - intros n Hn. destruct (Hok n Hn) as (added & Ha & Hl & Hincl).
    exists added. repeat split; try assumption.
    apply Forall_forall. intros record Hin. apply Hincl in Hin.
    clear - Hin. induction rows as [|row rows IH]; [contradiction|].
    simpl in Hin. destruct (date_str_of row); [|auto].
    unfold float_of_decimal_of_str in Hin.
    destruct Hin as [<-|Hin]; [reflexivity | auto].
Qed.

(** X13. The cost tables keep one row per key: when no two stored rows share
    the columns of the conflict target, none do after an insert, whatever
    the batch holds and whether the insert succeeds or fails. *)
Theorem cost_inserts_keep_keys_unique (rows : list CostRow)
  (label tag_key_ : string) (db : database) :
  (NoDup (map service_key (azure_service_costs db)) ->
   NoDup (map service_key
            (azure_service_costs
               (snd (insert_service_costs rows label db)))))
  /\ (NoDup (map region_key (azure_region_costs db)) ->
      NoDup (map region_key
               (azure_region_costs
                  (snd (insert_region_costs rows label db)))))
  /\ (NoDup (map tag_key (azure_tag_costs db)) ->
      NoDup (map tag_key
               (azure_tag_costs
                  (snd (insert_tag_costs rows label tag_key_ db))))).
Proof.
  split; [|split]; intros Hnd.
  - destruct (insert_service_costs rows label db) as [r db'] eqn:E.
    unfold insert_service_costs in E.
    eapply (@batch_insert_keeps_keys _ _ service_cost_conflict service_key
              service_cost_conflict_key azure_service_costs
              set_service_costs (fun _ _ => eq_refl));
      [connect_law | exact Hnd | exact E].
  - destruct (insert_region_costs rows label db) as [r db'] eqn:E.
    unfold insert_region_costs in E.
    eapply (@batch_insert_keeps_keys _ _ region_cost_conflict region_key
              region_cost_conflict_key azure_region_costs
              set_region_costs (fun _ _ => eq_refl));
      [connect_law | exact Hnd | exact E].
  - destruct (insert_tag_costs rows label tag_key_ db) as [r db'] eqn:E.
    unfold insert_tag_costs in E.
    eapply (@batch_insert_keeps_keys _ _ tag_cost_conflict tag_key
              tag_cost_conflict_key azure_tag_costs
              set_tag_costs (fun _ _ => eq_refl));
      [connect_law | exact Hnd | exact E].
Qed.

End InsertOutcomes.

Lemma insert_service_costs_outcome_witness :
  let db := empty_database [] in
  let r :=
    fst (Postgres.insert_service_costs sample_cost_rows "2024-05" db) in
  let db' :=
    snd (Postgres.insert_service_costs sample_cost_rows "2024-05" db) in
  (forall e, r = Raise e ->
             e = PostgreSQLConnectionError /\ tables db' = tables db)
  /\ (forall n, r = Ok n ->
        exists added,
          Postgres.azure_service_costs db'
          = Postgres.azure_service_costs db ++ added
          /\ List.length added = n
          /\ incl added
               (Postgres.service_cost_records sample_cost_rows "2024-05")
          /\ Forall (fun record =>
                       Postgres.sc_month_label record = "2024-05"%string)
                    added)
  /\ (Postgres.azure_region_costs db',
      Postgres.azure_region_service_costs db',
      Postgres.azure_tag_costs db', Postgres.azure_low_usage_resources db',
      Postgres.azure_cost_monitoring_runs db')
     = (Postgres.azure_region_costs db,
        Postgres.azure_region_service_costs db,
        Postgres.azure_tag_costs db, Postgres.azure_low_usage_resources db,
        Postgres.azure_cost_monitoring_runs db).
Proof.
  intros db r db'.
  apply (@insert_service_costs_outcome sample_cost_rows "2024-05" db db' r).
  reflexivity.
Defined.

Section WholeInsert.

Import Postgres.

Lemma create_postgres_helper_preserves (G : Type) (g : database -> G)
  (configured : bool) :
  preserves g (create_postgres_helper configured).
Proof.
  unfold create_postgres_helper. destruct configured;
    [apply preserves_ret | apply preserves_throw].
Qed.

Variable db_configured : bool.
Variable s : schema.
Variables service_rows region_rows region_service_rows : list CostRow.
Variable findings : list Finding.t.
Variable run_date : Datetime.date.
Variable month_label : string.

Lemma insert_azure_cost_data_preserves (G : Type) (g : database -> G) :
  (forall t d, g (set_service_costs t d) = g d) ->
  (forall t d, g (set_region_costs t d) = g d) ->
  (forall t d, g (set_region_service_costs t d) = g d) ->
  (forall t d, g (set_low_usage_resources t d) = g d) ->
  (forall d, g (snd (connect d)) = g d) ->
  preserves g
    (insert_azure_cost_data db_configured s service_rows region_rows
       region_service_rows findings run_date month_label).
Proof.
  intros H1 H2 H3 H4 Hc. unfold insert_azure_cost_data.
  apply preserves_mbind; [apply create_postgres_helper_preserves|]. intros _.
  apply preserves_mbind;
    [unfold insert_service_costs; now apply batch_insert_preserves|].
  intros n1.
  apply preserves_mbind;
    [unfold insert_region_costs; now apply batch_insert_preserves|].
  intros n2.
  apply preserves_mbind;
    [unfold insert_region_service_costs; now apply batch_insert_preserves|].
  intros n3.
  apply preserves_mbind;
    [unfold insert_low_usage_resources; now apply batch_insert_preserves|].
  intros n4. apply preserves_ret.
Qed.

Lemma insert_azure_cost_data_appends (R : Type) (g : database -> list R) :
  appends_to g (insert_service_costs service_rows month_label) ->
  appends_to g (insert_region_costs region_rows month_label) ->
  appends_to g (insert_region_service_costs s region_service_rows
                  month_label) ->
  appends_to g (insert_low_usage_resources s findings run_date) ->
  appends_to g
    (insert_azure_cost_data db_configured s service_rows region_rows
       region_service_rows findings run_date month_label).
Proof.
  intros H1 H2 H3 H4. unfold insert_azure_cost_data.
  apply appends_mbind;
    [apply appends_of_preserves, create_postgres_helper_preserves|].
  intros _.
  apply appends_mbind; [assumption|]. intros n1.
  apply appends_mbind; [assumption|]. intros n2.
  apply appends_mbind; [assumption|]. intros n3.
  apply appends_mbind; [assumption|]. intros n4.
  apply appends_of_preserves, preserves_ret.
Qed.

(** X14. The four inserts of a window never remove or rewrite a stored row:
    whether the whole succeeds or stops at an error, each of the four
    tables holds its old rows followed by the rows added, and the tag and
    run tables are as they were. *)
Theorem insert_azure_cost_data_appends_only (db db' : database)
  (r : result insert_counts) :
  insert_azure_cost_data db_configured s service_rows region_rows
    region_service_rows findings run_date month_label db = (r, db') ->
  (exists added,
     azure_service_costs db' = azure_service_costs db ++ added)
  /\ (exists added,
        azure_region_costs db' = azure_region_costs db ++ added)
  /\ (exists added,
        azure_region_service_costs db'
        = azure_region_service_costs db ++ added)
  /\ (exists added,
        azure_low_usage_resources db'
        = azure_low_usage_resources db ++ added)
  /\ azure_tag_costs db' = azure_tag_costs db
  /\ azure_cost_monitoring_runs db' = azure_cost_monitoring_runs db.
Proof.
  intros H. repeat split.
  - revert H. apply insert_azure_cost_data_appends;
      try (apply appends_of_preserves; framed).
    unfold insert_service_costs. grows.
  - revert H. apply insert_azure_cost_data_appends;
      try (apply appends_of_preserves; framed).
    unfold insert_region_costs. grows.
  - revert H. apply insert_azure_cost_data_appends;
      try (apply appends_of_preserves; framed).
    unfold insert_region_service_costs. grows.
  - revert H. apply insert_azure_cost_data_appends;
      try (apply appends_of_preserves; framed).
    unfold insert_low_usage_resources. grows.
  - revert H. apply insert_azure_cost_data_preserves;
      try reflexivity. connect_law.
  - revert H. apply insert_azure_cost_data_preserves;
      try reflexivity. connect_law.
Qed.

End WholeInsert.

Lemma insert_azure_cost_data_appends_only_witness :
  let db := empty_database [Postgres.Up; Postgres.Broken] in
  let db' :=
    snd (Postgres.insert_azure_cost_data true no_constraint sample_cost_rows
           sample_cost_rows [] [sample_finding] may_20 "2024-05" db) in
  (exists added,
     Postgres.azure_service_costs db'
     = Postgres.azure_service_costs db ++ added)
  /\ (exists added,
        Postgres.azure_region_costs db'
        = Postgres.azure_region_costs db ++ added)
  /\ (exists added,
        Postgres.azure_region_service_costs db'
        = Postgres.azure_region_service_costs db ++ added)
  /\ (exists added,
        Postgres.azure_low_usage_resources db'
        = Postgres.azure_low_usage_resources db ++ added)
  /\ Postgres.azure_tag_costs db' = Postgres.azure_tag_costs db
  /\ Postgres.azure_cost_monitoring_runs db'
     = Postgres.azure_cost_monitoring_runs db.
Proof.
  intros db db'.
  apply (@insert_azure_cost_data_appends_only true no_constraint
           sample_cost_rows sample_cost_rows [] [sample_finding] may_20
           "2024-05" db db'
           (fst (Postgres.insert_azure_cost_data true no_constraint
                   sample_cost_rows sample_cost_rows [] [sample_finding]
                   may_20 "2024-05" db))).
  reflexivity.
Defined.

Section Cleanup.

Import Postgres.



End Cleanup.


(** Eighteen days before the twentieth of May, the row of the first of May
    goes and the row of the third stays. *)
Example cleanup_old_data_example :
  let db :=
    snd (Postgres.insert_service_costs sample_cost_rows "2024-05"
           (empty_database [])) in
  fst (Postgres.cleanup_old_data may_20 18 db) = Ok 1%nat
  /\ map Postgres.sc_date_period
       (Postgres.azure_service_costs
          (snd (Postgres.cleanup_old_data may_20 18 db)))
     = ["2024-05-03"%string].
Proof. split; reflexivity. Qed.

Section RunLog.

Import Postgres.

Lemma insert_monitoring_run_outcome (run_data : monitoring_run)
  (db db' : database) (r : result (option string)) :
  insert_monitoring_run run_data db = (r, db') ->
  (azure_service_costs db', azure_region_costs db',
   azure_region_service_costs db', azure_tag_costs db',
   azure_low_usage_resources db')
  = (azure_service_costs db, azure_region_costs db,
     azure_region_service_costs db, azure_tag_costs db,
     azure_low_usage_resources db)
  /\ ((r = Raise PostgreSQLConnectionError
       /\ azure_cost_monitoring_runs db' = azure_cost_monitoring_runs db)
      \/ (r = Ok (Some (str_of_int
                          (Z.of_nat
                             (S (List.length
                                   (azure_cost_monitoring_runs db))))))
          /\ azure_cost_monitoring_runs db'
             = azure_cost_monitoring_runs db ++ [run_data])).
Proof.
  unfold insert_monitoring_run. intros H.
  pose proof (connect_tables db) as Hc.
  destruct (connect db) as [s db1]. simpl in Hc.
  unfold tables in Hc. injection Hc as H1 H2 H3 H4 H5 H6.
  destruct s; injection H as <- <-;
    cbn [azure_service_costs azure_region_costs azure_region_service_costs
         azure_tag_costs azure_low_usage_resources
         azure_cost_monitoring_runs set_monitoring_runs];
    rewrite H1, H2, H3, H4, H5, H6; (split; [reflexivity|]).
  - right. split; [|reflexivity].
    rewrite length_app. simpl List.length.
    now replace (List.length (azure_cost_monitoring_runs db) + 1)%nat
      with (S (List.length (azure_cost_monitoring_runs db))) by lia.
  - now left.
  - now left.
Qed.

Lemma test_connection_preserves (G : Type) (g : database -> G) :
  (forall d, g (snd (connect d)) = g d) -> preserves g test_connection.
Proof.
  intros Hc db r db' H. unfold test_connection in H.
  pose proof (Hc db) as Hd. destruct (connect db) as [s db1]. simpl in Hd.
  destruct s; injection H as _ <-; assumption.
Qed.

(** X16. A run that stored its data has written one row to the run table,
    the last one, with the status [success], the dates and the totals of
    the analysis and the number of its findings; the tag table is as it
    was, and the results hold the id of the run. *)
Theorem store_writes_one_run (env : environment) (a : analysis)
  (db db' : database) (results : postgres_results) :
  store env a db = (Ok results, db') ->
  azure_cost_monitoring_runs db'
  = azure_cost_monitoring_runs db ++ [success_run env a]
  /\ azure_tag_costs db' = azure_tag_costs db
  /\ exists current_month last_month run_id,
       results = Success current_month last_month (Some run_id).
Proof.
  unfold store. intros H.
  set (g := fun d => (azure_cost_monitoring_runs d, azure_tag_costs d)).
  assert (Hc : forall d, g (snd (connect d)) = g d) by connect_law.
  unfold mbind at 1 in H.
  destruct (create_postgres_helper (db_configured env) db)
    as [[[]|e] db0] eqn:E0; [|discriminate].
  apply (@create_postgres_helper_preserves _ g) in E0.
  unfold mbind at 1 in H.
  destruct (test_connection db0) as [[connected|e] db1] eqn:E1;
    [|discriminate].
  apply (@test_connection_preserves _ g Hc) in E1.
  destruct connected; [|discriminate]. cbn [negb] in H.
  unfold mbind at 1 in H.
  match type of H with
  | context [insert_azure_cost_data ?c ?s ?r1 ?r2 ?r3 ?f ?d ?l db1] =>
      destruct (insert_azure_cost_data c s r1 r2 r3 f d l db1)
        as [[current|e] db2] eqn:E2; [|discriminate];
      apply (@insert_azure_cost_data_preserves c s r1 r2 r3 f d l _ g) in E2;
      [|reflexivity..|exact Hc]
  end.
  unfold mbind at 1 in H.
  match type of H with
  | context [insert_azure_cost_data ?c ?s ?r1 ?r2 ?r3 ?f ?d ?l db2] =>
      destruct (insert_azure_cost_data c s r1 r2 r3 f d l db2)
        as [[last|e] db3] eqn:E3; [|discriminate];
      apply (@insert_azure_cost_data_preserves c s r1 r2 r3 f d l _ g) in E3;
      [|reflexivity..|exact Hc]
  end.
  unfold mbind in H. fold (success_run env a) in H.
  destruct (insert_monitoring_run (success_run env a) db3)
    as [[run_id|e] db4] eqn:E4; [|discriminate].
  injection H as <- <-.
  apply insert_monitoring_run_outcome in E4.
  destruct E4 as [Hsame [[Hr _]|[Hr Hruns]]]; [discriminate|].
  injection Hr as ->. injection Hsame as _ _ _ Htag _.
  assert (Hg : g db3 = g db) by (now rewrite E3, E2, E1, E0).
  unfold g in Hg. injection Hg as Hruns3 Htag3.
  rewrite Hruns, Htag, Hruns3, Htag3.
  split; [reflexivity|]. split; [reflexivity|]. eauto.
Qed.

End RunLog.

Lemma store_writes_one_run_witness :
  exists a results db',
    analyse sample_environment = Ok a
    /\ store sample_environment a (empty_database []) = (Ok results, db')
    /\ Postgres.azure_cost_monitoring_runs db'
       = Postgres.azure_cost_monitoring_runs (empty_database [])
           ++ [success_run sample_environment a]
    /\ Postgres.azure_tag_costs db'
       = Postgres.azure_tag_costs (empty_database [])
    /\ exists current_month last_month run_id,
         results = Success current_month last_month (Some run_id).
Proof.
  do 3 eexists. split; [reflexivity|].
  match goal with
  | |- ?A /\ _ =>
      assert (E : A) by (lazy; reflexivity);
      split; [exact E | exact (@store_writes_one_run _ _ _ _ _ E)]
  end.
Defined.

Section MainOutcome.

Import Postgres.

Lemma main_body_after_analysis (env : environment) (a : analysis)
  (db : database) :
  analyse env = Ok a ->
  exists results db', main_body env db = (Ok (a, results), db').
Proof.
  intros Ha. unfold main_body. rewrite Ha. unfold mbind.
  assert (Hst : exists r db1, storage_phase env a db = (Ok r, db1)).
  { unfold storage_phase. destruct (ENABLE_POSTGRES env).
    - unfold try_except.
      destruct (store env a db) as [[r|e] db1]; do 2 eexists; reflexivity.
    - do 2 eexists; reflexivity. }
  destruct Hst as [r [db1 Hst]]. rewrite Hst.
  destruct (cleanup_phase_returns env r db1) as [db' Hc]. rewrite Hc.
  do 2 eexists. reflexivity.
Qed.

Lemma log_failure_outcome (env : environment) (e : exn) (db db' : database)
  (r : result Datatypes.unit) :
  log_failure env e db = (r, db') ->
  data_tables db' = data_tables db
  /\ (azure_cost_monitoring_runs db' = azure_cost_monitoring_runs db
      \/ exists run,
           azure_cost_monitoring_runs db'
           = azure_cost_monitoring_runs db ++ [run]
           /\ ENABLE_POSTGRES env = true
           /\ execution_status run = "failed"%string
           /\ error_message run
              = Some ("Azure Function execution failed: "
                        ++ exn_text e)%string
           /\ low_usage_count run = 0%nat).
Proof.
  unfold log_failure. intros H.
  destruct (ENABLE_POSTGRES env);
    [|injection H as _ <-; split; [reflexivity | now left]].
  unfold try_except, mbind in H.
  unfold create_postgres_helper in H.
  destruct (db_configured env);
    [|injection H as _ <-; split; [reflexivity | now left]].
  unfold ret in H at 1.
  destruct (Datetime.replace (today env) None None (Some 1%Z)) as [first|e'];
    [|injection H as _ <-; split; [reflexivity | now left]].
  match type of H with
  | context [insert_monitoring_run ?run db] =>
      destruct (insert_monitoring_run run db) as [[id|e'] db1] eqn:E;
      apply insert_monitoring_run_outcome in E;
      destruct E as [Hsame [[Hr Hruns]|[Hr Hruns]]];
      try discriminate;
      injection H as _ <-;
      (split; [exact Hsame|]);
      [right; exists run; repeat split; assumption | now left]
  end.
Qed.

(** X17. [main] ends in one of two ways. When the analysis went through it
    returns, whatever the storage did. When the analysis raised, [main]
    raises the same exception again; the cost, tag and finding tables are
    as they were, and the run table is as it was or has one more row, a
    failed run with the error and no finding; with the persistence off
    the database is not touched at all. *)
Theorem main_outcome (env : environment) (db db' : database)
  (r : result Datatypes.unit) :
  main env db = (r, db') ->
  (forall a, analyse env = Ok a -> r = Ok tt)
  /\ (forall e, analyse env = Raise e ->
        r = Raise e
        /\ data_tables db' = data_tables db
        /\ (azure_cost_monitoring_runs db' = azure_cost_monitoring_runs db
            \/ exists run,
                 azure_cost_monitoring_runs db'
                 = azure_cost_monitoring_runs db ++ [run]
                 /\ ENABLE_POSTGRES env = true
                 /\ execution_status run = "failed"%string
                 /\ error_message run
                    = Some ("Azure Function execution failed: "
                              ++ exn_text e)%string
                 /\ low_usage_count run = 0%nat))
  /\ (ENABLE_POSTGRES env = false -> db' = db).
Proof.
  intros H. unfold main in H. split; [|split].
  - intros a Ha.
    destruct (main_body_after_analysis env db Ha) as [results [db1 Hb]].
    rewrite Hb in H. now injection H as <- _.
  - intros e He. unfold main_body in H. rewrite He in H.
    destruct (log_failure env e db) as [r0 db1] eqn:El.
    injection H as <- <-. split; [reflexivity|].
    now apply log_failure_outcome in El.
  - intros Hoff. unfold main_body, log_failure, storage_phase,
      cleanup_phase in H.
    rewrite Hoff in H. cbn [andb] in H.
    destruct (analyse env) as [a|e]; unfold mbind, ret in H;
      now injection H as _ <-.
Qed.

End MainOutcome.

Lemma main_outcome_witness :
  let env := sample_unconfigured in
  let db := empty_database [] in
  let r := fst (main env db) in
  let db' := snd (main env db) in
  (forall a, analyse env = Ok a -> r = Ok tt)
  /\ (forall e, analyse env = Raise e ->
        r = Raise e
        /\ data_tables db' = data_tables db
        /\ (Postgres.azure_cost_monitoring_runs db'
            = Postgres.azure_cost_monitoring_runs db
            \/ exists run,
                 Postgres.azure_cost_monitoring_runs db'
                 = Postgres.azure_cost_monitoring_runs db ++ [run]
                 /\ ENABLE_POSTGRES env = true
                 /\ Postgres.execution_status run = "failed"%string
                 /\ Postgres.error_message run
                    = Some ("Azure Function execution failed: "
                              ++ exn_text e)%string
                 /\ Postgres.low_usage_count run = 0%nat))
  /\ (ENABLE_POSTGRES env = false -> db' = db).
Proof.
  intros env db r db'.
  apply (@main_outcome env db db' r).
  reflexivity.
Defined.

(** Without a subscription id the run raises the configuration error and
    leaves one failed run in the log. *)
Example main_without_subscription :
  fst (main sample_unconfigured (empty_database [])) = Raise ValueError
  /\ map Postgres.execution_status
       (Postgres.azure_cost_monitoring_runs
          (snd (main sample_unconfigured (empty_database []))))
     = ["failed"%string].
Proof. split; reflexivity. Qed.

(** ** The cost inserts run again *)

Section SecondRun.

Import Postgres.

(** A batch under [DO NOTHING] that went through, run again: the table
    stays as the first run left it, whether the server answers or not. *)
Lemma batch_insert_do_nothing_settles (R : Type) (conflict : R -> R -> bool)
  (get : database -> list R) (set : list R -> database -> database)
  (records : list R) (db db1 db2 : database) (n : nat) (r : result nat) :
  (forall x, conflict x x = true) ->
  (forall t d, get (set t d) = t) ->
  (forall d, get (snd (connect d)) = get d) ->
  _execute_batch_insert conflict DoNothing get set records db = (Ok n, db1) ->
  _execute_batch_insert conflict DoNothing get set records db1 = (r, db2) ->
  get db2 = get db1
  /\ (r = Ok 0%nat \/ r = Raise PostgreSQLConnectionError).
Proof.
  intros Hrefl Hget Hcon H1 H2. unfold _execute_batch_insert in *.
  destruct records as [|x records].
  - injection H2 as <- <-. auto.
  - pose proof (Hcon db) as Hc. destruct (connect db) as [s db0].
    cbn [snd] in Hc.
    destruct s; try discriminate.
    destruct (executemany conflict DoNothing (get db0) (x :: records) 0)
      as [[table' n']|] eqn:E; [|discriminate].
    injection H1 as <- <-.
    pose proof (Hcon (set table' db0)) as Hc1.
    destruct (connect (set table' db0)) as [s1 db1']. cbn [snd] in Hc1.
    rewrite Hget in Hc1.
    destruct s1.
    + rewrite Hc1 in H2.
      rewrite (@executemany_do_nothing_idempotent R conflict Hrefl
                 (x :: records) (get db0) table' 0 n' E) in H2.
      injection H2 as <- <-. rewrite !Hget. auto.
    + injection H2 as <- <-. rewrite Hget. auto.
    + injection H2 as <- <-. rewrite Hget. auto.
Qed.

Lemma insert_tag_costs_frame (rows : list CostRow) (label key : string) :
  preserves (fun db => (azure_service_costs db, azure_region_costs db,
                        azure_region_service_costs db,
                        azure_low_usage_resources db,
                        azure_cost_monitoring_runs db))
            (insert_tag_costs rows label key).
Proof. unfold insert_tag_costs. framed. Qed.

(** X20. The inserts of service, region and tag costs can be run again:
    after a run that went through, a second run with the same data changes
    no table, and it reports that no row was inserted unless the
    connection fails. *)
Theorem cost_inserts_rerun_changes_nothing (rows : list CostRow)
  (label key : string) (db db1 db2 : database) (n : nat) (r : result nat) :
  (insert_service_costs rows label db = (Ok n, db1) ->
   insert_service_costs rows label db1 = (r, db2) ->
   tables db2 = tables db1
   /\ (r = Ok 0%nat \/ r = Raise PostgreSQLConnectionError))
  /\ (insert_region_costs rows label db = (Ok n, db1) ->
      insert_region_costs rows label db1 = (r, db2) ->
      tables db2 = tables db1
      /\ (r = Ok 0%nat \/ r = Raise PostgreSQLConnectionError))
  /\ (insert_tag_costs rows label key db = (Ok n, db1) ->
      insert_tag_costs rows label key db1 = (r, db2) ->
      tables db2 = tables db1
      /\ (r = Ok 0%nat \/ r = Raise PostgreSQLConnectionError)).
Proof.
  split; [|split]; intros H1 H2.
  - pose proof (@insert_service_costs_frame rows label db1 r db2 H2)
      as Hframe.
    cbv beta in Hframe. unfold insert_service_costs in H1, H2.
    destruct (@batch_insert_do_nothing_settles _ service_cost_conflict
                azure_service_costs set_service_costs _ db db1 db2 n r
                service_cost_conflict_refl (fun _ _ => eq_refl)
                ltac:(connect_law) H1 H2) as [Hsame Hr].
    split; [|exact Hr]. unfold tables.
    injection Hframe as -> -> -> -> ->. now rewrite Hsame.
  - pose proof (@insert_region_costs_frame rows label db1 r db2 H2)
      as Hframe.
    cbv beta in Hframe. unfold insert_region_costs in H1, H2.
    destruct (@batch_insert_do_nothing_settles _ region_cost_conflict
                azure_region_costs set_region_costs _ db db1 db2 n r
                region_cost_conflict_refl (fun _ _ => eq_refl)
                ltac:(connect_law) H1 H2) as [Hsame Hr].
    split; [|exact Hr]. unfold tables.
    injection Hframe as -> -> -> -> ->. now rewrite Hsame.
  - pose proof (@insert_tag_costs_frame rows label key db1 r db2 H2)
      as Hframe.
    cbv beta in Hframe. unfold insert_tag_costs in H1, H2.
    destruct (@batch_insert_do_nothing_settles _ tag_cost_conflict
                azure_tag_costs set_tag_costs _ db db1 db2 n r
                tag_cost_conflict_refl (fun _ _ => eq_refl)
                ltac:(connect_law) H1 H2) as [Hsame Hr].
    split; [|exact Hr]. unfold tables.
    injection Hframe as -> -> -> -> ->. now rewrite Hsame.
Qed.

End SecondRun.

(** Two records stored by the first run, none by the second. *)
Example cost_inserts_rerun_example :
  let first :=
    Postgres.insert_service_costs sample_cost_rows "2024-05"
      (empty_database []) in
  let second :=
    Postgres.insert_service_costs sample_cost_rows "2024-05" (snd first) in
  fst first = Ok 2%nat
  /\ fst second = Ok 0%nat
  /\ tables (snd second) = tables (snd first).
Proof. repeat split. Qed.

(** ** The analysis and the provider *)

Section Analysis.

Import Datetime.

(** The window of the previous month is computed, and the day after its
    end is the first day of the month of the run. *)
Lemma previous_month_window (t : date) :
  valid (year t) (month t) (day t) = true ->
  (1 < year t \/ 1 < month t)%Z ->
  exists first last_,
    last_month_window t = Ok (first, last_)
    /\ tomorrow last_ = Ok {| year := year t; month := month t; day := 1 |}.
Proof.
  intros Hv Hy. destruct t as [ty tm td]. cbn [year month day] in *.
  apply valid_bounds in Hv.
  unfold MINYEAR, MAXYEAR in Hv. destruct Hv as [Hty [Htm Htd]].
  unfold last_month_window, replace. cbn [year month day].
  rewrite code_leap_test.
  destruct (Z.eqb_spec tm 1) as [->|Hne].
  - assert (H1 : valid (ty - 1) 12 1 = true)
      by (apply valid_bounds; unfold MINYEAR, MAXYEAR;
          change (days_in_month (ty - 1) 12) with 31%Z; lia).
    assert (H31 : valid (ty - 1) 12 31 = true)
      by (apply valid_bounds; unfold MINYEAR, MAXYEAR;
          change (days_in_month (ty - 1) 12) with 31%Z; lia).
    rewrite (make_valid _ _ _ H1). cbn [bind].
    rewrite (make_valid _ _ _ H31). cbn [bind].
    do 2 eexists. split; [reflexivity|].
    unfold tomorrow. cbn [year month day].
    change (days_in_month (ty - 1) 12) with 31%Z.
    change (31 <? 31)%Z with false. change (12 <? 12)%Z with false.
    cbv iota.
    replace (ty - 1 <? MAXYEAR)%Z with true
      by (symmetry; apply Z.ltb_lt; unfold MAXYEAR; lia).
    do 2 f_equal. lia.
  - pose proof (@days_in_month_bounds ty (tm - 1) ltac:(lia)) as Hdim.
    assert (H1 : valid ty (tm - 1) 1 = true)
      by (apply valid_bounds; unfold MINYEAR, MAXYEAR; lia).
    assert (Hl : valid ty (tm - 1) (days_in_month ty (tm - 1)) = true)
      by (apply valid_bounds; unfold MINYEAR, MAXYEAR; lia).
    rewrite (make_valid _ _ _ H1). cbn [bind].
    rewrite last_day_of_previous_month by lia.
    rewrite (make_valid _ _ _ Hl). cbn [bind].
    do 2 eexists. split; [reflexivity|].
    unfold tomorrow. cbn [year month day].
    rewrite Z.ltb_irrefl.
    replace (tm - 1 <? 12)%Z with true by (symmetry; apply Z.ltb_lt; lia).
    do 2 f_equal. lia.
Qed.

Lemma tomorrow_exists (t : date) :
  valid (year t) (month t) (day t) = true ->
  t <> {| year := 9999; month := 12; day := 31 |} ->
  exists next, tomorrow t = Ok next.
Proof.
  intros Hv Hne. destruct t as [ty tm td]. cbn [year month day] in *.
  apply valid_bounds in Hv.
  unfold MINYEAR, MAXYEAR in Hv. destruct Hv as [Hty [Htm Htd]].
  unfold tomorrow. cbn [year month day].
  destruct (Z.ltb_spec td (days_in_month ty tm)); [eauto|].
  destruct (Z.ltb_spec tm 12); [eauto|].
  destruct (Z.ltb_spec ty MAXYEAR); [eauto|].
  unfold MAXYEAR in *. exfalso. apply Hne.
  assert (tm = 12%Z) by lia. subst tm.
  change (days_in_month ty 12) with 31%Z in *.
  f_equal; lia.
Qed.

(** A provider that refuses every cost query gives empty groupings. *)
Lemma failed_query_gives_no_row (client : Cost.client)
  (scope start end_ : string) :
  (forall query, exists e, client query = Raise e) ->
  process_cost_response (get_cost_breakdown_by_service client scope start end_)
  = []
  /\ process_cost_response
       (get_cost_breakdown_by_region client scope start end_) = []
  /\ process_cost_response
       (get_cost_breakdown_by_region_and_service client scope start end_)
     = [].
Proof.
  intros Hfail.
  unfold get_cost_breakdown_by_service, get_cost_breakdown_by_region,
    get_cost_breakdown_by_region_and_service, get_cost_data.
  repeat split;
    match goal with
    | |- context [client ?q] => destruct (Hfail q) as [e ->]
    end; reflexivity.
Qed.

(** X19. With a subscription id and a date of the calendar (other than
    one of January of year 1 and than the last day of year 9999) the
    analysis does not depend on the provider being there: its only error
    is the invalid operation of the decimal totals; when every cost query
    is refused it succeeds, the six groupings are empty and both totals are
    zero; when the listing of the resources fails on its first page there
    is no finding. *)
Theorem analyse_survives_provider_failure (env : environment) :
  truthy_text (SUBSCRIPTION_ID env) = true ->
  valid (year (today env)) (month (today env)) (day (today env)) = true ->
  (1 < year (today env) \/ 1 < month (today env))%Z ->
  today env <> {| year := 9999; month := 12; day := 31 |} ->
  (forall e, analyse env = Raise e -> e = InvalidOperation)
  /\ ((forall query, exists e, cost_client env query = Raise e) ->
      exists a,
        analyse env = Ok a
        /\ cost_data_service a = []
        /\ cost_data_region a = []
        /\ cost_data_region_service a = []
        /\ last_month_cost_data_service a = []
        /\ last_month_cost_data_region a = []
        /\ last_month_cost_data_region_service a = []
        /\ current_total_cost a = Finite 0
        /\ last_total_cost a = Finite 0)
  /\ (forall a e rest,
        analyse env = Ok a ->
        resource_client env = Raise e :: rest ->
        low_usage_resources a = []).
Proof.
  intros Hsub Hv Hy Hlast.
  destruct (@tomorrow_exists (today env) Hv Hlast) as [next Hnext].
  destruct (@previous_month_window (today env) Hv Hy)
    as (first & last_ & Hwin & Hend).
  assert (Hstart : replace (today env) None None (Some 1%Z)
                   = Ok {| year := year (today env);
                           month := month (today env); day := 1 |}).
  { unfold replace. apply make_valid.
    apply valid_bounds in Hv. apply valid_bounds.
    pose proof (@days_in_month_bounds (year (today env))
                  (month (today env)) ltac:(lia)).
    lia. }
  unfold analyse. rewrite Hsub. cbn [negb].
  rewrite Hstart. cbn [bind]. rewrite Hnext. cbn [bind].
  rewrite Hwin. cbn [bind fst snd]. rewrite Hend. cbn [bind].
  split; [|split].
  - intros e H.
    match type of H with
    | context [total_cost ?rows (Finite 0)] =>
        destruct (total_cost rows (Finite 0)) as [c|e1] eqn:E1
    end.
    + cbn [bind] in H.
      match type of H with
      | context [total_cost ?rows (Finite 0)] =>
          destruct (total_cost rows (Finite 0)) as [l|e2] eqn:E2
      end; [discriminate|].
      cbn [bind] in H. injection H as <-.
      now apply total_cost_raises in E2.
    + cbn [bind] in H. injection H as <-.
      now apply total_cost_raises in E1.
  - intros Hfail.
    pose proof (fun scope a b =>
                  @failed_query_gives_no_row (cost_client env) scope a b
                    Hfail) as Hnone.
    match goal with
    | |- context [get_cost_breakdown_by_service _ ?scope ?a ?b] =>
        destruct (Hnone scope a b) as (-> & -> & ->)
    end.
    match goal with
    | |- context [get_cost_breakdown_by_service _ ?scope ?a ?b] =>
        destruct (Hnone scope a b) as (-> & -> & ->)
    end.
    cbn [total_cost bind]. eexists. split; [reflexivity|].
    cbn [cost_data_service cost_data_region cost_data_region_service
         last_month_cost_data_service last_month_cost_data_region
         last_month_cost_data_region_service current_total_cost
         last_total_cost].
    repeat split.
  - intros a e rest H Hres.
    match type of H with
    | context [total_cost ?rows (Finite 0)] =>
        destruct (total_cost rows (Finite 0)) as [c|e1]
    end; [|discriminate].
    cbn [bind] in H.
    match type of H with
    | context [total_cost ?rows (Finite 0)] =>
        destruct (total_cost rows (Finite 0)) as [l|e2]
    end; [|discriminate].
    cbn [bind] in H. injection H as <-. cbn [low_usage_resources].
    rewrite Hres. reflexivity.
Qed.

End Analysis.

Lemma analyse_survives_provider_failure_witness :
  (forall e, analyse sample_environment = Raise e -> e = InvalidOperation)
  /\ ((forall query, exists e,
         cost_client sample_environment query = Raise e) ->
      exists a,
        analyse sample_environment = Ok a
        /\ cost_data_service a = []
        /\ cost_data_region a = []
        /\ cost_data_region_service a = []
        /\ last_month_cost_data_service a = []
        /\ last_month_cost_data_region a = []
        /\ last_month_cost_data_region_service a = []
        /\ current_total_cost a = Finite 0
        /\ last_total_cost a = Finite 0)
  /\ (forall a e rest,
        analyse sample_environment = Ok a ->
        resource_client sample_environment = Raise e :: rest ->
        low_usage_resources a = []).
Proof.
  apply (@analyse_survives_provider_failure sample_environment).
  - reflexivity.
  - reflexivity.
  - left. reflexivity.
  - discriminate.
Defined.

(** ** The conversion of decimals *)

Section Decimals.

Lemma convert_dict (items : list (string * pyobject)) :
  convert_decimals_to_float (ODict items)
  = ODict (map (fun kv => (fst kv, convert_decimals_to_float (snd kv))) items).
Proof.
  simpl. f_equal. induction items as [|[k v] items IH]; [reflexivity|].
  simpl. now rewrite IH.
Qed.

Lemma convert_list (items : list pyobject) :
  convert_decimals_to_float (OList items)
  = OList (map convert_decimals_to_float items).
Proof.
  reflexivity.
Qed.

Lemma has_decimal_dict (items : list (string * pyobject)) :
  has_decimal (ODict items) = existsb (fun kv => has_decimal (snd kv)) items.
Proof.
  simpl. induction items as [|[k v] items IH]; [reflexivity|].
  simpl. now rewrite IH.
Qed.

Lemma has_decimal_list (items : list pyobject) :
  has_decimal (OList items) = existsb has_decimal items.
Proof.
  simpl. induction items as [|v items IH]; [reflexivity|].
  simpl. now rewrite IH.
Qed.

(** Induction on an object with its parts. *)
Lemma pyobject_parts (P : pyobject -> Prop) :
  (forall d, P (ODecimal d)) -> (forall x, P (OFloat x)) ->
  (forall v, P (OOther v)) ->
  (forall items, Forall (fun kv => P (snd kv)) items -> P (ODict items)) ->
  (forall items, Forall P items -> P (OList items)) ->
  forall obj, P obj.
Proof.
  intros Hd Hf Ho Hdict Hlist.
  fix rec 1. intros [d|x|v|items|items].
  - apply Hd.
  - apply Hf.
  - apply Ho.
  - apply Hdict. induction items as [|[k v] items IH]; constructor.
    + apply rec.
    + exact IH.
  - apply Hlist. induction items as [|v items IH]; constructor.
    + apply rec.
    + exact IH.
Qed.

(** X18. The conversion leaves no [Decimal] behind, at any depth of dicts
    and lists; it returns an object without a [Decimal] as it is, and
    changes nothing more when run again. *)
Theorem convert_decimals_to_float_clears (obj : pyobject) :
  has_decimal (convert_decimals_to_float obj) = false
  /\ (has_decimal obj = false -> convert_decimals_to_float obj = obj)
  /\ convert_decimals_to_float (convert_decimals_to_float obj)
     = convert_decimals_to_float obj.
Proof.
  induction obj as [d|x|v|items IH|items IH] using pyobject_parts.
  - split; [reflexivity|split; [discriminate|reflexivity]].
  - split; [reflexivity|split; reflexivity].
  - split; [reflexivity|split; reflexivity].
  - rewrite !convert_dict, has_decimal_dict. split; [|split].
    + induction IH as [|[k v] items [H _] _ IHl]; [reflexivity|].
      simpl in *. now rewrite H, IHl.
    + rewrite has_decimal_dict. intros Hnone. f_equal.
      induction IH as [|[k v] items [_ [H _]] _ IHl]; [reflexivity|].
      simpl in *. apply orb_false_iff in Hnone. destruct Hnone as [Hv Hl].
      now rewrite (H Hv), (IHl Hl).
    + f_equal. rewrite map_map.
      induction IH as [|[k v] items [_ [_ H]] _ IHl]; [reflexivity|].
      simpl in *. now rewrite H, IHl.
  - rewrite !convert_list, has_decimal_list. split; [|split].
    + induction IH as [|v items [H _] _ IHl]; [reflexivity|].
      simpl in *. now rewrite H, IHl.
    + rewrite has_decimal_list. intros Hnone. f_equal.
      induction IH as [|v items [_ [H _]] _ IHl]; [reflexivity|].
      simpl in *. apply orb_false_iff in Hnone. destruct Hnone as [Hv Hl].
      now rewrite (H Hv), (IHl Hl).
    + f_equal. rewrite map_map.
      induction IH as [|v items [_ [_ H]] _ IHl]; [reflexivity|].
      simpl in *. now rewrite H, IHl.
Qed.

End Decimals.
